(** * Batch media-conversion scripts: a shallow embedding

    The development follows the five scripts of the repository
    ([video2audio.py], [audio_compresser.py], [audio2text.py],
    [soundext.py], [vid_compresser.py]).  Pure helpers become functions,
    the file system and the log of started [ffmpeg] processes become an
    explicit [world] that is threaded through every operation, and Python
    exceptions become the [Raise] case of a result type.  The external
    encoder, the speech recogniser and the choice of temporary names are
    parameters of the development. *)

From Stdlib Require Import ZArith NArith String Ascii List Permutation Lia.
From stdpp Require Import base decidable option list gmap fin_maps.

Local Open Scope N_scope.

(** ** Python strings *)

(** A Python [str] is a sequence of code points. *)
Abbreviation pystr := (list N).

Definition py (s : string) : pystr :=
  List.map N_of_ascii (list_ascii_of_string s).

Definition DOT : N := 46.
Definition SLASH : N := 47.

(** [str.lower()] on the letters A-Z; every other code point is returned
    unchanged (the case mapping of non-ASCII letters is not modelled). *)
Definition lower_cp (c : N) : N :=
  if (65 <=? c) && (c <=? 90) then c + 32 else c.

Definition lower (s : pystr) : pystr := List.map lower_cp s.

(** [s.rfind(c)]: the index of the last occurrence, [None] for Python's -1. *)
Fixpoint rfind (c : N) (s : pystr) : option nat :=
  match s with
  | [] => None
  | x :: r =>
      match rfind c r with
      | Some i => Some (S i)
      | None => if x =? c then Some 0%nat else None
      end
  end.

(** [_PyUnicode_IsWhitespace], the code points removed by [str.strip()]. *)
Definition is_space (c : N) : bool :=
  ((9 <=? c) && (c <=? 13)) || ((28 <=? c) && (c <=? 32))
  || (c =? 133) || (c =? 160) || (c =? 5760)
  || ((8192 <=? c) && (c <=? 8202))
  || (c =? 8232) || (c =? 8233) || (c =? 8239) || (c =? 8287) || (c =? 12288).

Fixpoint lstrip (s : pystr) : pystr :=
  match s with
  | c :: r => if is_space c then lstrip r else s
  | [] => []
  end.

Definition rstrip (s : pystr) : pystr := rev (lstrip (rev s)).

Definition strip (s : pystr) : pystr := rstrip (lstrip s).

(** [sub in s] *)
Fixpoint is_prefix (p s : pystr) : bool :=
  match p, s with
  | [], _ => true
  | _ :: _, [] => false
  | a :: p', b :: s' => (a =? b) && is_prefix p' s'
  end.

Fixpoint contains (sub s : pystr) : bool :=
  is_prefix sub s
  || match s with
     | [] => false
     | _ :: r => contains sub r
     end.

(** [s.split(sep)] for a separator that is not empty: the pieces between the
    occurrences of [sep], found from the left and without overlap.  [cur] is
    the piece read so far, in reverse; [skip] counts the code points of a
    separator that are still to pass. *)
Fixpoint split_from (sep s cur : pystr) (skip : nat) : list pystr :=
  match s with
  | [] => [rev cur]
  | c :: r =>
      match skip with
      | S k => split_from sep r cur k
      | O =>
          if is_prefix sep s then rev cur :: split_from sep r [] (length sep - 1)
          else split_from sep r (c :: cur) 0
      end
  end.

Definition split (s sep : pystr) : list pystr := split_from sep s [] 0.

(** [s.split()]: the words between runs of white space. *)
Fixpoint split_ws_from (s cur : pystr) : list pystr :=
  match s with
  | [] => match cur with [] => [] | _ => [rev cur] end
  | c :: r =>
      if is_space c then
        match cur with
        | [] => split_ws_from r []
        | _ => rev cur :: split_ws_from r []
        end
      else split_ws_from r (c :: cur)
  end.

Definition split_ws (s : pystr) : list pystr := split_ws_from s [].

(** ** Paths *)

(** A path is the tuple [PurePath.parts]; an absolute path starts with the
    part ["/"], and [Path('.')] has no parts.  A name read from a directory
    listing has no separator, so joining it appends one part. *)
Abbreviation path := (list pystr).

Definition ROOT : pystr := [SLASH].

Definition is_anchor (p : path) : bool :=
  bool_decide (p = []) || bool_decide (p = [ROOT]).

(** [PurePath.name] *)
Definition name (p : path) : pystr :=
  if is_anchor p then [] else List.last p [].

(** [PurePath.parent] and, on the rendered string, [os.path.dirname] *)
Definition parent (p : path) : path :=
  if is_anchor p then p else removelast p.

Definition dirname (p : path) : path := removelast p.

Definition basename (p : path) : pystr := List.last p [].

(** The suffix of a file name as [pathlib] computes it:
    [i = name.rfind('.')], a suffix only when [0 < i < len(name) - 1]. *)
Definition name_suffix (n : pystr) : pystr :=
  match rfind DOT n with
  | Some i => if (0 <? i)%nat && (i <? length n - 1)%nat then drop i n else []
  | None => []
  end.

Definition name_stem (n : pystr) : pystr :=
  match rfind DOT n with
  | Some i => if (0 <? i)%nat && (i <? length n - 1)%nat then take i n else n
  | None => n
  end.

Definition suffix (p : path) : pystr := name_suffix (name p).
Definition stem (p : path) : pystr := name_stem (name p).

(** [os.path.splitext] on a file name: leading dots belong to the root. *)
Fixpoint has_non_dot (s : pystr) : bool :=
  match s with
  | [] => false
  | c :: r => negb (c =? DOT) || has_non_dot r
  end.

Definition splitext (n : pystr) : pystr * pystr :=
  match rfind DOT n with
  | Some i => if has_non_dot (take i n) then (take i n, drop i n) else (n, [])
  | None => (n, [])
  end.

(** ** Exceptions and results *)

Inductive exn : Type :=
  | FileNotFoundError
  | FileExistsError
  | NotADirectoryError
  | IsADirectoryError
  | ValueError
  | KeyError
  | ZeroDivisionError
  | TimeoutExpired
  | CalledProcessError
  | OSError.

Inductive result (A : Type) : Type :=
  | Ok (a : A)
  | Raise (e : exn).
Arguments Ok {A} a.
Arguments Raise {A} e.

Global Instance exn_eq_dec : EqDecision exn.
Proof. solve_decision. Defined.

(** [PurePath.with_suffix] *)
Definition with_suffix (p : path) (sfx : pystr) : result path :=
  if bool_decide (SLASH ∈ sfx) then Raise ValueError
  else if (negb (bool_decide (sfx = [])) && negb (bool_decide (head sfx = Some DOT)))
          || bool_decide (sfx = [DOT]) then Raise ValueError
  else
    let n := name p in
    if bool_decide (n = []) then Raise ValueError
    else
      let old := name_suffix n in
      let n' := if bool_decide (old = []) then n ++ sfx
                else take (length n - length old) n ++ sfx in
      Ok (removelast p ++ [n']).

(** [PurePath.relative_to] *)
Fixpoint relative_to (p base : path) {struct base} : result path :=
  match base with
  | [] => Ok p
  | b :: base' =>
      match p with
      | x :: p' => if bool_decide (x = b) then relative_to p' base' else Raise ValueError
      | [] => Raise ValueError
      end
  end.

(** ** The file system and the process log *)

(** A directory entry is a regular file with its size in bytes, or a
    directory.  The two anchors (the current directory, written with no
    parts, and the root) are always directories. *)
Inductive node : Type :=
  | File (size : N)
  | Dir.

Global Instance node_eq_dec : EqDecision node.
Proof. solve_decision. Defined.

Abbreviation fsmap := (gmap path node).

(** One argument of a command line: a literal, a rendered path, or a
    rendered integer. *)
Inductive arg : Type :=
  | Str (s : pystr)
  | PathArg (p : path)
  | IntArg (z : Z).

Abbreviation cmd := (list arg).

(** The world: the file system and the command lines handed to
    [subprocess.run] so far, oldest first. *)
Record world : Type := World {
  w_fs : fsmap;
  w_calls : list cmd
}.

(** The external encoder.  Given the earlier calls, the command line and the
    file system, a run ends with a return code and its error stream, or with
    an exception ([TimeoutExpired] when the time limit passes), and leaves
    the file system in any state. *)
Definition tool : Type :=
  list cmd → cmd → fsmap → result (Z * pystr) * fsmap.

Definition node_at (f : fsmap) (p : path) : option node :=
  if is_anchor p then Some Dir else f !! p.

Definition fs_exists (f : fsmap) (p : path) : bool :=
  bool_decide (is_Some (node_at f p)).

Definition fs_is_file (f : fsmap) (p : path) : bool :=
  match node_at f p with Some (File _) => true | _ => false end.

Definition fs_is_dir (f : fsmap) (p : path) : bool :=
  match node_at f p with Some Dir => true | _ => false end.

(** The size [stat] reports for a directory depends on the file system; the
    model fixes one block. *)
Definition DIR_SIZE : N := 4096.

Definition fs_getsize (f : fsmap) (p : path) : result N :=
  match node_at f p with
  | Some (File n) => Ok n
  | Some Dir => Ok DIR_SIZE
  | None => Raise FileNotFoundError
  end.

(** [Path.mkdir(parents=True, exist_ok=True)]: every missing ancestor is
    created, an existing directory is accepted, a regular file in the way
    raises.  [walked] is the prefix already visited. *)
Fixpoint mkdir_from (f : fsmap) (walked rest : path) : result fsmap :=
  match rest with
  | [] => Ok f
  | c :: r =>
      let q := walked ++ [c] in
      match node_at f q with
      | Some Dir => mkdir_from f q r
      | Some (File _) =>
          Raise (if bool_decide (r = []) then FileExistsError else NotADirectoryError)
      | None => mkdir_from (<[q := Dir]> f) q r
      end
  end.

Definition fs_mkdir_p (f : fsmap) (p : path) : result fsmap := mkdir_from f [] p.

(** [os.makedirs(name, exist_ok=True)] takes the rendered string: the empty
    string (no parts) raises [FileNotFoundError]. *)
Definition fs_makedirs (f : fsmap) (p : path) : result fsmap :=
  if bool_decide (p = []) then Raise FileNotFoundError else fs_mkdir_p f p.

(** [os.unlink] / [os.remove] / [Path.unlink] *)
Definition fs_unlink (f : fsmap) (p : path) : result fsmap :=
  match node_at f p with
  | Some (File _) => Ok (delete p f)
  | Some Dir => Raise IsADirectoryError
  | None => Raise FileNotFoundError
  end.

(** [Path.rmdir] / [os.rmdir]: only an empty directory goes. *)
Definition fs_children (f : fsmap) (d : path) : list (pystr * node) :=
  omap (λ kn : path * node,
          match relative_to kn.1 d with
          | Ok [c] => Some (c, kn.2)
          | _ => None
          end) (map_to_list f).

Definition fs_rmdir (f : fsmap) (p : path) : result fsmap :=
  match node_at f p with
  | Some Dir =>
      if bool_decide (fs_children f p = []) && negb (is_anchor p)
      then Ok (delete p f) else Raise OSError
  | Some (File _) => Raise NotADirectoryError
  | None => Raise FileNotFoundError
  end.

(** [Path.mkdir(exist_ok=True)], without [parents]. *)
Definition fs_mkdir (f : fsmap) (p : path) : result fsmap :=
  match node_at f p with
  | Some Dir => Ok f
  | Some (File _) => Raise FileExistsError
  | None =>
      match node_at f (removelast p) with
      | Some Dir => Ok (<[p := Dir]> f)
      | Some (File _) => Raise NotADirectoryError
      | None => Raise FileNotFoundError
      end
  end.

(** The number of bytes of the UTF-8 encoding. *)
Definition utf8_len (s : pystr) : N :=
  fold_right (λ c n, (if c <? 128 then 1 else if c <? 2048 then 2
                      else if c <? 65536 then 3 else 4) + n) 0 s.

(** [open(path, 'w')] followed by the writes: the file is created or
    truncated; a directory at the path, or a missing parent, raises. *)
Definition fs_write (f : fsmap) (p : path) (size : N) : result fsmap :=
  match node_at f p with
  | Some Dir => Raise IsADirectoryError
  | _ =>
      match node_at f (removelast p) with
      | Some Dir => Ok (<[p := File size]> f)
      | Some (File _) => Raise NotADirectoryError
      | None => Raise FileNotFoundError
      end
  end.

(** [os.listdir] and [Path.iterdir] *)
Definition fs_listdir (f : fsmap) (d : path) : list pystr := (fs_children f d).*1.

Definition fs_iterdir (f : fsmap) (d : path) : list path :=
  (λ c, d ++ [c]) <$> fs_listdir f d.

(** [os.listdir] raises unless the path is a directory. *)
Definition fs_listdir_checked (f : fsmap) (d : path) : result (list pystr) :=
  match node_at f d with
  | Some Dir => Ok (fs_listdir f d)
  | Some (File _) => Raise NotADirectoryError
  | None => Raise FileNotFoundError
  end.

(** [sorted] on a list of strings: code-point order. *)
Fixpoint str_leb (a b : pystr) : bool :=
  match a, b with
  | [], _ => true
  | _ :: _, [] => false
  | x :: a', y :: b' =>
      if x <? y then true else if y <? x then false else str_leb a' b'
  end.

Fixpoint insert_sorted (x : pystr) (l : list pystr) : list pystr :=
  match l with
  | [] => [x]
  | y :: l' => if str_leb x y then x :: l else y :: insert_sorted x l'
  end.

Definition sorted (l : list pystr) : list pystr := fold_right insert_sorted [] l.

(** [name.endswith(sfx)] *)
Definition endswith (n sfx : pystr) : bool :=
  bool_decide (drop (length n - length sfx) n = sfx).

(** [Path.glob("*.mp4")]: the children whose name ends with [.mp4]. *)
Definition glob_mp4 (f : fsmap) (d : path) : list path :=
  filter (λ p, endswith (basename p) (py ".mp4") = true) (fs_iterdir f d).

(** The prefixes [d ++ take 1 r], [d ++ take 2 r], ..., [d ++ r]. *)
Fixpoint steps_below (d r : path) : list path :=
  match r with
  | [] => []
  | c :: r' => (d ++ [c]) :: steps_below (d ++ [c]) r'
  end.

(** [os.walk(top)]: one triple (root, directory names, file names) for [top]
    and for every directory reached from it through directories. *)
Definition walk_roots (f : fsmap) (top : path) : list path :=
  if fs_is_dir f top then
    top :: omap (λ kn : path * node,
                   match relative_to kn.1 top with
                   | Ok (c :: r) =>
                       if forallb (fs_is_dir f) (steps_below top (c :: r))
                       then Some kn.1 else None
                   | _ => None
                   end) (map_to_list f)
  else [].

Definition is_dir_node (n : node) : bool :=
  match n with Dir => true | File _ => false end.

Definition os_walk (f : fsmap) (top : path) : list (path * list pystr * list pystr) :=
  (λ root,
     (root,
      (filter (λ cn, is_dir_node cn.2 = true) (fs_children f root)).*1,
      (filter (λ cn, is_dir_node cn.2 = false) (fs_children f root)).*1))
  <$> walk_roots f top.

(** ** The monad of the scripts: state and exceptions *)

Definition M (A : Type) : Type := world → result A * world.

Definition ret {A} (a : A) : M A := λ w, (Ok a, w).

Definition raise {A} (e : exn) : M A := λ w, (Raise e, w).

Definition bind {A B} (m : M A) (k : A → M B) : M B :=
  λ w, match m w with
       | (Ok a, w') => k a w'
       | (Raise e, w') => (Raise e, w')
       end.

Notation "'let*' x ':=' c1 'in' c2" := (bind c1 (λ x, c2))
  (at level 10, x name, c1 at level 100, c2 at level 200).
Notation "'do*' c1 'in' c2" := (bind c1 (λ _, c2))
  (at level 10, c1 at level 100, c2 at level 200).

(** [try: m except ...: h] *)
Definition try_except {A} (m : M A) (h : exn → M A) : M A :=
  λ w, match m w with
       | (Ok a, w') => (Ok a, w')
       | (Raise e, w') => h e w'
       end.

(** [try: m finally: c]; an exception of the clean-up replaces the outcome
    of the body. *)
Definition try_finally {A} (m : M A) (c : M unit) : M A :=
  λ w, match m w with
       | (r, w') =>
           match c w' with
           | (Ok _, w'') => (r, w'')
           | (Raise e, w'') => (Raise e, w'')
           end
       end.

(** [for x in xs: s = body(x, s)] *)
Fixpoint for_each {A S} (xs : list A) (body : A → S → M S) (s : S) : M S :=
  match xs with
  | [] => ret s
  | x :: xs' => let* s' := body x s in for_each xs' body s'
  end.

Definition read_fs {A} (g : fsmap → A) : M A := λ w, (Ok (g (w_fs w)), w).

Definition lift_fs {A} (g : fsmap → result A) : M A := λ w, (g (w_fs w), w).

Definition update_fs (g : fsmap → result fsmap) : M unit :=
  λ w, match g (w_fs w) with
       | Ok f' => (Ok tt, World f' (w_calls w))
       | Raise e => (Raise e, w)
       end.

Definition os_path_exists (p : path) : M bool := read_fs (λ f, fs_exists f p).
Definition os_path_isfile (p : path) : M bool := read_fs (λ f, fs_is_file f p).
Definition os_path_getsize (p : path) : M N := lift_fs (λ f, fs_getsize f p).
Definition os_makedirs (p : path) : M unit := update_fs (λ f, fs_makedirs f p).
Definition Path_mkdir (p : path) : M unit := update_fs (λ f, fs_mkdir_p f p).
Definition os_unlink (p : path) : M unit := update_fs (λ f, fs_unlink f p).
Definition os_rmdir (p : path) : M unit := update_fs (λ f, fs_rmdir f p).
Definition write_file (p : path) (size : N) : M unit := update_fs (λ f, fs_write f p size).
Definition Path_mkdir_exist_ok (p : path) : M unit := update_fs (λ f, fs_mkdir f p).
Definition os_listdir (p : path) : M (list pystr) := lift_fs (λ f, fs_listdir_checked f p).

(** [subprocess.run(cmd, capture_output=True, ...)]: the command is logged,
    the encoder runs and may change the file system. *)
Definition subprocess_run (ffmpeg : tool) (c : cmd) : M (Z * pystr) :=
  λ w, match ffmpeg (w_calls w) c (w_fs w) with
       | (r, f') => (r, World f' (w_calls w ++ [c]))
       end.

(** Python truthiness of optional arguments: [None], the empty string and
    zero are false. *)
Definition truthy_str (o : option pystr) : bool :=
  match o with Some (_ :: _) => true | _ => false end.

Definition truthy_int (o : option Z) : bool :=
  match o with Some z => negb (z =? 0)%Z | None => false end.

(** A [dict] with string keys written as a literal: the pairs in order. *)
Fixpoint dict_get {V} (d : list (pystr * V)) (k : pystr) : option V :=
  match d with
  | [] => None
  | (k', v) :: d' => if bool_decide (k = k') then Some v else dict_get d' k
  end.

Arguments dict_get : simpl never.

(** ** [video2audio.py] *)

Module Video2Audio.

Definition SUPPORTED_VIDEO_FORMATS : list pystr :=
  List.map py
    [".mp4"; ".avi"; ".mov"; ".mkv"; ".flv"; ".wmv"; ".webm";
     ".m4v"; ".mpg"; ".mpeg"; ".3gp"; ".mts"; ".m2ts"; ".ts";
     ".rm"; ".rmvb"; ".asf"; ".vob"; ".ogv"; ".divx"]%string.

Record format_config : Type := FormatConfig {
  ext : pystr;
  codec : pystr;
  args : list pystr;
  default_bitrate : option pystr
}.

Definition AUDIO_FORMATS : list (pystr * format_config) :=
  [ (py "mp3", FormatConfig (py ".mp3") (py "libmp3lame") [py "-q:a"; py "2"] (Some (py "192k")));
    (py "aac", FormatConfig (py ".m4a") (py "aac") [py "-b:a"; py "192k"] (Some (py "192k")));
    (py "flac", FormatConfig (py ".flac") (py "flac") [py "-compression_level"; py "8"] None);
    (py "wav", FormatConfig (py ".wav") (py "pcm_s16le") [] None);
    (py "opus", FormatConfig (py ".opus") (py "libopus") [py "-b:a"; py "128k"] (Some (py "128k")));
    (py "ogg", FormatConfig (py ".ogg") (py "libvorbis") [py "-q:a"; py "5"] None) ].

(** The second component of the pair [convert_video_to_audio] returns.  Each
    constructor is one message of the source, with its interpolated value. *)
Inductive message : Type :=
  | VideoMissing (video_path : path)        (* 视频文件不存在: {video_path} *)
  | OutputExists (audio_path : path)        (* 输出文件已存在: {audio_path} *)
  | UnsupportedFormat (audio_format : pystr) (* 不支持的音频格式: {audio_format} *)
  | Converted                               (* 转换成功 *)
  | EmptyOrMissing                          (* 转换后文件为空或不存在 *)
  | FfmpegError (error_msg : pystr)         (* ffmpeg错误: {error_msg} *)
  | Timeout                                 (* 转换超时 (超过1小时) *)
  | Exception (e : exn).                    (* 转换异常: {e} *)

(** 未知错误 *)
Definition UNKNOWN_ERROR : pystr := [26410; 30693; 38169; 35823].

(** The keyword arguments of one conversion, the [task] dict. *)
Record task : Type := Task {
  video_path : path;
  audio_path : path;
  audio_format : pystr;
  quality : option Z;
  bitrate : option pystr;
  sample_rate : option Z;
  channels : option Z;
  overwrite : bool
}.

Record stats : Type := Stats {
  total : nat;
  success : nat;
  failed : nat;
  skipped : nat;
  no_audio : nat
}.

(** What [batch_convert] returns: the error dict, the dict of the empty
    directory (all counters zero, with a message), or the statistics. *)
Inductive batch_result : Type :=
  | InputDirMissing
  | NoVideoFiles (st : stats)
  | Finished (st : stats).

Definition add_success (st : stats) : stats :=
  Stats (total st) (S (success st)) (failed st) (skipped st) (no_audio st).
Definition add_failed (st : stats) : stats :=
  Stats (total st) (success st) (S (failed st)) (skipped st) (no_audio st).
Definition add_skipped (st : stats) : stats :=
  Stats (total st) (success st) (failed st) (S (skipped st)) (no_audio st).

Section Converter.

Variable ffmpeg : tool.
Variable ffmpeg_path : pystr.

(** The order in which [concurrent.futures.as_completed] hands back the
    submitted jobs. *)
Variable as_completed : list task → list task.

Definition build_cmd (cfg : format_config) (t : task) : cmd :=
  [Str ffmpeg_path; Str (py "-i"); PathArg (video_path t)]
  ++ [Str (py "-vn")] ++ [Str (py "-sn")] ++ [Str (py "-dn")]
  ++ [Str (py "-acodec"); Str (codec cfg)]
  ++ (Str <$> args cfg)
  ++ match quality t with
     | Some q =>
         if bool_decide (audio_format t = py "mp3") then [Str (py "-q:a"); IntArg q]
         else if bool_decide (audio_format t = py "ogg") then [Str (py "-q:a"); IntArg q]
         else []
     | None => []
     end
  ++ (if truthy_str (bitrate t) then [Str (py "-b:a"); Str (default [] (bitrate t))]
      else if truthy_str (default_bitrate cfg)
           then [Str (py "-b:a"); Str (default [] (default_bitrate cfg))]
      else [])
  ++ (if truthy_int (sample_rate t) then [Str (py "-ar"); IntArg (default 0%Z (sample_rate t))] else [])
  ++ (if truthy_int (channels t) then [Str (py "-ac"); IntArg (default 0%Z (channels t))] else [])
  ++ [Str (py (if overwrite t then "-y" else "-n"))]
  ++ [Str (py "-loglevel"); Str (py "error")]
  ++ [PathArg (audio_path t)].

(** The check of the output after a run that returned 0:
    [os.path.exists(audio_path) and os.path.getsize(audio_path) > 0]. *)
Definition output_ok (p : path) : M bool :=
  let* e := os_path_exists p in
  if e then let* n := os_path_getsize p in ret (0 <? n) else ret false.

Definition convert_video_to_audio (t : task) : M (bool * message) :=
  let* ve := os_path_exists (video_path t) in
  if negb ve then ret (false, VideoMissing (video_path t))
  else
    let output_dir := dirname (audio_path t) in
    do* os_makedirs output_dir in
    let* ae := os_path_exists (audio_path t) in
    if negb (overwrite t) && ae then ret (false, OutputExists (audio_path t))
    else
      match dict_get AUDIO_FORMATS (audio_format t) with
      | None => ret (false, UnsupportedFormat (audio_format t))
      | Some format_config =>
          let cmd := build_cmd format_config t in
          try_except
            (let* result := subprocess_run ffmpeg cmd in
             if (result.1 =? 0)%Z then
               let* ok := output_ok (audio_path t) in
               if ok then ret (true, Converted) else ret (false, EmptyOrMissing)
             else
               let error_msg :=
                 if bool_decide (strip result.2 = []) then UNKNOWN_ERROR
                 else strip result.2 in
               ret (false, FfmpegError error_msg))
            (λ e, match e with
                  | TimeoutExpired => ret (false, Timeout)
                  | _ => ret (false, Exception e)
                  end)
      end.

(** The search for video files. *)
Definition is_video (p : path) : bool :=
  bool_decide (lower (suffix p) ∈ SUPPORTED_VIDEO_FORMATS).

Definition find_videos (f : fsmap) (input_path : path) (recursive : bool) : list path :=
  if recursive then
    flat_map (λ rdf : path * list pystr * list pystr,
                let '(root, _, files) := rdf in
                flat_map (λ file, let file_path := root ++ [file] in
                                  if is_video file_path then [file_path] else [])
                         files)
             (os_walk f input_path)
  else
    flat_map (λ file, if fs_is_file f file && is_video file then [file] else [])
             (fs_iterdir f input_path).

(** The output path of one video: mirrored under the output root, or
    flattened into it. *)
Definition audio_file_for (input_path output_path : path) (fmt : pystr)
    (keep_structure : bool) (video_file : path) : result path :=
  match dict_get AUDIO_FORMATS fmt with
  | None => Raise KeyError
  | Some cfg =>
      if keep_structure then
        match relative_to video_file input_path with
        | Ok rel_path =>
            match with_suffix rel_path (ext cfg) with
            | Ok r => Ok (output_path ++ r)
            | Raise e => Raise e
            end
        | Raise e => Raise e
        end
      else Ok (output_path ++ [stem video_file ++ ext cfg])
  end.

(** The loop that builds the task list; its state is the statistics and the
    tasks so far. *)
Definition build_task (input_path output_path : path) (fmt : pystr)
    (q : option Z) (br : option pystr) (sr ch : option Z)
    (keep_structure ow : bool) (video_file : path)
    (s : stats * list task) : M (stats * list task) :=
  let* audio_file :=
    (match audio_file_for input_path output_path fmt keep_structure video_file with
     | Ok a => ret a
     | Raise e => raise e
     end) in
  do* (if keep_structure then Path_mkdir (parent audio_file) else ret tt) in
  let* e := os_path_exists audio_file in
  if negb ow && e then ret (add_skipped s.1, s.2)
  else ret (s.1, s.2 ++ [Task video_file audio_file fmt q br sr ch ow]).

Definition build_tasks (input_path output_path : path) (fmt : pystr)
    (q : option Z) (br : option pystr) (sr ch : option Z)
    (keep_structure ow : bool) (video_files : list path) : M (stats * list task) :=
  for_each video_files
    (build_task input_path output_path fmt q br sr ch keep_structure ow)
    (Stats (length video_files) 0 0 0 0, []).

(** The body of the sequential loop: an exception of the conversion leaves
    the loop. *)
Definition run_task (t : task) (st : stats) : M stats :=
  let* r := convert_video_to_audio t in
  if r.1 then ret (add_success st) else ret (add_failed st).

(** The body of the loop over the completed futures: [future.result()]
    re-raises what the job raised, and both handlers count a failure. *)
Definition run_pooled_task (t : task) (st : stats) : M stats :=
  try_except
    (let* r := convert_video_to_audio t in
     if r.1 then ret (add_success st) else ret (add_failed st))
    (λ _, ret (add_failed st)).

(** With more than one worker and more than one task the jobs go to a
    thread pool.  The model runs the jobs one whole job after the other, in
    the order in which they complete; the interleaving of the steps of
    different jobs is not modelled. *)
Definition batch_convert (input_dir : path) (output_dir : option path)
    (fmt : pystr) (q : option Z) (br : option pystr) (sr ch : option Z)
    (recursive keep_structure ow : bool) (max_workers : Z) : M batch_result :=
  let input_path := input_dir in
  let* ok := read_fs (λ f, fs_exists f input_path && fs_is_dir f input_path) in
  if negb ok then ret InputDirMissing
  else
    let output_path :=
      match output_dir with
      | None => input_path ++ [py "audio_output"]
      | Some o => o
      end in
    do* Path_mkdir output_path in
    let* video_files := read_fs (λ f, find_videos f input_path recursive) in
    if bool_decide (video_files = []) then ret (NoVideoFiles (Stats 0 0 0 0 0))
    else
      let* built :=
        build_tasks input_path output_path fmt q br sr ch keep_structure ow video_files in
      let tasks := built.2 in
      let* st :=
        (if (1 <? max_workers)%Z && (1 <? length tasks)%nat
         then for_each (as_completed tasks) run_pooled_task built.1
         else for_each tasks run_task built.1) in
      ret (Finished st).

(** [get_video_info].  The dict it returns: the keys [size], [duration] and
    [sample_rate] may be missing, [path] and [has_audio] never are. *)
Record video_info : Type := VideoInfo {
  info_path : path;
  info_size : option N;
  info_duration : option pystr;
  info_has_audio : bool;
  info_sample_rate : option pystr
}.

Definition info_cmd (video_path : path) : cmd :=
  [Str ffmpeg_path; Str (py "-i"); PathArg video_path; Str (py "-hide_banner");
   Str (py "-loglevel"); Str (py "error"); Str (py "-f"); Str (py "null"); Str (py "-")].

Definition NEWLINE : pystr := [10].

(** The loop over the parts of a line with [Duration:]; [None] stands for
    the [IndexError] of [duration.split()[0]] on a duration without a
    word. *)
Fixpoint parse_duration (parts : list pystr) (duration : option pystr)
    : option (option pystr) :=
  match parts with
  | [] => Some duration
  | part :: rest =>
      if contains (py "Duration:") part then
        match split part (py "Duration:") !! 1%nat with
        | Some piece =>
            match head (split_ws (strip piece)) with
            | Some word => parse_duration rest (Some word)
            | None => None
            end
        | None => None
        end
      else parse_duration rest duration
  end.

(** [line.split('Hz')[0].split()[-1]] inside its own [try]: [None] when the
    [IndexError] was passed over. *)
Definition parse_hz (line : pystr) : option pystr :=
  match head (split line (py "Hz")) with
  | Some hz_part => last (split_ws hz_part)
  | None => None
  end.

(** The loop over the lines of the error stream; the state is the three
    keys it may set. *)
Fixpoint parse_lines (lines : list pystr) (duration : option pystr) (has_audio : bool)
    (sample_rate : option pystr) : option (option pystr * bool * option pystr) :=
  match lines with
  | [] => Some (duration, has_audio, sample_rate)
  | line :: rest =>
      if contains (py "Duration:") line then
        match parse_duration (split line (py ",")) duration with
        | Some duration' => parse_lines rest duration' has_audio sample_rate
        | None => None
        end
      else if contains (py "Stream") line && contains (py "Audio:") line then
        let sample_rate' :=
          if contains (py "Hz") line then
            match parse_hz line with
            | Some hz => Some hz
            | None => sample_rate
            end
          else sample_rate in
        parse_lines rest duration true sample_rate'
      else parse_lines rest duration has_audio sample_rate
  end.

(** Both handlers return the same short dict; the [IndexError] of the
    parsing is caught by the second of them. *)
Definition get_video_info (video_path : path) : M video_info :=
  let short := VideoInfo video_path None None false None in
  let* r :=
    try_except
      (let* result := subprocess_run ffmpeg (info_cmd video_path) in
       let* size := os_path_getsize video_path in
       ret (Some (result, size)))
      (λ _, ret None) in
  match r with
  | Some (result, size) =>
      match parse_lines (split result.2 NEWLINE) None false None with
      | Some (duration, has_audio, sample_rate) =>
          ret (VideoInfo video_path (Some size) duration has_audio sample_rate)
      | None => ret short
      end
  | None => ret short
  end.

(** [_check_ffmpeg]: [ffmpeg -version] is run; a missing executable is
    reported as [False], every other exception is passed on. *)
Definition version_cmd : cmd := [Str ffmpeg_path; Str (py "-version")].

Definition _check_ffmpeg : M bool :=
  try_except
    (let* result := subprocess_run ffmpeg version_cmd in
     ret (result.1 =? 0)%Z)
    (λ e, match e with
          | FileNotFoundError => ret false
          | _ => raise e
          end).

End Converter.

(** The command line of [video2audio.py]: the [argparse.Namespace] that
    [parse_args] returns. *)
Record Namespace : Type := Args {
  args_input_dir : path;
  args_output : option path;
  args_format : pystr;
  args_quality : option Z;
  args_bitrate : option pystr;
  args_sample_rate : option Z;
  args_channels : option Z;
  args_recursive : bool;
  args_keep_structure : bool;
  args_no_overwrite : bool;
  args_threads : Z;
  args_ffmpeg_path : option pystr;
  args_list_formats : bool;
  args_audio_info : bool
}.

(** How [main] ends: with [sys.exit(code)], or by returning after it has
    printed what [batch_convert] gave back. *)
Inductive outcome : Type :=
  | SysExit (code : Z)
  | Returned (stats : batch_result).

Section Cli.

Variable ffmpeg : tool.
Variable as_completed : list task → list task.

(** [VideoToAudioConverter.__init__]; the result is [self.ffmpeg_path]. *)
Definition __init__ (ffmpeg_path : option pystr) : M pystr :=
  let self_ffmpeg_path :=
    if truthy_str ffmpeg_path then default [] ffmpeg_path else py "ffmpeg" in
  do* _check_ffmpeg ffmpeg self_ffmpeg_path in
  ret self_ffmpeg_path.

(** [main].  The dict of a directory without videos has no key
    [output_dir]: printing it raises [KeyError], which the handler of the
    [try] turns into [sys.exit(1)]. *)
Definition main (args : Namespace) : M outcome :=
  let* converter := __init__ (args_ffmpeg_path args) in
  if args_list_formats args then ret (SysExit 0)
  else if args_audio_info args then ret (SysExit 0)
  else
    let input_dir := args_input_dir args in
    let* e := os_path_exists input_dir in
    if negb e then ret (SysExit 1)
    else
      let* ok := _check_ffmpeg ffmpeg converter in
      if negb ok then ret (SysExit 1)
      else
        try_except
          (let* stats :=
             batch_convert ffmpeg converter as_completed input_dir (args_output args)
               (args_format args) (args_quality args) (args_bitrate args) (args_sample_rate args)
               (args_channels args) (args_recursive args) (args_keep_structure args)
               (negb (args_no_overwrite args)) (args_threads args) in
           match stats with
           | NoVideoFiles _ => raise KeyError
           | _ => ret (Returned stats)
           end)
          (λ _, ret (SysExit 1)).

End Cli.

End Video2Audio.

(** ** [audio_compresser.py] *)

Module AudioCompresser.

(** The messages of [two_stage_compress]. *)
Inductive message : Type :=
  | InputMissing                             (* 文件不存在 *)
  | OpusFailed (stderr : pystr)              (* Opus失败: {result1.stderr[:100]} *)
  | OpusNotProduced                          (* Opus文件未生成 *)
  | Mp3Failed (stderr : pystr)               (* MP3失败: {result2.stderr[:100]} *)
  | Succeeded (final_size original_size : N) (* 成功: {ratio:.1f}%, the ratio of the two sizes *)
  | FinalNotProduced                         (* 最终文件未生成 *)
  | Timeout                                  (* 超时 *)
  | Error (e : exn).                         (* 错误: {str(e)[:50]} *)

Definition audio_extensions : list pystr :=
  List.map py [".mp3"; ".wav"; ".flac"; ".m4a"; ".aac";
               ".ogg"; ".opus"; ".wma"; ".amr"; ".aiff"; ".au"]%string.

Section Compress.

Variable ffmpeg : tool.

(** The name [tempfile.NamedTemporaryFile(suffix='.opus', delete=False)]
    picks, or the exception it raises. *)
Variable mkstemp : fsmap → result path.

Definition NamedTemporaryFile : M path :=
  λ w, match mkstemp (w_fs w) with
       | Ok p => (Ok p, World (<[p := File 0]> (w_fs w)) (w_calls w))
       | Raise e => (Raise e, w)
       end.

Definition opus_cmd (input_path temp_opus_path : path) (opus_bitrate : pystr) : cmd :=
  [Str (py "ffmpeg"); Str (py "-i"); PathArg input_path;
   Str (py "-af"); Str (py "lowpass=3400,highpass=300");
   Str (py "-af"); Str (py "compand=attacks=0.1:decays=0.5");
   Str (py "-af"); Str (py "silenceremove=stop_periods=-1:stop_duration=0.5:stop_threshold=-30dB");
   Str (py "-c:a"); Str (py "libopus");
   Str (py "-b:a"); Str opus_bitrate;
   Str (py "-vbr"); Str (py "constrained");
   Str (py "-compression_level"); Str (py "10");
   Str (py "-application"); Str (py "voip");
   Str (py "-frame_duration"); Str (py "60");
   Str (py "-ar"); Str (py "8000");
   Str (py "-ac"); Str (py "1");
   Str (py "-loglevel"); Str (py "error");
   Str (py "-y"); PathArg temp_opus_path].

Definition mp3_cmd (temp_opus_path output_path : path) (mp3_bitrate : pystr) : cmd :=
  [Str (py "ffmpeg"); Str (py "-i"); PathArg temp_opus_path;
   Str (py "-c:a"); Str (py "libmp3lame");
   Str (py "-b:a"); Str mp3_bitrate;
   Str (py "-ar"); Str (py "8000");
   Str (py "-ac"); Str (py "1");
   Str (py "-q:a"); Str (py "5");
   Str (py "-write_id3v1"); Str (py "1");
   Str (py "-id3v2_version"); Str (py "3");
   Str (py "-map_metadata"); Str (py "0");
   Str (py "-loglevel"); Str (py "error");
   Str (py "-y"); PathArg output_path].

(** [a / b] on floats raises when the divisor is zero; the sizes are byte
    counts divided by 1024, zero exactly when the byte count is. *)
Definition check_divisor (n : N) : M unit :=
  if n =? 0 then raise ZeroDivisionError else ret tt.

(** The inner [try] block, between the creation of the temporary file and
    the [finally]. *)
Definition two_stages (input_path output_path temp_opus_path : path)
    (opus_bitrate mp3_bitrate : pystr) (original_size : N) : M (bool * message) :=
  let* result1 := subprocess_run ffmpeg (opus_cmd input_path temp_opus_path opus_bitrate) in
  if negb (result1.1 =? 0)%Z then ret (false, OpusFailed (take 100 result1.2))
  else
    let* e := os_path_exists temp_opus_path in
    let* missing :=
      (if negb e then ret true
       else let* n := os_path_getsize temp_opus_path in ret (n =? 0)) in
    if missing then ret (false, OpusNotProduced)
    else
      let* opus_size := os_path_getsize temp_opus_path in
      let* result2 := subprocess_run ffmpeg (mp3_cmd temp_opus_path output_path mp3_bitrate) in
      if negb (result2.1 =? 0)%Z then ret (false, Mp3Failed (take 100 result2.2))
      else
        let* e2 := os_path_exists output_path in
        if e2 then
          let* final_size := os_path_getsize output_path in
          do* check_divisor original_size in   (* ratio *)
          do* check_divisor original_size in   (* stage1_ratio *)
          do* check_divisor opus_size in       (* stage2_ratio *)
          ret (true, Succeeded final_size original_size)
        else ret (false, FinalNotProduced).

Definition cleanup (temp_opus_path : path) : M unit :=
  let* e := os_path_exists temp_opus_path in
  if e then os_unlink temp_opus_path else ret tt.

Definition two_stage_compress (input_path output_path : path)
    (opus_bitrate mp3_bitrate : pystr) : M (bool * message) :=
  try_except
    (let* e := os_path_exists input_path in
     if negb e then ret (false, InputMissing)
     else
       let* original_size := os_path_getsize input_path in
       let* temp_opus_path := NamedTemporaryFile in
       try_finally
         (two_stages input_path output_path temp_opus_path
                     opus_bitrate mp3_bitrate original_size)
         (cleanup temp_opus_path))
    (λ e, match e with
          | TimeoutExpired => ret (false, Timeout)
          | _ => ret (false, Error e)
          end).

(** The loop of [compress_with_opus_then_mp3]; its state is what
    [print_summary] receives: the count of successes and the failed files
    with their messages. *)
Definition compress_one (input_folder output_folder : path)
    (opus_bitrate mp3_bitrate : pystr) (filename : pystr)
    (s : nat * list (pystr * message)) : M (nat * list (pystr * message)) :=
  let file_ext := lower (splitext filename).2 in
  if bool_decide (file_ext ∈ audio_extensions) then
    let input_path := input_folder ++ [filename] in
    let* isf := os_path_isfile input_path in
    if negb isf then ret s
    else
      let name_without_ext := (splitext filename).1 in
      let output_filename := name_without_ext ++ py ".mp3" in
      let output_path := output_folder ++ [output_filename] in
      let* r := two_stage_compress input_path output_path opus_bitrate mp3_bitrate in
      if r.1 then ret (S s.1, s.2) else ret (s.1, s.2 ++ [(filename, r.2)])
  else ret s.

Definition compress_with_opus_then_mp3 (input_folder : path) (output_folder : option path)
    (opus_bitrate mp3_bitrate : pystr) : M (nat * list (pystr * message)) :=
  let output_folder :=
    match output_folder with
    | None => input_folder ++ [py "opus_mp3_mini"]
    | Some o => o
    end in
  do* os_makedirs output_folder in
  let* names := os_listdir input_folder in
  for_each (sorted names)
    (compress_one input_folder output_folder opus_bitrate mp3_bitrate) (0%nat, []).

(** [smart_dual_output] *)
Definition dual_extensions : list pystr :=
  List.map py [".mp3"; ".wav"; ".flac"; ".m4a"; ".aac"]%string.

Definition dual_opus_cmd (input_path opus_path : path) : cmd :=
  [Str (py "ffmpeg"); Str (py "-i"); PathArg input_path;
   Str (py "-c:a"); Str (py "libopus"); Str (py "-b:a"); Str (py "6k");
   Str (py "-vbr"); Str (py "constrained");
   Str (py "-compression_level"); Str (py "10"); Str (py "-application"); Str (py "voip");
   Str (py "-ar"); Str (py "8000"); Str (py "-ac"); Str (py "1");
   Str (py "-loglevel"); Str (py "error"); Str (py "-y"); PathArg opus_path].

Definition dual_mp3_cmd (source mp3_path : path) : cmd :=
  [Str (py "ffmpeg"); Str (py "-i"); PathArg source;
   Str (py "-c:a"); Str (py "libmp3lame"); Str (py "-b:a"); Str (py "16k");
   Str (py "-ar"); Str (py "8000"); Str (py "-ac"); Str (py "1"); Str (py "-q:a"); Str (py "5");
   Str (py "-write_id3v1"); Str (py "1"); Str (py "-id3v2_version"); Str (py "3");
   Str (py "-loglevel"); Str (py "error"); Str (py "-y"); PathArg mp3_path].

(** One round of the loop of [smart_dual_output].  Neither run of the
    encoder is checked and nothing is caught.  The test
    [opus_size < original_size * 0.5] compares byte counts divided by 1024;
    on byte counts it reads [2 * opus < original] (exact for sizes below
    2^53 bytes). *)
Definition dual_one (input_folder opus_folder mp3_folder : path) (filename : pystr)
    (_ : unit) : M unit :=
  let file_ext := lower (splitext filename).2 in
  if bool_decide (file_ext ∈ dual_extensions) then
    let input_path := input_folder ++ [filename] in
    let* isf := os_path_isfile input_path in
    if negb isf then ret tt
    else
      let name := (splitext filename).1 in
      let* original_size := os_path_getsize input_path in
      let opus_path := opus_folder ++ [name ++ py ".opus"] in
      let* _result := subprocess_run ffmpeg (dual_opus_cmd input_path opus_path) in
      let* e := os_path_exists opus_path in
      do* (if e then
             let* _opus_size := os_path_getsize opus_path in
             check_divisor original_size            (* opus_ratio *)
           else ret tt) in
      let* e' := os_path_exists opus_path in
      let* smaller :=
        (if e' then let* opus_size := os_path_getsize opus_path in
                    ret (2 * opus_size <? original_size)
         else ret false) in
      let source := if smaller then opus_path else input_path in
      let mp3_path := mp3_folder ++ [name ++ py ".mp3"] in
      let* _result := subprocess_run ffmpeg (dual_mp3_cmd source mp3_path) in
      let* e2 := os_path_exists mp3_path in
      if e2 then
        let* _mp3_size := os_path_getsize mp3_path in
        check_divisor original_size                 (* mp3_ratio *)
      else ret tt
  else ret tt.

Definition smart_dual_output (input_folder : path) : M (path * path) :=
  let opus_folder := input_folder ++ [py "opus_mini"] in
  let mp3_folder := input_folder ++ [py "mp3_wechat"] in
  do* os_makedirs opus_folder in
  do* os_makedirs mp3_folder in
  let* names := os_listdir input_folder in
  do* for_each (sorted names) (dual_one input_folder opus_folder mp3_folder) tt in
  ret (opus_folder, mp3_folder).

End Compress.

End AudioCompresser.

(** ** [audio2text.py] *)

Module Audio2Text.

(** How [main] ends: [sys.exit(1)], the early return when no MP4 file is
    found, or the count it prints with the number of files. *)
Inductive outcome : Type :=
  | Exit1
  | NoFiles
  | Processed (processed : nat) (files : nat).

Section Main.

Variable ffmpeg : tool.

(** Whether [_init_whisper] / [_init_faster_whisper] returned a model. *)
Variable model_loaded : bool.

(** The text the chosen recogniser returns for an audio file; every
    [transcribe_*] method returns the empty string when it fails. *)
Variable recognize : fsmap → path → pystr.

(** The length of the timestamp [%Y-%m-%d %H:%M:%S]. *)
Definition TIMESTAMP_LEN : N := 19.

(** [AudioTranscriber.__init__]: is [self.transcriber] set? *)
Definition transcriber_present (model_type : pystr) : bool :=
  if bool_decide (model_type = py "api") then false
  else if bool_decide (model_type = py "local_gguf") then false
  else model_loaded.

(** [AudioTranscriber.transcribe] *)
Definition transcribe (audio_path : path) : M pystr :=
  let* e := os_path_exists audio_path in
  if negb e then ret [] else read_fs (λ f, recognize f audio_path).

Definition extract_cmd1 (mp4_path audio_path : path) : cmd :=
  [Str (py "ffmpeg"); Str (py "-i"); PathArg mp4_path;
   Str (py "-q:a"); Str (py "0"); Str (py "-map"); Str (py "a");
   Str (py "-y"); Str (py "-loglevel"); Str (py "error");
   PathArg audio_path].

Definition extract_cmd2 (mp4_path audio_path : path) : cmd :=
  [Str (py "ffmpeg"); Str (py "-i"); PathArg mp4_path;
   Str (py "-vn"); Str (py "-acodec"); Str (py "libmp3lame");
   Str (py "-ab"); Str (py "192k");
   Str (py "-y"); Str (py "-loglevel"); Str (py "error");
   PathArg audio_path].

Definition extract_audio (mp4_path audio_path : path) : M bool :=
  try_except
    (let* result := subprocess_run ffmpeg (extract_cmd1 mp4_path audio_path) in
     if (result.1 =? 0)%Z then ret true
     else
       let* result := subprocess_run ffmpeg (extract_cmd2 mp4_path audio_path) in
       ret (result.1 =? 0)%Z)
    (λ _, ret false).

(** The bytes [save_as_markdown] writes: two headings, the three metadata
    lines and the text. *)
Definition markdown_size (text source_file model : pystr) : N :=
  22 + 16 + (13 + utf8_len source_file + 1) + (16 + TIMESTAMP_LEN + 1)
  + (10 + utf8_len model + 2) + 17 + utf8_len text.

Definition save_as_markdown (text : pystr) (output_path : path)
    (source_file model : pystr) : M bool :=
  try_except
    (do* write_file output_path (markdown_size text source_file model) in ret true)
    (λ _, ret false).

(** One round of the loop over the MP4 files; the state is [processed]. *)
Definition process_file (output_dir audio_dir : path) (model_type : pystr)
    (keep_audio : bool) (mp4_file : path) (processed : nat) : M nat :=
  let base_name := stem mp4_file in
  let audio_file := audio_dir ++ [base_name ++ py ".mp3"] in
  let md_file := output_dir ++ [base_name ++ py ".md"] in
  let* done := os_path_exists md_file in
  if done then ret processed
  else
    let* extracted := extract_audio mp4_file audio_file in
    if negb extracted then ret processed
    else
      let* e := os_path_exists audio_file in
      let* invalid :=
        (if negb e then ret true
         else let* n := os_path_getsize audio_file in ret (n =? 0)) in
      if invalid then ret processed
      else
        let* text := transcribe audio_file in
        if bool_decide (text = []) || (length (strip text) <? 5)%nat then ret processed
        else
          let* saved := save_as_markdown text md_file (name mp4_file) model_type in
          let processed := if saved then S processed else processed in
          let* e := os_path_exists audio_file in
          do* (if negb keep_audio && e then os_unlink audio_file else ret tt) in
          ret processed.

Definition main (input_dir : path) (output : option path) (model_type : pystr)
    (keep_audio : bool) : M outcome :=
  let* e := os_path_exists input_dir in
  if negb e then ret Exit1
  else
    let output_dir :=
      match output with
      | Some o => o
      | None => input_dir ++ [py "transcriptions"]
      end in
    do* Path_mkdir_exist_ok output_dir in
    let audio_dir := output_dir ++ [py "temp_audio"] in
    do* Path_mkdir_exist_ok audio_dir in
    let* mp4_files := read_fs (λ f, glob_mp4 f input_dir) in
    if bool_decide (mp4_files = []) then ret NoFiles
    else if negb (transcriber_present model_type) && negb (bool_decide (model_type = py "api"))
    then ret Exit1
    else
      let* processed :=
        for_each mp4_files (process_file output_dir audio_dir model_type keep_audio) 0%nat in
      let* e := os_path_exists audio_dir in
      let* names := (if e then os_listdir audio_dir else ret []) in
      do* (if e && bool_decide (names = []) then os_rmdir audio_dir else ret tt) in
      ret (Processed processed (length mp4_files)).

End Main.

(** [find_gguf_models]: the files below [models_dir] whose name ends with
    [.gguf]; nothing when the directory is not there. *)
Definition find_gguf_models (f : fsmap) (models_dir : path) : list path :=
  if fs_exists f models_dir then
    flat_map (λ rdf : path * list pystr * list pystr,
                let '(root, _, files) := rdf in
                flat_map (λ file, if endswith file (py ".gguf") then [root ++ [file]] else [])
                         files)
             (os_walk f models_dir)
  else [].

End Audio2Text.

(** ** [soundext.py] *)

Module SoundExt.

Section Process.

Variable ffmpeg : tool.

(** [moviepy], when it can be imported: the effect of writing the audio
    track of a video to a file, or the exception it raises. *)
Variable moviepy : option (path → path → fsmap → result unit * fsmap).

(** The two recognisers; both return the empty string when they fail. *)
Variable transcribe_audio_with_whisper : fsmap → path → pystr.
Variable transcribe_audio_with_speech_recognition : fsmap → path → pystr.

Definition extract_cmd (mp4_path audio_path : path) : cmd :=
  [Str (py "ffmpeg"); Str (py "-i"); PathArg mp4_path;
   Str (py "-q:a"); Str (py "0"); Str (py "-map"); Str (py "a");
   PathArg audio_path; Str (py "-y"); Str (py "-loglevel"); Str (py "error")].

Definition extract_audio_from_mp4 (mp4_path audio_path : path) : M bool :=
  try_except
    (match moviepy with
     | Some write_audiofile =>
         λ w, match write_audiofile mp4_path audio_path (w_fs w) with
              | (Ok _, f') => (Ok true, World f' (w_calls w))
              | (Raise e, f') => (Raise e, World f' (w_calls w))
              end
     | None =>
         let* result := subprocess_run ffmpeg (extract_cmd mp4_path audio_path) in
         ret (result.1 =? 0)%Z
     end)
    (λ _, ret false).

(** The bytes [save_text_as_markdown] writes: two headings and the text. *)
Definition markdown_size (text : pystr) : N := 22 + 17 + utf8_len text.

Definition save_text_as_markdown (text : pystr) (output_path : path) : M bool :=
  try_except
    (do* write_file output_path (markdown_size text) in ret true)
    (λ _, ret false).

(** One round of the loop of [process_mp4_files]. *)
Definition process_file (output_path audio_dir : path) (keep_audio use_whisper : bool)
    (mp4_file : path) (_ : unit) : M unit :=
  let base_name := stem mp4_file in
  let audio_file := audio_dir ++ [base_name ++ py ".mp3"] in
  let md_file := output_path ++ [base_name ++ py ".md"] in
  let* done := os_path_exists md_file in
  if done then ret tt
  else
    let* extracted := extract_audio_from_mp4 mp4_file audio_file in
    if negb extracted then ret tt
    else
      let* text :=
        read_fs (λ f, if use_whisper then transcribe_audio_with_whisper f audio_file
                      else transcribe_audio_with_speech_recognition f audio_file) in
      if bool_decide (text = []) then ret tt
      else
        let* _saved := save_text_as_markdown text md_file in
        let* e := os_path_exists audio_file in
        if negb keep_audio && e then os_unlink audio_file else ret tt.

Definition process_mp4_files (input_dir : path) (output_dir : option path)
    (keep_audio use_whisper : bool) : M unit :=
  let input_path := input_dir in
  let output_path :=
    match output_dir with
    | Some o => o
    | None => input_path ++ [py "transcriptions"]
    end in
  do* Path_mkdir output_path in
  let audio_dir := output_path ++ [py "temp_audio"] in
  do* Path_mkdir_exist_ok audio_dir in
  let* mp4_files := read_fs (λ f, glob_mp4 f input_path) in
  if bool_decide (mp4_files = []) then ret tt
  else
    do* for_each mp4_files (process_file output_path audio_dir keep_audio use_whisper) tt in
    let* e := os_path_exists audio_dir in
    if negb keep_audio && e
    then try_except (os_rmdir audio_dir) (λ _, ret tt)
    else ret tt.

End Process.

End SoundExt.

(** ** [vid_compresser.py] *)

Module VidCompresser.

Definition video_extensions : list pystr := List.map py [".mp4"; ".MP4"; ".Mp4"]%string.

(** The test of the loop: a regular file whose extension is in the set. *)
Definition selected (f : fsmap) (input_folder : path) (file : pystr) : bool :=
  fs_is_file f (input_folder ++ [file])
  && bool_decide ((splitext file).2 ∈ video_extensions).

Section Compress.

Variable ffmpeg : tool.

Definition compress_cmd (file_path output_path : path) (crf : Z)
    (preset audio_bitrate : pystr) : cmd :=
  [Str (py "ffmpeg"); Str (py "-i"); PathArg file_path;
   Str (py "-c:v"); Str (py "libx264");
   Str (py "-crf"); IntArg crf;
   Str (py "-preset"); Str preset;
   Str (py "-c:a"); Str (py "aac");
   Str (py "-b:a"); Str audio_bitrate;
   Str (py "-movflags"); Str (py "+faststart");
   Str (py "-y"); PathArg output_path].

(** One round of the loop.  [subprocess.run(check=True)] raises on a
    non-zero return code; every exception is caught and printed. *)
Definition compress_one (input_folder output_folder : path) (crf : Z)
    (preset audio_bitrate : pystr) (file : pystr) (_ : unit) : M unit :=
  let file_path := input_folder ++ [file] in
  let* sel := read_fs (λ f, selected f input_folder file) in
  if sel then
    let output_path := output_folder ++ [file] in
    try_except
      (let* result := subprocess_run ffmpeg
                        (compress_cmd file_path output_path crf preset audio_bitrate) in
       do* (if (result.1 =? 0)%Z then ret tt else raise CalledProcessError) in
       let* original_size := os_path_getsize file_path in
       let* _compressed_size := os_path_getsize output_path in
       if original_size =? 0 then raise ZeroDivisionError else ret tt)
      (λ _, ret tt)
  else ret tt.

Definition compress_mp4_files (input_folder : path) (output_folder : option path)
    (crf : Z) (preset audio_bitrate : pystr) : M unit :=
  let output_folder :=
    match output_folder with
    | None => input_folder ++ [py "compressed"]
    | Some o => o
    end in
  do* os_makedirs output_folder in
  let* names := os_listdir input_folder in
  for_each names (compress_one input_folder output_folder crf preset audio_bitrate) tt.

End Compress.

End VidCompresser.

(** * The vocabulary of the properties *)

(** ** File systems and outcomes *)

(** A well-formed file system: every proper ancestor of an entry is a
    directory. *)
Definition fs_wf (f : fsmap) : Prop :=
  ∀ p nd k, f !! p = Some nd → (0 < k < length p)%nat → node_at f (take k p) = Some Dir.

(** A check of [fs_wf] that computes. *)
Definition fs_wfb (f : fsmap) : bool :=
  forallb (λ kn : path * node,
             forallb (λ k, fs_is_dir f (take k kn.1)) (seq 1 (length kn.1 - 1)))
          (map_to_list f).

(** The outcome of a computation satisfies [Q] when it returns and [E] when
    it raises. *)
Definition post {A} (r : result A * world) (Q : A → world → Prop)
    (E : exn → world → Prop) : Prop :=
  match r with
  | (Ok a, w) => Q a w
  | (Raise e, w) => E e w
  end.

(** ** Jobs, command lines and time-outs *)

Section Vocabulary.

Import Video2Audio.

Variable ffmpeg : tool.
Variable ffmpeg_path : pystr.
Variables (input_path output_path : path) (fmt : pystr) (keep_structure ow : bool).

(** What holds of a task once the loop has built it. *)
Definition task_built (videos : list path) (f0 : fsmap) (t : task) : Prop :=
  video_path t ∈ videos
  ∧ audio_file_for input_path output_path fmt keep_structure (video_path t) = Ok (audio_path t)
  ∧ audio_format t = fmt ∧ overwrite t = ow
  ∧ (ow = false → fs_exists f0 (audio_path t) = false).

(** The commands a list of tasks can start. *)
Definition started_for (ts : list task) (c : cmd) : Prop :=
  ∃ t cfg, t ∈ ts ∧ dict_get AUDIO_FORMATS (audio_format t) = Some cfg
           ∧ c = build_cmd ffmpeg_path cfg t.

(** What both loop bodies share: at most one start of the encoder, and on
    return exactly one of the two counters grows by one. *)
Definition counts_one (body : task → stats → M stats) : Prop :=
  ∀ t st w r w', body t st w = (r, w') →
    (w_calls w' = w_calls w ∨ ∃ c, started_for [t] c ∧ w_calls w' = w_calls w ++ [c])
    ∧ ∀ st', r = Ok st' → st' = add_success st ∨ st' = add_failed st.

(** The output root of a run. *)
Definition output_root (input_dir : path) (output_dir : option path) : path :=
  match output_dir with
  | None => input_dir ++ [py "audio_output"]
  | Some o => o
  end.

(** A command line of a job whose destination was not there when the run
    began. *)
Definition call_for_missing (f0 : fsmap) (input_dir out : path) (fmt : pystr)
    (keep : bool) (c : cmd) : Prop :=
  ∃ t cfg, c = build_cmd ffmpeg_path cfg t
           ∧ audio_file_for input_dir out fmt keep (video_path t) = Ok (audio_path t)
           ∧ fs_exists f0 (audio_path t) = false.

(** The encoder exceeds its time limit on the job [t], started in world
    [w]: the checks before the start pass and the run ends with
    [TimeoutExpired], leaving the world [w']. *)
Definition conversion_times_out (t : Video2Audio.task) (w w' : world) : Prop :=
  ∃ cfg f1 f2,
    fs_exists (w_fs w) (Video2Audio.video_path t) = true
    ∧ fs_makedirs (w_fs w) (dirname (Video2Audio.audio_path t)) = Ok f1
    ∧ negb (Video2Audio.overwrite t) && fs_exists f1 (Video2Audio.audio_path t) = false
    ∧ dict_get Video2Audio.AUDIO_FORMATS (Video2Audio.audio_format t) = Some cfg
    ∧ ffmpeg (w_calls w) (Video2Audio.build_cmd ffmpeg_path cfg t) f1
      = (Raise TimeoutExpired, f2)
    ∧ w' = World f2 (w_calls w ++ [Video2Audio.build_cmd ffmpeg_path cfg t]).

(** The encoder exceeds its time limit in the first or in the second stage
    of a two-stage compression that starts, with the temporary file [p]
    created, in world [w]. *)
Definition compression_times_out (input_path output_path p : path)
    (ob mb : pystr) (w w' : world) : Prop :=
  let c1 := AudioCompresser.opus_cmd input_path p ob in
  let c2 := AudioCompresser.mp3_cmd p output_path mb in
  (∃ f2, ffmpeg (w_calls w) c1 (w_fs w) = (Raise TimeoutExpired, f2)
         ∧ w' = World f2 (w_calls w ++ [c1]))
  ∨ (∃ err f1 sz f2,
       ffmpeg (w_calls w) c1 (w_fs w) = (Ok (0%Z, err), f1)
       ∧ fs_exists f1 p = true ∧ fs_getsize f1 p = Ok sz ∧ sz ≠ 0
       ∧ ffmpeg (w_calls w ++ [c1]) c2 f1 = (Raise TimeoutExpired, f2)
       ∧ w' = World f2 ((w_calls w ++ [c1]) ++ [c2])).

End Vocabulary.

(** Distinct jobs have distinct destinations. *)
Definition distinct_destinations (ts : list Video2Audio.task) : Prop :=
  ∀ t1 t2, t1 ∈ ts → t2 ∈ ts →
    Video2Audio.video_path t1 ≠ Video2Audio.video_path t2 →
    Video2Audio.audio_path t1 ≠ Video2Audio.audio_path t2.

(** ** Example worlds *)

(** An input directory with two videos, [in/a.mp4] and [in/b.mp4]. *)
Definition two_videos : fsmap :=
  list_to_map [ ([py "in"], Dir);
                ([py "in"; py "a.mp4"], File 10);
                ([py "in"; py "b.mp4"], File 10) ].

(** Three videos, as in the scenarios of the specification. *)
Definition three_videos : fsmap :=
  list_to_map [ ([py "in"], Dir);
                ([py "in"; py "a.mp4"], File 10); ([py "in"; py "b.mp4"], File 10);
                ([py "in"; py "c.avi"], File 10);
                ([py "out"], Dir) ].

(** The two videos of [two_videos] with their destinations already there. *)
Definition all_done : fsmap :=
  list_to_map [ ([py "in"], Dir);
                ([py "in"; py "a.mp4"], File 10); ([py "in"; py "b.mp4"], File 10);
                ([py "out"], Dir);
                ([py "out"; py "a.mp3"], File 7); ([py "out"; py "b.mp3"], File 7) ].

(** An input directory with two videos of the same stem, [in/a.mp4] and
    [in/a.avi]. *)
Definition same_stem : fsmap :=
  list_to_map [ ([py "in"], Dir);
                ([py "in"; py "a.mp4"], File 10);
                ([py "in"; py "a.avi"], File 10) ].

(** The tasks built for [same_stem] with the given flags do not have
    distinct destinations. *)
Definition shares_destination (recursive keep_structure : bool) : Prop :=
  ∃ st ts w',
    Video2Audio.build_tasks [py "in"] [py "out"] (py "mp3") None None None None
      keep_structure true
      (Video2Audio.find_videos same_stem [py "in"] recursive) (World same_stem [])
    = (Ok (st, ts), w')
    ∧ ¬ distinct_destinations ts.

(** One audio file to compress, and the directories around it. *)
Definition one_audio : fsmap :=
  list_to_map [ ([py "in"], Dir); ([py "in"; py "a.wav"], File 1024);
                ([py "out"], Dir); ([py "tmp"], Dir) ].

(** The temporary file that [mkstemp] hands out in the examples. *)
Definition temp_opus : path := [py "tmp"; py "t.opus"].

(** One video to transcribe, with the output directories in place. *)
Definition one_video : fsmap :=
  list_to_map [ ([py "in"], Dir); ([py "in"; py "talk.mp4"], File 10);
                ([py "out"], Dir); ([py "out"; py "temp_audio"], Dir) ].

(** A directory with one video whose extension is in mixed case. *)
Definition mixed_case : fsmap :=
  list_to_map [ ([py "in"], Dir); ([py "in"; py "clip.mP4"], File 10) ].

(** Two audio files, the first of them empty. *)
Definition empty_audio : fsmap :=
  list_to_map [ ([py "in"], Dir);
                ([py "in"; py "a.wav"], File 0); ([py "in"; py "b.wav"], File 9) ].

(** A directory of models with a subdirectory. *)
Definition models : fsmap :=
  list_to_map [ ([py "models"], Dir);
                ([py "models"; py "a.gguf"], File 5);
                ([py "models"; py "sub"], Dir);
                ([py "models"; py "sub"; py "b.gguf"], File 6);
                ([py "models"; py "sub"; py "c.bin"], File 1) ].

(** ** Example encoders *)

(** The last path on a command line. *)
Definition last_path_arg (c : cmd) : option path :=
  fold_left (λ acc a, match a with PathArg p => Some p | _ => acc end) c None.

(** An encoder that returns 0 and writes 7 bytes to the last path of its
    command line. *)
Definition writing_tool : tool :=
  λ _ c f,
    match last_path_arg c with
    | Some p => (Ok (0%Z, []), <[p := File 7]> f)
    | None => (Ok (1%Z, []), f)
    end.

(** An encoder that always returns 0 and writes its last argument: 100
    bytes in its first run, an empty file in every later run. *)
Definition empty_output_tool : tool :=
  λ history c f,
    match List.last c (Str []) with
    | PathArg p =>
        (Ok (0%Z, []), <[p := File (match history with [] => 100 | _ => 0 end)]> f)
    | _ => (Ok (1%Z, []), f)
    end.

(** An encoder that exceeds the time limit on inputs with the given suffix
    and otherwise returns 0 and writes 7 bytes to the last path of its
    command line. *)
Definition timeout_on (sfx : pystr) : tool :=
  λ history c f,
    match c !! 2%nat with
    | Some (PathArg p) =>
        if bool_decide (suffix p = sfx) then (Raise TimeoutExpired, f)
        else writing_tool history c f
    | _ => writing_tool history c f
    end.

Definition timeout_on_avi : tool := timeout_on (py ".avi").

(** An encoder that is installed: it answers [-version] with the code 0
    and leaves the files alone; every other command line goes to [t]. *)
Definition installed (t : tool) : tool :=
  λ history c f,
    match c with
    | [_; Str s] =>
        if bool_decide (s = py "-version") then (Ok (0%Z, py "ffmpeg version 6.0"), f)
        else t history c f
    | _ => t history c f
    end.

(** No encoder: every start fails because the executable is not found. *)
Definition not_installed : tool := λ _ _ f, (Raise FileNotFoundError, f).

(** An encoder that only reports: it returns the code 1 with the given
    error stream and leaves the files alone. *)
Definition reporting (stderr : pystr) : tool := λ _ _ f, (Ok (1%Z, stderr), f).

(** ** Proof automation *)

Ltac unfold_monad :=
  unfold os_path_exists, os_path_isfile, os_path_getsize, os_makedirs, Path_mkdir,
    os_unlink, os_rmdir, write_file, Path_mkdir_exist_ok, os_listdir,
    subprocess_run in *;
  unfold bind, ret, raise, try_except, try_finally, read_fs, lift_fs, update_fs in *.

Ltac step_all := repeat (case_match; simplify_eq/=).

(** * Properties *)

(** ** Strings and paths *)

Lemma rfind_lt c s i : rfind c s = Some i → (i < length s)%nat.
Proof.
  revert i. induction s as [|x r IH]; intros i; simpl; [done|].
  destruct (rfind c r) as [j|] eqn:E.
  - intros [= <-]. specialize (IH j eq_refl). lia.
  - destruct (x =? c); intros [= <-]. lia.
Qed.

(** A name is its stem followed by its suffix. *)
Lemma name_stem_suffix n : name_stem n ++ name_suffix n = n.
Proof.
  unfold name_stem, name_suffix.
  destruct (rfind DOT n) as [i|]; [|by rewrite app_nil_r].
  destruct (_ && _); [apply take_drop | by rewrite app_nil_r].
Qed.

Lemma name_stem_take n :
  name_suffix n ≠ [] → take (length n - length (name_suffix n)) n = name_stem n.
Proof.
  unfold name_stem, name_suffix.
  destruct (rfind DOT n) as [i|] eqn:E; [|done].
  destruct (_ && _); [|done]. intros _.
  apply rfind_lt in E. rewrite length_drop. f_equal. lia.
Qed.

Lemma name_stem_whole n : name_suffix n = [] → name_stem n = n.
Proof.
  intros H. pose proof (name_stem_suffix n) as E. rewrite H, app_nil_r in E. done.
Qed.

(** [with_suffix] replaces the suffix of the last part: the result is the
    stem of the name followed by the new suffix. *)
Lemma with_suffix_Ok p sfx r :
  with_suffix p sfx = Ok r → r = removelast p ++ [name_stem (name p) ++ sfx].
Proof.
  unfold with_suffix. repeat case_bool_decide; try done.
  all: destruct (_ || _); try done; intros [= <-].
  all: first [ by rewrite name_stem_whole | by rewrite name_stem_take ].
Qed.

Lemma relative_to_Ok p base r : relative_to p base = Ok r ↔ p = base ++ r.
Proof.
  revert p. induction base as [|b base IH]; intros p; simpl.
  - split; [by intros [= ->] | by intros ->].
  - destruct p as [|x p]; [split; [done | intros [=]]|].
    case_bool_decide as Hx.
    + subst. rewrite IH. split; [by intros -> | by intros [= ->]].
    + split; [done | intros [= -> ->]; done].
Qed.

Lemma relative_to_app base r : relative_to (base ++ r) base = Ok r.
Proof. by apply relative_to_Ok. Qed.

Lemma removelast_snoc {A} (l : list A) x : removelast (l ++ [x]) = l.
Proof. apply removelast_last. Qed.

Lemma last_snoc' {A} (l : list A) x d : List.last (l ++ [x]) d = x.
Proof. apply List.last_last. Qed.

(** ** The file system *)

Lemma node_at_insert_absent f q n p nd :
  node_at f q = None → node_at f p = Some nd → node_at (<[q := n]> f) p = Some nd.
Proof.
  unfold node_at. destruct (is_anchor q); [done|].
  destruct (is_anchor p); [done|]. intros Hq Hp.
  rewrite lookup_insert_ne; [done | congruence].
Qed.

(** [mkdir] with parents only adds directories: what exists stays. *)
Lemma mkdir_from_mono f walked rest f' p nd :
  mkdir_from f walked rest = Ok f' → node_at f p = Some nd → node_at f' p = Some nd.
Proof.
  revert f walked. induction rest as [|c r IH]; intros f walked; simpl.
  - by intros [= ->].
  - destruct (node_at f (walked ++ [c])) as [[|]|] eqn:E; [done | eauto |].
    intros H Hp. eapply IH; [exact H|]. by apply node_at_insert_absent.
Qed.

Lemma fs_mkdir_p_exists f p f' q :
  fs_mkdir_p f p = Ok f' → fs_exists f q = true → fs_exists f' q = true.
Proof.
  unfold fs_exists. intros H Hq. apply bool_decide_eq_true in Hq as [nd Hq].
  apply bool_decide_eq_true. exists nd. eapply mkdir_from_mono; eauto.
Qed.

Lemma mkdir_from_noop f walked rest :
  (∀ k, (0 < k ≤ length rest)%nat → node_at f (walked ++ take k rest) = Some Dir) →
  mkdir_from f walked rest = Ok f.
Proof.
  revert walked. induction rest as [|c r IH]; intros walked H; simpl; [done|].
  pose proof (H 1%nat) as H1. simpl in H1. rewrite take_0 in H1.
  rewrite H1 by lia. apply IH. intros k Hk.
  specialize (H (S k)). simpl in H. rewrite <- app_assoc. apply H. lia.
Qed.

(** In a well-formed file system the parent of an existing path is there
    with all its ancestors, so creating it changes nothing. *)
Lemma mkdir_parent_noop f d :
  fs_wf f → fs_exists f d = true → fs_mkdir_p f (parent d) = Ok f.
Proof.
  intros Hwf Hd. unfold fs_mkdir_p. apply mkdir_from_noop. intros k Hk. simpl.
  unfold parent in *. unfold fs_exists, node_at in Hd.
  destruct (is_anchor d) eqn:Ha.
  - unfold is_anchor in Ha. apply orb_true_iff in Ha as [Ha|Ha];
      apply bool_decide_eq_true in Ha; subst; simpl in *; [lia|].
    assert (k = 1%nat) as -> by lia. done.
  - apply bool_decide_eq_true in Hd as [nd Hd].
    destruct (decide (d = [])) as [->|Hne]; [done|].
    destruct (exists_last Hne) as (d' & x & ->).
    rewrite removelast_snoc in *.
    specialize (Hwf _ nd k Hd). rewrite length_app in Hwf. simpl in Hwf.
    rewrite take_app_le in Hwf by lia. apply Hwf. lia.
Qed.

Lemma mkdir_dir_noop f d :
  fs_wf f → fs_is_dir f d = true → fs_mkdir_p f d = Ok f.
Proof.
  intros Hwf Hd. unfold fs_mkdir_p. apply mkdir_from_noop. intros k Hk. simpl.
  unfold fs_is_dir in Hd.
  destruct (node_at f d) as [[|]|] eqn:E; try done.
  destruct (decide (k = length d)) as [->|Hne]; [by rewrite firstn_all|].
  unfold node_at in E. destruct (is_anchor d) eqn:Ha.
  - unfold is_anchor in Ha. apply orb_true_iff in Ha as [Ha|Ha];
      apply bool_decide_eq_true in Ha; subst; simpl in *; lia.
  - apply (Hwf _ _ k E). lia.
Qed.

(** ** Reasoning about the monad *)

Lemma post_bind {A B} (m : M A) (k : A → M B) w Q E R :
  post (m w) R E → (∀ a w', R a w' → post (k a w') Q E) → post (bind m k w) Q E.
Proof.
  unfold bind, post. destruct (m w) as [[a|e] w']; [|done]. intros H Hk. by apply Hk.
Qed.

(** A loop keeps an invariant that may mention the items still to come. *)
Lemma for_each_post {A S} (I : list A → S → world → Prop) E
    (body : A → S → M S) xs s w :
  (∀ x rest s w, I (x :: rest) s w → post (body x s w) (I rest) E) →
  I xs s w → post (for_each xs body s w) (I []) E.
Proof.
  intros Hbody. revert s w. induction xs as [|x xs IH]; intros s w HI; simpl.
  - exact HI.
  - eapply post_bind; [by apply Hbody|]. intros s' w' HI'. by apply IH.
Qed.

Lemma for_each_app {A S} (body : A → S → M S) xs ys s w :
  for_each (xs ++ ys) body s w = bind (for_each xs body s) (for_each ys body) w.
Proof.
  revert s w. induction xs as [|x xs IH]; intros s w; simpl; [done|].
  unfold bind in *. destruct (body x s w) as [[s'|e] w']; [apply IH | done].
Qed.

Lemma for_each_inv {A S} (I : list A → S → world → Prop)
    (body : A → S → M S) xs s w s' w' :
  (∀ x rest s w s' w', I (x :: rest) s w → body x s w = (Ok s', w') → I rest s' w') →
  I xs s w → for_each xs body s w = (Ok s', w') → I [] s' w'.
Proof.
  intros Hbody HI Hrun.
  pose proof (for_each_post I (λ _ _, True) body xs s w) as H.
  rewrite Hrun in H. apply H; [|done].
  intros x rest s0 w0 HI0. unfold post.
  destruct (body x s0 w0) as [[s1|e] w1] eqn:E; [|done]. eauto.
Qed.

(** ** [video2audio.py]: one conversion *)

Section ConverterFacts.

Import Video2Audio.

Variable ffmpeg : tool.
Variable ffmpeg_path : pystr.

(** A conversion reports success only after a run of the encoder that
    returned 0 and left a non-empty output file. *)
Lemma convert_success_sound t w m w' :
  convert_video_to_audio ffmpeg ffmpeg_path t w = (Ok (true, m), w') →
  m = Converted
  ∧ fs_exists (w_fs w') (audio_path t) = true
  ∧ (∃ n, fs_getsize (w_fs w') (audio_path t) = Ok n ∧ 0 < n)
  ∧ ∃ cfg f1 err,
      dict_get AUDIO_FORMATS (audio_format t) = Some cfg
      ∧ w_calls w' = w_calls w ++ [build_cmd ffmpeg_path cfg t]
      ∧ ffmpeg (w_calls w) (build_cmd ffmpeg_path cfg t) f1 = (Ok (0%Z, err), w_fs w').
Proof.
  unfold convert_video_to_audio, output_ok.
  destruct (dict_get AUDIO_FORMATS (audio_format t)) as [cfg|] eqn:Hcfg.
  all: unfold_monad; intros H; step_all.
  destruct a0 as [rc err]. simpl in *. apply Z.eqb_eq in H4 as ->.
  split_and!; [done | done | exists a1; split; [done | by apply N.ltb_lt] |].
  exists cfg, a2, err. done.
Qed.

(** A run that returned 0 but left no output, or an empty one, is a
    failure. *)
Lemma convert_empty_output_fails t w r w' cfg f1 err f2 :
  fs_exists (w_fs w) (video_path t) = true →
  fs_makedirs (w_fs w) (dirname (audio_path t)) = Ok f1 →
  negb (overwrite t) && fs_exists f1 (audio_path t) = false →
  dict_get AUDIO_FORMATS (audio_format t) = Some cfg →
  ffmpeg (w_calls w) (build_cmd ffmpeg_path cfg t) f1 = (Ok (0%Z, err), f2) →
  fs_exists f2 (audio_path t) = false ∨ fs_getsize f2 (audio_path t) = Ok 0 →
  convert_video_to_audio ffmpeg ffmpeg_path t w = (r, w') →
  r = Ok (false, EmptyOrMissing).
Proof.
  intros Hv Hmk Hex Hcfg Hrun Hout.
  unfold convert_video_to_audio, output_ok. rewrite Hcfg. unfold_monad.
  rewrite Hv. simpl. rewrite Hmk. simpl. rewrite Hex. simpl. rewrite Hrun. simpl.
  destruct Hout as [-> | Hsz]; [by intros [= <- <-]|].
  destruct (fs_exists f2 (audio_path t)); simpl; [rewrite Hsz|]; by intros [= <- <-].
Qed.

(** The encoder is started at most once, with the command line of the
    task. *)
Lemma convert_calls t w r w' :
  convert_video_to_audio ffmpeg ffmpeg_path t w = (r, w') →
  w_calls w' = w_calls w
  ∨ ∃ cfg, dict_get AUDIO_FORMATS (audio_format t) = Some cfg
           ∧ w_calls w' = w_calls w ++ [build_cmd ffmpeg_path cfg t].
Proof.
  unfold convert_video_to_audio, output_ok.
  destruct (dict_get AUDIO_FORMATS (audio_format t)) as [cfg|] eqn:Hcfg.
  all: unfold_monad; intros H; step_all; eauto.
Qed.

(** The only exception that leaves a conversion is the one of
    [os.makedirs]; nothing has been started then. *)
Lemma convert_raise t w e w' :
  convert_video_to_audio ffmpeg ffmpeg_path t w = (Raise e, w') →
  w' = w ∧ fs_exists (w_fs w) (video_path t) = true
  ∧ fs_makedirs (w_fs w) (dirname (audio_path t)) = Raise e.
Proof.
  unfold convert_video_to_audio, output_ok.
  destruct (dict_get AUDIO_FORMATS (audio_format t)) as [cfg|] eqn:Hcfg.
  all: unfold_monad; intros H; step_all.
  all: split_and!; try done; by destruct (fs_exists _ _).
Qed.

(** A run that exceeds the time limit is a failure with the time-out
    message. *)
Lemma convert_timeout t w cfg f1 f2 :
  fs_exists (w_fs w) (video_path t) = true →
  fs_makedirs (w_fs w) (dirname (audio_path t)) = Ok f1 →
  negb (overwrite t) && fs_exists f1 (audio_path t) = false →
  dict_get AUDIO_FORMATS (audio_format t) = Some cfg →
  ffmpeg (w_calls w) (build_cmd ffmpeg_path cfg t) f1 = (Raise TimeoutExpired, f2) →
  convert_video_to_audio ffmpeg ffmpeg_path t w
  = (Ok (false, Timeout), World f2 (w_calls w ++ [build_cmd ffmpeg_path cfg t])).
Proof.
  intros Hv Hmk Hex Hcfg Hrun.
  unfold convert_video_to_audio, output_ok. rewrite Hcfg. unfold_monad.
  rewrite Hv. simpl. rewrite Hmk. simpl. rewrite Hex. simpl. rewrite Hrun. done.
Qed.

End ConverterFacts.

(** ** [video2audio.py]: the batch *)

Section BuildFacts.

Import Video2Audio.

Variables (input_path output_path : path) (fmt : pystr).
Variables (q : option Z) (br : option pystr) (sr ch : option Z).
Variables (keep_structure ow : bool).

Local Abbreviation build_task' :=
  (build_task input_path output_path fmt q br sr ch keep_structure ow).
Local Abbreviation dest := (audio_file_for input_path output_path fmt keep_structure).
Local Abbreviation task_built' := (task_built input_path output_path fmt keep_structure ow).

(** One round of the loop that builds the tasks. *)
Lemma build_task_spec v st tasks w r w' :
  build_task' v (st, tasks) w = (r, w') →
  w_calls w' = w_calls w
  ∧ (∀ p, fs_exists (w_fs w) p = true → fs_exists (w_fs w') p = true)
  ∧ (keep_structure = false → w' = w)
  ∧ match r with
    | Ok (st', tasks') =>
        ∃ d, dest v = Ok d
             ∧ ((ow = false ∧ fs_exists (w_fs w') d = true
                 ∧ st' = add_skipped st ∧ tasks' = tasks)
                ∨ ((ow = true ∨ fs_exists (w_fs w') d = false)
                   ∧ st' = st ∧ tasks' = tasks ++ [Task v d fmt q br sr ch ow]))
    | Raise _ => True
    end.
Proof.
  unfold build_task. destruct (dest v) as [d|e] eqn:Hd; unfold_monad; simpl.
  2: { intros [= <- <-]. done. }
  destruct keep_structure; simpl.
  - destruct (fs_mkdir_p (w_fs w) (parent d)) as [f1|e] eqn:Hmk; simpl.
    2: { intros [= <- <-]. done. }
    destruct ow; simpl.
    + intros [= <- <-]. simpl. split_and!; eauto using fs_mkdir_p_exists; [done|].
      exists d. split; [done|]. right. eauto.
    + destruct (fs_exists f1 d) eqn:He; intros [= <- <-]; simpl;
        (split_and!; eauto using fs_mkdir_p_exists; [done|]);
        exists d; (split; [done|]); [left | right]; eauto.
  - destruct ow; simpl.
    + intros [= <- <-]. split_and!; eauto. exists d. split; [done|]. right. eauto.
    + destruct (fs_exists (w_fs w) d) eqn:He; intros [= <- <-]; simpl;
        (split_and!; eauto); exists d; (split; [done|]); [left | right]; eauto.
Qed.

Lemma build_tasks_spec videos w r w' :
  build_tasks input_path output_path fmt q br sr ch keep_structure ow videos w = (r, w') →
  w_calls w' = w_calls w
  ∧ (∀ p, fs_exists (w_fs w) p = true → fs_exists (w_fs w') p = true)
  ∧ (keep_structure = false → w' = w)
  ∧ match r with
    | Ok (st, tasks) =>
        total st = length videos ∧ success st = 0%nat ∧ failed st = 0%nat
        ∧ no_audio st = 0%nat
        ∧ (skipped st + length tasks)%nat = length videos
        ∧ Forall (task_built' videos (w_fs w)) tasks
    | Raise _ => True
    end.
Proof.
  unfold build_tasks. intros Hrun.
  set (n := length videos) in *.
  pose (I := λ (rest : list path) (s : stats * list task) (w1 : world),
     w_calls w1 = w_calls w
     ∧ (∀ p, fs_exists (w_fs w) p = true → fs_exists (w_fs w1) p = true)
     ∧ (keep_structure = false → w1 = w)
     ∧ (∀ v, v ∈ rest → v ∈ videos)
     ∧ total s.1 = n ∧ success s.1 = 0%nat ∧ failed s.1 = 0%nat ∧ no_audio s.1 = 0%nat
     ∧ (skipped s.1 + length s.2 + length rest)%nat = n
     ∧ Forall (task_built' videos (w_fs w)) s.2).
  pose (E := λ (_ : exn) (w1 : world),
     w_calls w1 = w_calls w
     ∧ (∀ p, fs_exists (w_fs w) p = true → fs_exists (w_fs w1) p = true)
     ∧ (keep_structure = false → w1 = w)).
  pose proof (for_each_post I E build_task' videos (Stats n 0 0 0 0, []) w) as H.
  rewrite Hrun in H.
  assert (post (r, w') (I []) E) as Hpost.
  { apply H.
    - clear. intros v rest [st tasks] w1 (Hc & Hm & Hk & Hin & Ht & Hs & Hf & Hn & Hlen & Hall).
      simpl in *.
      destruct (build_task' v (st, tasks) w1) as [r1 w2] eqn:Hstep.
      apply build_task_spec in Hstep as (Hc2 & Hm2 & Hk2 & Hr).
      unfold post. destruct r1 as [[st' tasks']|e].
      + destruct Hr as (d & Hd & [(Hw & Hex & -> & ->) | (Hw & -> & ->)]);
          unfold I; simpl; split_and!; eauto; try congruence.
        * intros Hkk. rewrite Hk2, Hk; done.
        * intros v' Hv'. apply Hin. by right.
        * lia.
        * intros Hkk. rewrite Hk2, Hk; done.
        * intros v' Hv'. apply Hin. by right.
        * rewrite length_app. simpl. lia.
        * apply Forall_app. split; [done|]. apply Forall_singleton.
          unfold task_built. simpl. split_and!; eauto.
          { apply Hin. by left. }
          intros ->. destruct Hw as [|Hw]; [done|].
          destruct (fs_exists (w_fs w) d) eqn:Hd0; [|done].
          apply Hm, Hm2 in Hd0. congruence.
      + unfold E. split_and!; eauto; try congruence.
        intros Hkk. rewrite Hk2, Hk; done.
    - unfold I. simpl. split_and!; eauto; lia. }
  unfold post in Hpost. destruct r as [[st tasks]|e].
  - destruct Hpost as (Hc & Hm & Hk & _ & Ht & Hs & Hf & Hn & Hlen & Hall). simpl in *.
    split_and!; eauto. lia.
  - destruct Hpost as (Hc & Hm & Hk). done.
Qed.

(** When every destination is already there and overwriting is off, the
    loop skips every file and touches nothing. *)
Lemma build_tasks_all_exist videos w :
  ow = false → fs_wf (w_fs w) →
  (∀ v, v ∈ videos → ∃ d, dest v = Ok d ∧ fs_exists (w_fs w) d = true) →
  build_tasks input_path output_path fmt q br sr ch keep_structure ow videos w
  = (Ok (Stats (length videos) 0 0 (length videos) 0, []), w).
Proof.
  intros How Hwf Hall. unfold build_tasks. rewrite How.
  generalize (length videos) at 1 2 as n. intros n.
  assert (∀ k, for_each videos
                 (build_task input_path output_path fmt q br sr ch keep_structure false)
                 (Stats n 0 0 k 0, []) w
               = (Ok (Stats n 0 0 (k + length videos) 0, []), w)) as H.
  { induction videos as [|v vs IH]; intros k; simpl.
    - unfold ret. by rewrite Nat.add_0_r.
    - destruct (Hall v) as (d & Hd & Hex); [by left|].
      unfold bind at 1. unfold build_task at 1. rewrite Hd. unfold_monad. simpl.
      assert (fs_mkdir_p (w_fs w) (parent d) = Ok (w_fs w)) as Hmk
        by (by apply mkdir_parent_noop).
      assert (World (w_fs w) (w_calls w) = w) as Hw by (by destruct w).
      set (mk := if keep_structure then _ else _).
      assert (mk w = (Ok (), w)) as ->.
      { subst mk. destruct keep_structure; [|done]. by rewrite Hmk, Hw. }
      rewrite Hex. simpl. unfold add_skipped. simpl. rewrite IH.
      + by replace (k + S (length vs))%nat with (S k + length vs)%nat by lia.
      + intros v' Hv'. apply Hall. by right. }
  apply (H 0%nat).
Qed.

End BuildFacts.

Section RunFacts.

Import Video2Audio.

Variable ffmpeg : tool.
Variable ffmpeg_path : pystr.

Local Abbreviation convert := (convert_video_to_audio ffmpeg ffmpeg_path).
Local Abbreviation run_task' := (run_task ffmpeg ffmpeg_path).
Local Abbreviation run_pooled_task' := (run_pooled_task ffmpeg ffmpeg_path).
Local Abbreviation started_for' := (started_for ffmpeg_path).
Local Abbreviation counts_one' := (counts_one ffmpeg_path).

Lemma run_task_counts_one : counts_one' run_task'.
Proof.
  intros t st w r w'. unfold run_task. unfold bind at 1.
  destruct (convert t w) as [[[b m]|e] w1] eqn:Hc; simpl.
  - apply convert_calls in Hc. unfold ret.
    destruct b; intros [= <- <-]; (split; [|intros ? [= <-]; eauto]).
    all: destruct Hc as [Hc | (cfg & Hcfg & Hc)]; [by left | right].
    all: eexists; split; [|exact Hc]; exists t, cfg; split_and!; try done; by left.
  - intros [= <- <-]. apply convert_raise in Hc as (-> & _). split; [by left | done].
Qed.

Lemma run_pooled_task_counts_one : counts_one' run_pooled_task'.
Proof.
  intros t st w r w'. unfold run_pooled_task, try_except. unfold bind at 1.
  destruct (convert t w) as [[[b m]|e] w1] eqn:Hc; simpl.
  - apply convert_calls in Hc. unfold ret.
    destruct b; intros [= <- <-]; (split; [|intros ? [= <-]; eauto]).
    all: destruct Hc as [Hc | (cfg & Hcfg & Hc)]; [by left | right].
    all: eexists; split; [|exact Hc]; exists t, cfg; split_and!; try done; by left.
  - unfold ret. intros [= <- <-]. apply convert_raise in Hc as (-> & _).
    split; [by left | intros ? [= <-]; eauto].
Qed.

(** The pooled body never raises. *)
Lemma run_pooled_task_returns t st w :
  ∃ st' w', run_pooled_task' t st w = (Ok st', w').
Proof.
  unfold run_pooled_task, try_except, bind, ret.
  destruct (convert t w) as [[[[] m]|e] w1]; eauto.
Qed.

Lemma for_each_pooled_returns ts st w :
  ∃ st' w', for_each ts run_pooled_task' st w = (Ok st', w').
Proof.
  revert st w. induction ts as [|t ts IH]; intros st w; simpl; [by eexists _, _|].
  unfold bind. destruct (run_pooled_task_returns t st w) as (st1 & w1 & ->). apply IH.
Qed.

(** A loop over tasks with such a body: the new calls belong to the tasks,
    there is at most one per task, and on return the two counters have grown
    by the number of tasks. *)
Lemma run_loop_spec body ts st w r w' :
  counts_one' body →
  for_each ts body st w = (r, w') →
  (∃ l, w_calls w' = w_calls w ++ l ∧ Forall (started_for' ts) l
        ∧ (length l ≤ length ts)%nat)
  ∧ ∀ st', r = Ok st' →
      total st' = total st ∧ skipped st' = skipped st ∧ no_audio st' = no_audio st
      ∧ (success st' + failed st' = success st + failed st + length ts)%nat.
Proof.
  intros Hbody. revert st w. induction ts as [|t ts IH]; intros st w; simpl.
  - unfold ret. intros [= <- <-]. split.
    + exists []. rewrite app_nil_r. split_and!; [done | constructor | done].
    + intros ? [= <-]. split_and!; try done; lia.
  - unfold bind. destruct (body t st w) as [[st1|e] w1] eqn:Hstep.
    + intros Hrest. apply Hbody in Hstep as (Hc1 & Hst1).
      apply IH in Hrest as ((l & Hl & Hall & Hlen) & Hst).
      assert (Forall (started_for' (t :: ts)) l) as Hall'.
      { eapply Forall_impl; [exact Hall|]. intros c (t' & cfg & Hin & Hcfg & ->).
        exists t', cfg. split_and!; try done. by right. }
      split.
      * destruct Hc1 as [Hc1 | (c & (t' & cfg & Hin & Hcfg & ->) & Hc1)].
        -- exists l. rewrite Hl, Hc1. split_and!; try done. simpl. lia.
        -- exists (build_cmd ffmpeg_path cfg t' :: l). rewrite Hl, Hc1, <- app_assoc.
           split_and!; [done | | simpl; lia].
           constructor; [|done]. apply list_elem_of_singleton in Hin as ->.
           exists t, cfg. split_and!; try done. by left.
      * intros st' Hr. destruct (Hst st' Hr) as (Ht & Hs & Hn & Hsum).
        destruct (Hst1 st1 eq_refl) as [-> | ->]; simpl in *; split_and!; try done; lia.
    + intros [= <- <-]. apply Hbody in Hstep as (Hc1 & _). split; [|done].
      destruct Hc1 as [Hc1 | (c & (t' & cfg & Hin & Hcfg & ->) & Hc1)].
      * exists []. rewrite app_nil_r. split_and!; [done | constructor | simpl; lia].
      * exists [build_cmd ffmpeg_path cfg t']. split_and!; [done | | simpl; lia].
        apply Forall_singleton. apply list_elem_of_singleton in Hin as ->.
        exists t, cfg. split_and!; try done. by left.
Qed.

End RunFacts.

Section BatchFacts.

Import Video2Audio.

Variable ffmpeg : tool.
Variable ffmpeg_path : pystr.
Variable as_completed : list task → list task.

(** Every submitted job completes exactly once. *)
Hypothesis as_completed_perm : ∀ ts, Permutation (as_completed ts) ts.

Local Abbreviation batch_convert' := (batch_convert ffmpeg ffmpeg_path as_completed).

(** Claim C10.  Whenever [batch_convert] has found the input directory and
    at least one video file and returns its statistics, the counters add up,
    [success + failed + skipped = total], and [no_audio] is still 0. *)
Theorem batch_convert_statistics_add_up input_dir output_dir fmt q br sr ch recursive keep ow max_workers w st w' :
  batch_convert ffmpeg ffmpeg_path as_completed
    input_dir output_dir fmt q br sr ch recursive keep ow max_workers w
  = (Ok (Finished st), w') →
  (success st + failed st + skipped st = total st)%nat
  ∧ no_audio st = 0%nat ∧ (0 < total st)%nat.
Proof.
  unfold batch_convert. unfold_monad. intros H. step_all.
  all: match goal with
       | Hb : build_tasks _ _ _ _ _ _ _ _ _ ?vs _ = (Ok ?a, _),
         Hne : bool_decide (?vs = []) = false |- _ =>
           apply build_tasks_spec in Hb as (_ & _ & _ & Hb); destruct a as [st0 ts];
           destruct Hb as (Ht & Hs & Hf & Hn & Hlen & _);
           apply bool_decide_eq_false_1 in Hne;
           assert (0 < length vs)%nat by (destruct vs; [done | simpl; lia])
       end.
  all: match goal with
       | Hr : for_each _ (run_pooled_task _ _) _ _ = _ |- _ =>
           eapply run_loop_spec in Hr as (_ & Hr);
             [|apply run_pooled_task_counts_one]; specialize (Hr _ eq_refl);
           rewrite (Permutation_length (as_completed_perm _)) in Hr
       | Hr : for_each _ (run_task _ _) _ _ = _ |- _ =>
           eapply run_loop_spec in Hr as (_ & Hr);
             [|apply run_task_counts_one]; specialize (Hr _ eq_refl)
       end.
  all: simpl in *; lia.
Qed.

Lemma batch_calls input_dir output_dir fmt q br sr ch recursive keep max_workers w r w' :
  batch_convert' input_dir output_dir fmt q br sr ch recursive keep false max_workers w
  = (r, w') →
  ∃ l, w_calls w' = w_calls w ++ l
       ∧ Forall (call_for_missing ffmpeg_path (w_fs w) input_dir (output_root input_dir output_dir)
                                  fmt keep) l
       ∧ ∀ st, r = Ok (Finished st) → (length l + skipped st ≤ total st)%nat.
Proof.
  unfold batch_convert. fold (output_root input_dir output_dir).
  generalize (output_root input_dir output_dir) as out. intros out.
  unfold_monad. intros H. step_all.
  all: try (exists []; rewrite app_nil_r; split_and!; [done | constructor | done]).
  all: match goal with
       | HB : build_tasks _ _ _ _ _ _ _ _ _ _ _ = _ |- _ =>
           apply build_tasks_spec in HB as (Hc & Hm & _ & Hb); simpl in Hc, Hm
       end.
  all: try (exists []; rewrite app_nil_r; split_and!; [done | constructor | done]).
  all: destruct a0 as [st0 ts]; destruct Hb as (Ht & _ & _ & _ & Hlen & Hall); simpl in *.
  all: match goal with
       | Hr : for_each _ (run_pooled_task _ _) _ _ = _ |- _ =>
           eapply run_loop_spec in Hr as ((l & Hl & Hstarted & Hlenl) & Hst);
             [|apply run_pooled_task_counts_one];
           rewrite (Permutation_length (as_completed_perm _)) in Hlenl, Hst
       | Hr : for_each _ (run_task _ _) _ _ = _ |- _ =>
           eapply run_loop_spec in Hr as ((l & Hl & Hstarted & Hlenl) & Hst);
             [|apply run_task_counts_one]
       end.
  all: exists l; split_and!; [congruence | | ].
  all: try (intros st [= <-]; destruct (Hst _ eq_refl) as (? & ? & _); lia).
  all: try done.
  all: eapply Forall_impl; [exact Hstarted|].
  all: intros c (t & cfg & Hin & Hcfg & ->); exists t, cfg; split; [done|].
  all: try rewrite (as_completed_perm ts) in Hin.
  all: rewrite Forall_forall in Hall; destruct (Hall t Hin) as (_ & Hd & _ & _ & Hex).
  all: split; [done|].
  all: destruct (fs_exists (w_fs w) (audio_path t)) eqn:E; [|done].
  all: eapply fs_mkdir_p_exists in E; [|eassumption]; rewrite (Hex eq_refl) in E; done.
Qed.

Lemma batch_rerun input_dir output_dir fmt q br sr ch recursive keep max_workers w :
  let out := output_root input_dir output_dir in
  let videos := find_videos (w_fs w) input_dir recursive in
  fs_wf (w_fs w) →
  fs_is_dir (w_fs w) input_dir = true →
  fs_is_dir (w_fs w) out = true →
  (∀ v, v ∈ videos →
        ∃ d, audio_file_for input_dir out fmt keep v = Ok d ∧ fs_exists (w_fs w) d = true) →
  ∃ r, batch_convert' input_dir output_dir fmt q br sr ch recursive keep false max_workers w
       = (Ok r, w)
       ∧ (r = Finished (Stats (length videos) 0 0 (length videos) 0)
          ∨ (videos = [] ∧ r = NoVideoFiles (Stats 0 0 0 0 0))).
Proof.
  intros out videos Hwf Hin Hout Hall.
  unfold batch_convert. fold (output_root input_dir output_dir). fold out.
  unfold_monad.
  assert (fs_exists (w_fs w) input_dir = true) as ->.
  { unfold fs_exists, fs_is_dir in *. destruct (node_at (w_fs w) input_dir); [|done].
    by apply bool_decide_eq_true. }
  rewrite Hin. simpl. rewrite mkdir_dir_noop by done. simpl. fold videos.
  assert (World (w_fs w) (w_calls w) = w) as Hw by (by destruct w).
  case_bool_decide as Hv.
  - eexists. split; [by rewrite Hw|]. by right.
  - rewrite Hw. rewrite build_tasks_all_exist by done. simpl.
    rewrite andb_false_r. simpl. eexists. split; [done|]. by left.
Qed.

(** Claim C2.  With overwriting disabled, the encoder is only started for
    files whose destination was not there when the run began, and the starts
    and the skipped files together do not exceed the total; when every
    destination is already there, nothing is started, the world is left as
    it was, and [skipped = total]. *)
Theorem skip_existing_destinations input_dir output_dir fmt q br sr ch recursive keep
    max_workers w r w' :
  let out := output_root input_dir output_dir in
  let videos := find_videos (w_fs w) input_dir recursive in
  batch_convert ffmpeg ffmpeg_path as_completed
    input_dir output_dir fmt q br sr ch recursive keep false max_workers w
  = (r, w') →
  (∃ l, w_calls w' = w_calls w ++ l
        ∧ Forall (call_for_missing ffmpeg_path (w_fs w) input_dir out fmt keep) l
        ∧ ∀ st, r = Ok (Finished st) → (length l + skipped st ≤ total st)%nat)
  ∧ (fs_wf (w_fs w) →
     fs_is_dir (w_fs w) input_dir = true →
     fs_is_dir (w_fs w) out = true →
     (∀ v, v ∈ videos →
           ∃ d, audio_file_for input_dir out fmt keep v = Ok d
                ∧ fs_exists (w_fs w) d = true) →
     w' = w
     ∧ ∃ st, (r = Ok (Finished st) ∨ r = Ok (NoVideoFiles st))
             ∧ total st = length videos ∧ skipped st = total st
             ∧ success st = 0%nat ∧ failed st = 0%nat).
Proof.
  intros out videos Hrun. split; [by eapply batch_calls|].
  intros Hwf Hin Hout Hall.
  destruct (batch_rerun input_dir output_dir fmt q br sr ch recursive keep max_workers w
              Hwf Hin Hout Hall) as (r0 & Heq & Hr0).
  rewrite Heq in Hrun. injection Hrun as <- <-. split; [done|].
  destruct Hr0 as [-> | [Hnil ->]]; eexists; (split; [eauto|]); simpl; [done|].
  subst videos. by rewrite Hnil.
Qed.

(** A job whose output path has no directory part raises in [os.makedirs]
    before anything is started: the pooled loop counts it as failed, the
    sequential loop is left by the exception. *)
Lemma convert_no_dirname t w :
  fs_exists (w_fs w) (video_path t) = true → dirname (audio_path t) = [] →
  convert_video_to_audio ffmpeg ffmpeg_path t w = (Raise FileNotFoundError, w).
Proof.
  intros Hv Hd. unfold convert_video_to_audio. unfold_monad.
  rewrite Hv, Hd. done.
Qed.

Lemma pooled_no_dirname ts st w :
  (∀ t, t ∈ ts → fs_exists (w_fs w) (video_path t) = true ∧ dirname (audio_path t) = []) →
  for_each ts (run_pooled_task ffmpeg ffmpeg_path) st w
  = (Ok (Stats (total st) (success st) (failed st + length ts) (skipped st) (no_audio st)), w).
Proof.
  revert st. induction ts as [|t ts IH]; intros st H; simpl.
  - unfold ret. rewrite Nat.add_0_r. by destruct st.
  - unfold bind at 1. unfold run_pooled_task at 1. unfold try_except, bind at 1.
    destruct (H t) as [Hv Hd]; [by left|]. rewrite convert_no_dirname by done.
    unfold ret. rewrite IH by (intros t' Ht'; apply H; by right). simpl.
    by rewrite Nat.add_succ_r.
Qed.

(** [batch_convert], one step at a time. *)
Lemma batch_convert_eq input_dir output_dir fmt q br sr ch recursive keep ow max_workers w :
  batch_convert' input_dir output_dir fmt q br sr ch recursive keep ow max_workers w
  = if negb (fs_exists (w_fs w) input_dir && fs_is_dir (w_fs w) input_dir)
    then (Ok InputDirMissing, w)
    else
      let out := output_root input_dir output_dir in
      match fs_mkdir_p (w_fs w) out with
      | Raise e => (Raise e, w)
      | Ok f1 =>
          let videos := find_videos f1 input_dir recursive in
          if bool_decide (videos = []) then
            (Ok (NoVideoFiles (Stats 0 0 0 0 0)), World f1 (w_calls w))
          else
            match build_tasks input_dir out fmt q br sr ch keep ow videos
                    (World f1 (w_calls w)) with
            | (Raise e, w1) => (Raise e, w1)
            | (Ok built, w1) =>
                match (if (1 <? max_workers)%Z && (1 <? length built.2)%nat
                       then for_each (as_completed built.2)
                              (run_pooled_task ffmpeg ffmpeg_path) built.1 w1
                       else for_each built.2 (run_task ffmpeg ffmpeg_path) built.1 w1) with
                | (Ok st, w2) => (Ok (Finished st), w2)
                | (Raise e, w2) => (Raise e, w2)
                end
            end
      end.
Proof.
  unfold batch_convert. fold (output_root input_dir output_dir). unfold_monad. simpl.
  repeat case_match; simplify_eq/=; try done; congruence.
Qed.

(** Claim C5, at an input where the two ways of running the tasks differ.
    The output directory is the current directory, so every audio path is a
    bare file name; with one worker the run ends with [FileNotFoundError] and
    returns no statistics, with two workers it returns [failed = 2]. *)
Theorem sequential_and_pooled_differ :
  let run := λ n, batch_convert ffmpeg ffmpeg_path as_completed
                    [py "in"] (Some []) (py "mp3") None None None None
                    false false true n (World two_videos []) in
  (run 1%Z).1 = Raise FileNotFoundError
  ∧ (run 2%Z).1 = Ok (Finished (Stats 2 0 2 0 0)).
Proof.
  set (ta := Task [py "in"; py "a.mp4"] [py "a.mp3"] (py "mp3") None None None None true).
  set (tb := Task [py "in"; py "b.mp4"] [py "b.mp3"] (py "mp3") None None None None true).
  assert (find_videos two_videos [py "in"] false
          = [[py "in"; py "b.mp4"]; [py "in"; py "a.mp4"]]) as Hfind
    by (vm_compute; reflexivity).
  assert (build_tasks [py "in"] [] (py "mp3") None None None None false true
            [[py "in"; py "b.mp4"]; [py "in"; py "a.mp4"]] (World two_videos [])
          = (Ok (Stats 2 0 0 0 0, [tb; ta]), World two_videos [])) as Hbuild
    by (vm_compute; reflexivity).
  assert (∀ t, t ∈ [tb; ta] →
               fs_exists two_videos (video_path t) = true ∧ dirname (audio_path t) = [])
    as Hjobs.
  { intros t Ht. apply elem_of_cons in Ht as [-> | Ht];
      [|apply list_elem_of_singleton in Ht as ->]; split; vm_compute; reflexivity. }
  intros run. subst run. cbv beta. rewrite !batch_convert_eq.
  cbn [w_fs w_calls output_root].
  change (fs_exists two_videos [py "in"] && fs_is_dir two_videos [py "in"]) with true.
  cbn [negb]. change (fs_mkdir_p two_videos []) with (Ok two_videos). cbv beta iota zeta.
  rewrite Hfind. rewrite bool_decide_eq_false_2 by done. rewrite Hbuild.
  cbv beta iota. cbn [fst snd length]. split.
  - change ((1 <? 1)%Z) with false. cbn [andb for_each].
    unfold bind at 1. unfold run_task at 1. unfold bind at 1.
    rewrite convert_no_dirname; [done | apply Hjobs; by left | apply Hjobs; by left].
  - change ((1 <? 2)%Z && (1 <? 2)%nat) with true. cbv iota.
    rewrite pooled_no_dirname.
    + by rewrite (Permutation_length (as_completed_perm _)).
    + intros t Ht. rewrite (as_completed_perm _) in Ht. by apply Hjobs.
Qed.

End BatchFacts.

(** ** Destination paths *)

Section DestinationFacts.

Import Video2Audio.

Lemma dest_flat_inj (out : path) (s1 s2 e : pystr) :
  out ++ [s1 ++ e] = out ++ [s2 ++ e] ↔ s1 = s2.
Proof.
  split; [|by intros ->]. intros H. apply app_inv_head in H.
  injection H as H. by apply app_inv_tail in H.
Qed.

Lemma dest_keep_inj (out d1 d2 : path) (s1 s2 e : pystr) :
  out ++ (d1 ++ [s1 ++ e]) = out ++ (d2 ++ [s2 ++ e]) ↔ d1 = d2 ∧ s1 = s2.
Proof.
  split; [|by intros [-> ->]]. intros H. apply app_inv_head in H.
  apply app_inj_tail in H as [-> H]. by apply app_inv_tail in H.
Qed.

(** Claim C8.  The destination of a job is the value of one function of the
    source path, the input and output roots, the profile and the
    structure flag: it does not depend on the file system, on the overwrite
    flag or on the other options, so two runs give the same source the same
    destination. *)
Theorem destination_is_deterministic input_path output_path fmt keep
    q1 br1 sr1 ch1 ow1 videos1 w1 st1 ts1 w1'
    q2 br2 sr2 ch2 ow2 videos2 w2 st2 ts2 w2' :
  build_tasks input_path output_path fmt q1 br1 sr1 ch1 keep ow1 videos1 w1
  = (Ok (st1, ts1), w1') →
  build_tasks input_path output_path fmt q2 br2 sr2 ch2 keep ow2 videos2 w2
  = (Ok (st2, ts2), w2') →
  (∀ t, t ∈ ts1 →
        audio_file_for input_path output_path fmt keep (video_path t) = Ok (audio_path t))
  ∧ ∀ t1 t2, t1 ∈ ts1 → t2 ∈ ts2 →
      video_path t1 = video_path t2 → audio_path t1 = audio_path t2.
Proof.
  intros H1 H2.
  apply build_tasks_spec in H1 as (_ & _ & _ & _ & _ & _ & _ & _ & Hall1).
  apply build_tasks_spec in H2 as (_ & _ & _ & _ & _ & _ & _ & _ & Hall2).
  rewrite Forall_forall in Hall1, Hall2. split.
  - intros t Ht. by destruct (Hall1 t Ht) as (_ & Hd & _).
  - intros t1 t2 Ht1 Ht2 Hv.
    destruct (Hall1 t1 Ht1) as (_ & Hd1 & _). destruct (Hall2 t2 Ht2) as (_ & Hd2 & _).
    rewrite Hv in Hd1. congruence.
Qed.

(** Claim C9, as the code has it.  Two jobs of a run have the same
    destination exactly when their sources have the same stem (flat output)
    or the same relative directory and the same stem (mirrored output). *)
Theorem destinations_coincide_iff input_path output_path fmt keep q br sr ch ow
    videos w st ts w' t1 t2 :
  build_tasks input_path output_path fmt q br sr ch keep ow videos w = (Ok (st, ts), w') →
  t1 ∈ ts → t2 ∈ ts →
  (keep = false →
   (audio_path t1 = audio_path t2 ↔ stem (video_path t1) = stem (video_path t2)))
  ∧ (keep = true →
     ∃ r1 r2,
       relative_to (video_path t1) input_path = Ok r1
       ∧ relative_to (video_path t2) input_path = Ok r2
       ∧ (audio_path t1 = audio_path t2 ↔ removelast r1 = removelast r2 ∧ stem r1 = stem r2)).
Proof.
  intros H Ht1 Ht2.
  apply build_tasks_spec in H as (_ & _ & _ & _ & _ & _ & _ & _ & Hall).
  rewrite Forall_forall in Hall.
  destruct (Hall t1 Ht1) as (_ & Hd1 & _). destruct (Hall t2 Ht2) as (_ & Hd2 & _).
  unfold audio_file_for in Hd1, Hd2.
  destruct (dict_get AUDIO_FORMATS fmt) as [cfg|]; [|done].
  split; intros ->.
  - injection Hd1 as <-. injection Hd2 as <-. apply dest_flat_inj.
  - destruct (relative_to (video_path t1) input_path) as [r1|] eqn:E1; [|done].
    destruct (relative_to (video_path t2) input_path) as [r2|] eqn:E2; [|done].
    destruct (with_suffix r1 (ext cfg)) as [r1'|] eqn:S1; [|done].
    destruct (with_suffix r2 (ext cfg)) as [r2'|] eqn:S2; [|done].
    apply with_suffix_Ok in S1 as ->. apply with_suffix_Ok in S2 as ->.
    injection Hd1 as <-. injection Hd2 as <-.
    exists r1, r2. split_and!; [done | done |]. apply dest_keep_inj.
Qed.

End DestinationFacts.

(** Claim C9, as stated, fails: [a.mp4] and [a.avi] are two jobs with the
    one destination [a.mp3], for every combination of the recursive and the
    structure flag. *)
Lemma same_stem_shares_destination :
  shares_destination true true ∧ shares_destination true false
  ∧ shares_destination false true ∧ shares_destination false false.
Proof.
  split_and!; unfold shares_destination.
  all: eexists _, _, _; split; [vm_compute; reflexivity|].
  all: intros H; eapply H; [apply list_elem_of_here | apply list_elem_of_further, list_elem_of_here | |];
    [vm_compute; discriminate | vm_compute; reflexivity].
Qed.

(** ** [audio_compresser.py] *)

Section CompressFacts.

Import AudioCompresser.

Variable ffmpeg : tool.
Variable mkstemp : fsmap → result path.

Local Abbreviation two_stage_compress' := (two_stage_compress ffmpeg mkstemp).

(** [two_stage_compress] catches every exception. *)
Lemma two_stage_returns input_path output_path ob mb w :
  ∃ b m w', two_stage_compress' input_path output_path ob mb w = (Ok (b, m), w').
Proof.
  unfold two_stage_compress, try_except.
  match goal with |- context [bind ?m ?k w] => destruct (bind m k w) as [[[b m0]|e] w1] end.
  - eauto.
  - destruct e; unfold ret; eauto.
Qed.

(** The clean-up leaves no regular file at the temporary path. *)
Lemma cleanup_removes p w r w' :
  cleanup p w = (r, w') → fs_is_file (w_fs w') p = false.
Proof.
  unfold cleanup, fs_is_file. unfold_monad. unfold fs_exists, fs_unlink.
  destruct (node_at (w_fs w) p) as [[n|]|] eqn:E; simpl; rewrite ?E; simpl.
  - intros [= <- <-]. simpl.
    unfold node_at in *. destruct (is_anchor p); [done|]. by rewrite lookup_delete_eq.
  - intros [= <- <-]. by rewrite E.
  - intros [= <- <-]. by rewrite E.
Qed.

(** Whatever happens between the creation of the temporary file and the
    end of [two_stage_compress], the temporary file is gone afterwards. *)
Lemma two_stage_cleans_up input_path output_path ob mb w p r w' :
  fs_exists (w_fs w) input_path = true →
  mkstemp (w_fs w) = Ok p →
  two_stage_compress' input_path output_path ob mb w = (r, w') →
  fs_is_file (w_fs w') p = false.
Proof.
  intros Hin Htmp. unfold two_stage_compress, try_except, NamedTemporaryFile.
  unfold bind at 1. unfold os_path_exists at 1, read_fs. rewrite Hin. simpl.
  unfold bind at 1. unfold os_path_getsize, lift_fs.
  destruct (fs_getsize (w_fs w) input_path) as [n|e] eqn:Hsz.
  2: { unfold fs_getsize, fs_exists in *. apply bool_decide_eq_true in Hin as [nd Hnd].
       rewrite Hnd in Hsz. by destruct nd. }
  unfold bind at 1. rewrite Htmp. unfold try_finally.
  destruct (two_stages _ _ _ _ _ _ _ _) as [r1 w1].
  destruct (cleanup p w1) as [[[]|e] w2] eqn:Hclean; apply cleanup_removes in Hclean.
  - destruct r1 as [bm|e]; [by intros [= <- <-]|].
    destruct e; unfold ret; by intros [= <- <-].
  - destruct e; unfold ret; by intros [= <- <-].
Qed.

(** A time-out of the first run leaves the inner block as an exception. *)
Lemma two_stages_timeout1 input_path output_path p ob mb n w f2 :
  ffmpeg (w_calls w) (opus_cmd input_path p ob) (w_fs w) = (Raise TimeoutExpired, f2) →
  two_stages ffmpeg input_path output_path p ob mb n w
  = (Raise TimeoutExpired, World f2 (w_calls w ++ [opus_cmd input_path p ob])).
Proof.
  intros H. unfold two_stages. unfold bind at 1. unfold subprocess_run at 1.
  by rewrite H.
Qed.

(** So does a time-out of the second run, after a first run that returned 0
    and left a non-empty Opus file. *)
Lemma two_stages_timeout2 input_path output_path p ob mb n w err f1 sz f2 :
  let c1 := opus_cmd input_path p ob in
  let c2 := mp3_cmd p output_path mb in
  ffmpeg (w_calls w) c1 (w_fs w) = (Ok (0%Z, err), f1) →
  fs_exists f1 p = true → fs_getsize f1 p = Ok sz → sz ≠ 0 →
  ffmpeg (w_calls w ++ [c1]) c2 f1 = (Raise TimeoutExpired, f2) →
  two_stages ffmpeg input_path output_path p ob mb n w
  = (Raise TimeoutExpired, World f2 ((w_calls w ++ [c1]) ++ [c2])).
Proof.
  intros c1 c2 H1 He Hsz Hnz H2. unfold two_stages. unfold_monad. fold c1 c2.
  rewrite H1. simpl. rewrite He. simpl. rewrite Hsz.
  apply N.eqb_neq in Hnz. rewrite Hnz. simpl. rewrite Hsz. simpl. by rewrite H2.
Qed.

(** When the inner block ends with a time-out, [two_stage_compress] reports
    the failure with the time-out message, after the clean-up. *)
Lemma two_stage_timeout input_path output_path ob mb w p w1 :
  fs_exists (w_fs w) input_path = true →
  mkstemp (w_fs w) = Ok p →
  (∀ n, two_stages ffmpeg input_path output_path p ob mb n
          (World (<[p := File 0]> (w_fs w)) (w_calls w)) = (Raise TimeoutExpired, w1)) →
  fs_is_dir (w_fs w1) p = false →
  ∃ w', two_stage_compress' input_path output_path ob mb w = (Ok (false, Timeout), w')
        ∧ w_calls w' = w_calls w1 ∧ fs_is_file (w_fs w') p = false.
Proof.
  intros Hin Htmp Hrun Hdir. unfold two_stage_compress, try_except, NamedTemporaryFile.
  unfold bind at 1. unfold os_path_exists at 1, read_fs. rewrite Hin. simpl.
  unfold bind at 1. unfold os_path_getsize, lift_fs.
  destruct (fs_getsize (w_fs w) input_path) as [n|e] eqn:Hsz.
  2: { unfold fs_getsize, fs_exists in *. apply bool_decide_eq_true in Hin as [nd Hnd].
       rewrite Hnd in Hsz. by destruct nd. }
  unfold bind at 1. rewrite Htmp. unfold try_finally. rewrite Hrun.
  destruct (cleanup p w1) as [[[]|e] w2] eqn:Hclean.
  - unfold ret. eexists. split_and!; [done | | by eapply cleanup_removes].
    revert Hclean. unfold cleanup. unfold_monad. unfold fs_unlink.
    repeat case_match; intros; simplify_eq/=; done.
  - exfalso. revert Hclean. unfold cleanup. unfold_monad.
    unfold fs_unlink, fs_is_dir, fs_exists in *.
    destruct (node_at (w_fs w1) p) as [[sz|]|] eqn:E; simpl; rewrite ?E; simpl;
      intros; simplify_eq/=.
Qed.

Local Abbreviation compress_one' := (compress_one ffmpeg mkstemp).

(** A file that fails is put on the list of failed files with its message,
    and the loop goes on with the next name. *)
Lemma compress_one_failure input_folder output_folder ob mb filename s w m w' :
  lower (splitext filename).2 ∈ audio_extensions →
  fs_is_file (w_fs w) (input_folder ++ [filename]) = true →
  two_stage_compress' (input_folder ++ [filename])
    (output_folder ++ [(splitext filename).1 ++ py ".mp3"]) ob mb w = (Ok (false, m), w') →
  compress_one' input_folder output_folder ob mb filename s w
  = (Ok (s.1, s.2 ++ [(filename, m)]), w').
Proof.
  intros Hext Hfile Hrun. unfold compress_one.
  rewrite bool_decide_eq_true_2 by done. unfold_monad. rewrite Hfile. simpl.
  by rewrite Hrun.
Qed.

End CompressFacts.

(** A loop goes on after a round that returned. *)
Lemma for_each_continue {A S} (body : A → S → M S) xs x ys s w s1 w1 s2 w2 :
  for_each xs body s w = (Ok s1, w1) →
  body x s1 w1 = (Ok s2, w2) →
  for_each (xs ++ x :: ys) body s w = for_each ys body s2 w2.
Proof.
  intros H1 H2. rewrite for_each_app. unfold bind. rewrite H1. simpl.
  unfold bind. by rewrite H2.
Qed.

(** Claim C1, at an input where the code reports success for an empty
    output.  Both runs of the encoder return 0, the first leaves an Opus file
    of 100 bytes, the second an MP3 file of 0 bytes: [two_stage_compress]
    returns success, where the first stage, and [convert_video_to_audio],
    check the size. *)
Theorem empty_output_reported_as_success :
  let run := AudioCompresser.two_stage_compress empty_output_tool (λ _, Ok temp_opus)
               [py "in"; py "a.wav"] [py "out"; py "a.mp3"] (py "6k") (py "16k")
               (World one_audio []) in
  run.1 = Ok (true, AudioCompresser.Succeeded 0 1024)
  ∧ fs_getsize (w_fs run.2) [py "out"; py "a.mp3"] = Ok 0
  ∧ length (w_calls run.2) = 2%nat
  ∧ (AudioCompresser.compress_with_opus_then_mp3 empty_output_tool (λ _, Ok temp_opus)
       [py "in"] (Some [py "out"]) (py "6k") (py "16k") (World one_audio [])).1
    = Ok (1%nat, []).
Proof. vm_compute. repeat split. Qed.

(** ** Time-outs *)

Section TimeoutFacts.

Variable ffmpeg : tool.
Variable ffmpeg_path : pystr.
Variable mkstemp : fsmap → result path.

Lemma compression_times_out_stages input_path output_path p ob mb w w' n :
  compression_times_out ffmpeg input_path output_path p ob mb w w' →
  AudioCompresser.two_stages ffmpeg input_path output_path p ob mb n w
  = (Raise TimeoutExpired, w').
Proof.
  intros [(f2 & H & ->) | (err & f1 & sz & f2 & H1 & He & Hsz & Hnz & H2 & ->)].
  - by apply two_stages_timeout1.
  - by eapply two_stages_timeout2.
Qed.

(** Claim C6.  A job on which the encoder exceeds its time limit is
    reported as a failure with the time-out message, its failure is counted
    (or listed), and the loop goes on with the remaining jobs exactly as it
    would from that point: in the sequential and in the pooled loop of
    [batch_convert], and in the loop of [compress_with_opus_then_mp3]. *)
Theorem timeout_fails_the_job_only :
  (∀ body ts1 t ts2 st w st1 w1 w2,
     body = Video2Audio.run_task ffmpeg ffmpeg_path
     ∨ body = Video2Audio.run_pooled_task ffmpeg ffmpeg_path →
     for_each ts1 body st w = (Ok st1, w1) →
     conversion_times_out ffmpeg ffmpeg_path t w1 w2 →
     Video2Audio.convert_video_to_audio ffmpeg ffmpeg_path t w1
     = (Ok (false, Video2Audio.Timeout), w2)
     ∧ for_each (ts1 ++ t :: ts2) body st w
       = for_each ts2 body (Video2Audio.add_failed st1) w2)
  ∧ (∀ input_folder output_folder ob mb names1 filename names2 s w s1 w1 p wt,
       let body := AudioCompresser.compress_one ffmpeg mkstemp input_folder output_folder
                     ob mb in
       let input_path := input_folder ++ [filename] in
       let output_path := output_folder ++ [(splitext filename).1 ++ py ".mp3"] in
       for_each names1 body s w = (Ok s1, w1) →
       lower (splitext filename).2 ∈ AudioCompresser.audio_extensions →
       fs_is_file (w_fs w1) input_path = true →
       mkstemp (w_fs w1) = Ok p →
       compression_times_out ffmpeg input_path output_path p ob mb
         (World (<[p := File 0]> (w_fs w1)) (w_calls w1)) wt →
       fs_is_dir (w_fs wt) p = false →
       ∃ w2,
         AudioCompresser.two_stage_compress ffmpeg mkstemp input_path output_path ob mb w1
         = (Ok (false, AudioCompresser.Timeout), w2)
         ∧ for_each (names1 ++ filename :: names2) body s w
           = for_each names2 body (s1.1, s1.2 ++ [(filename, AudioCompresser.Timeout)]) w2).
Proof.
  split.
  - intros body ts1 t ts2 st w st1 w1 w2 Hbody Hpre
      (cfg & f1 & f2 & Hv & Hmk & Hex & Hcfg & Hrun & ->).
    pose proof (convert_timeout ffmpeg ffmpeg_path t w1 cfg f1 f2 Hv Hmk Hex Hcfg Hrun)
      as Hconv.
    split; [done|]. eapply for_each_continue; [exact Hpre|].
    destruct Hbody as [-> | ->].
    + unfold Video2Audio.run_task, bind. by rewrite Hconv.
    + unfold Video2Audio.run_pooled_task, try_except, bind. by rewrite Hconv.
  - intros input_folder output_folder ob mb names1 filename names2 s w s1 w1 p wt
      body input_path output_path Hpre Hext Hfile Htmp Hto Hdir.
    destruct (two_stage_timeout ffmpeg mkstemp input_path output_path ob mb w1 p wt)
      as (w2 & Hrun & _ & _); try done.
    { unfold fs_is_file, fs_exists in *.
      destruct (node_at (w_fs w1) input_path); [|done]. by apply bool_decide_eq_true. }
    { intros n. by apply compression_times_out_stages. }
    exists w2. split; [done|]. eapply for_each_continue; [exact Hpre|].
    by apply compress_one_failure.
Qed.

End TimeoutFacts.

(** ** The transcription scripts *)

Lemma is_anchor_snoc (d : path) (x : pystr) :
  (2 ≤ length x)%nat → is_anchor (d ++ [x]) = false.
Proof.
  intros Hx. unfold is_anchor. apply orb_false_iff. split; apply bool_decide_eq_false.
  - by destruct d.
  - destruct d as [|y [|z d]]; simpl; [|done..]. intros [= ->]. simpl in Hx. lia.
Qed.

Lemma length_py_app (b : pystr) (s : string) :
  length (b ++ py s) = (length b + String.length s)%nat.
Proof.
  rewrite length_app. f_equal. unfold py. rewrite length_map.
  induction s as [|c s IH]; simpl; [done | by rewrite IH].
Qed.

Lemma fs_getsize_exists f p : fs_exists f p = true → ∃ n, fs_getsize f p = Ok n.
Proof.
  unfold fs_exists, fs_getsize. intros H. apply bool_decide_eq_true in H as [[n|] ->]; eauto.
Qed.

(** Removing a file when it is there leaves no regular file at its path. *)
Lemma unlink_if_exists p w r w' :
  (if fs_exists (w_fs w) p then os_unlink p else ret tt) w = (r, w') →
  fs_is_file (w_fs w') p = false.
Proof.
  unfold fs_is_file, fs_exists. unfold_monad. unfold fs_unlink.
  destruct (node_at (w_fs w) p) as [[n|]|] eqn:E; simpl; rewrite ?E; simpl.
  - intros [= <- <-]. simpl.
    unfold node_at in *. destruct (is_anchor p); [done|]. by rewrite lookup_delete_eq.
  - intros [= <- <-]. by rewrite E.
  - intros [= <- <-]. by rewrite E.
Qed.

(** It leaves every other path as it was. *)
Lemma unlink_if_exists_other p q w r w' :
  (if fs_exists (w_fs w) p then os_unlink p else ret tt) w = (r, w') →
  p ≠ q → node_at (w_fs w') q = node_at (w_fs w) q.
Proof.
  unfold fs_exists. unfold_monad. unfold fs_unlink.
  destruct (node_at (w_fs w) p) as [[n|]|] eqn:E; simpl; rewrite ?E; simpl.
  all: intros [= <- <-] Hne; try done. simpl.
  unfold node_at. destruct (is_anchor q); [done|]. by rewrite lookup_delete_ne.
Qed.

Section Audio2TextFacts.

Import Audio2Text.

Variable ffmpeg : tool.
Variable recognize : fsmap → path → pystr.

Local Abbreviation process_file' := (process_file ffmpeg recognize).

(** [extract_audio] catches every exception. *)
Lemma extract_audio_returns mp4 audio w :
  ∃ b w', extract_audio ffmpeg mp4 audio w = (Ok b, w').
Proof.
  unfold extract_audio. unfold_monad.
  repeat case_match; simplify_eq/=; eauto.
Qed.

(** A recognised text that is empty, or shorter than five characters after
    stripping, ends the round right after the extraction: nothing is
    written and the count stays. *)
Lemma short_text_not_saved output_dir audio_dir model_type keep_audio mp4 processed w r1 w1 :
  let audio_file := audio_dir ++ [stem mp4 ++ py ".mp3"] in
  let md_file := output_dir ++ [stem mp4 ++ py ".md"] in
  fs_exists (w_fs w) md_file = false →
  extract_audio ffmpeg mp4 audio_file w = (r1, w1) →
  recognize (w_fs w1) audio_file = []
  ∨ (length (strip (recognize (w_fs w1) audio_file)) < 5)%nat →
  process_file' output_dir audio_dir model_type keep_audio mp4 processed w
  = (Ok processed, w1).
Proof.
  intros audio_file md_file Hmd Hex Hshort. unfold process_file.
  fold audio_file md_file. unfold bind at 1. unfold os_path_exists at 1, read_fs.
  rewrite Hmd. unfold bind at 1. rewrite Hex.
  destruct (extract_audio_returns mp4 audio_file w) as (b & w1' & Hb).
  rewrite Hex in Hb. injection Hb as -> <-.
  destruct b; simpl; [|done]. unfold transcribe. unfold_monad.
  destruct (fs_exists (w_fs w1) audio_file) eqn:He; simpl; [|done].
  destruct (fs_getsize_exists _ _ He) as [n ->]. simpl.
  destruct (n =? 0); simpl; [done|]. rewrite He. simpl.
  destruct Hshort as [-> | Hlt]; [done|].
  apply Nat.ltb_lt in Hlt. rewrite Hlt. by rewrite orb_true_r.
Qed.

(** Without [--keep-audio], a file that is counted as processed has had its
    temporary audio file removed. *)
Lemma processed_audio_removed output_dir audio_dir model_type mp4 processed w w' :
  let audio_file := audio_dir ++ [stem mp4 ++ py ".mp3"] in
  process_file' output_dir audio_dir model_type false mp4 processed w
  = (Ok (S processed), w') →
  fs_is_file (w_fs w') audio_file = false.
Proof.
  intros audio_file. unfold process_file. fold audio_file.
  assert (∀ w0, (Ok processed, w0) = (Ok (S processed), w') → False) as Hno
    by (intros w0 [= Hp _]; lia).
  unfold bind at 1. unfold os_path_exists at 1, read_fs.
  destruct (fs_exists (w_fs w) _); [unfold ret; intros H; by apply Hno in H|].
  unfold bind at 1.
  destruct (extract_audio_returns mp4 audio_file w) as (b & w1 & ->).
  destruct b; simpl; [|unfold ret; intros H; by apply Hno in H].
  unfold bind at 1. unfold os_path_exists at 1, read_fs.
  unfold bind at 1.
  match goal with |- context [(if ?c then ?a else ?b) w1] =>
    destruct ((if c then a else b) w1) as [[inv|e] w2] eqn:Hinv end; [|done].
  assert (w2 = w1) as ->.
  { revert Hinv. unfold_monad. repeat case_match; intros; simplify_eq/=; done. }
  destruct inv; [unfold ret; intros H; by apply Hno in H|].
  unfold bind at 1. unfold transcribe. unfold bind at 1.
  unfold os_path_exists at 1, read_fs.
  match goal with |- context [(if ?c then ?a else ?b) w1] =>
    destruct ((if c then a else b) w1) as [[text|e] w2] eqn:Htext end.
  2: { revert Htext. unfold_monad. repeat case_match; intros; simplify_eq/=. }
  assert (w2 = w1) as ->.
  { revert Htext. unfold_monad. repeat case_match; intros; simplify_eq/=; done. }
  destruct (_ || _); [unfold ret; intros H; by apply Hno in H|].
  unfold bind at 1.
  destruct (save_as_markdown text _ _ _ w1) as [[saved|e] w3]; [|done].
  unfold bind at 1. unfold os_path_exists at 1, read_fs. unfold bind at 1. simpl.
  match goal with |- context [(if ?c then ?a else ?b) w3] =>
    destruct ((if c then a else b) w3) as [[[]|e] w4] eqn:Hrm end; [|done].
  apply unlink_if_exists in Hrm. unfold ret. by intros [= _ <-].
Qed.

End Audio2TextFacts.

Section SoundExtFacts.

Import SoundExt.

Variable ffmpeg : tool.
Variable moviepy : option (path → path → fsmap → result unit * fsmap).
Variable whisper : fsmap → path → pystr.
Variable speech_recognition : fsmap → path → pystr.

Local Abbreviation process_file' :=
  (process_file ffmpeg moviepy whisper speech_recognition).

(** After a successful extraction every non-empty text, however short, is
    saved: the markdown file holds it; and without [keep_audio] the
    temporary audio file is removed. *)
Lemma nonempty_text_saved output_path audio_dir (keep_audio use_whisper : bool) mp4 w w1 :
  let audio_file := audio_dir ++ [stem mp4 ++ py ".mp3"] in
  let md_file := output_path ++ [stem mp4 ++ py ".md"] in
  let text := if use_whisper then whisper (w_fs w1) audio_file
              else speech_recognition (w_fs w1) audio_file in
  let w' := (process_file' output_path audio_dir keep_audio use_whisper mp4 tt w).2 in
  fs_exists (w_fs w) md_file = false →
  extract_audio_from_mp4 ffmpeg moviepy mp4 audio_file w = (Ok true, w1) →
  text ≠ [] →
  (fs_is_dir (w_fs w1) output_path = true → fs_is_dir (w_fs w1) md_file = false →
   node_at (w_fs w') md_file = Some (File (markdown_size text)))
  ∧ (keep_audio = false → fs_is_file (w_fs w') audio_file = false).
Proof.
  intros audio_file md_file text w' Hmd Hex Htext.
  assert (is_anchor md_file = false) as Hanchor.
  { apply is_anchor_snoc. rewrite (length_py_app _ ".md"). simpl. lia. }
  assert (audio_file ≠ md_file) as Hne.
  { intros Heq. apply (f_equal (λ p : path, List.last p [])) in Heq.
    unfold audio_file, md_file in Heq. rewrite !last_snoc' in Heq.
    apply app_inv_head in Heq. discriminate. }
  assert (w' = ((do* save_text_as_markdown text md_file in
                 let* e := os_path_exists audio_file in
                 if negb keep_audio && e then os_unlink audio_file else ret tt) w1).2)
    as ->.
  { subst w'. unfold process_file. fold audio_file md_file.
    unfold bind at 1. unfold os_path_exists at 1, read_fs. rewrite Hmd.
    unfold bind at 1. rewrite Hex. simpl.
    unfold bind at 1. cbv beta iota. cbn [w_fs]. fold text.
    by rewrite bool_decide_eq_false_2 by done. }
  match goal with |- context [w_fs (?X).2] => set (res := X) end.
  assert (∃ f2 r3 w3,
            (fs_write (w_fs w1) md_file (markdown_size text) = Ok f2
             ∨ (f2 = w_fs w1
                ∧ ∃ e, fs_write (w_fs w1) md_file (markdown_size text) = Raise e))
            ∧ (keep_audio = false →
               (if fs_exists f2 audio_file then os_unlink audio_file else ret tt)
                 (World f2 (w_calls w1)) = (r3, w3))
            ∧ (keep_audio = true → w_fs w3 = f2)
            ∧ res.2 = w3) as (f2 & r3 & w3 & Hw & Hrm & Hkeep & ->).
  { subst res. unfold save_text_as_markdown, try_except, bind, write_file, update_fs,
      os_path_exists, read_fs, ret.
    destruct (fs_write (w_fs w1) md_file (markdown_size text)) as [f2|e] eqn:Hw;
      cbn [w_fs w_calls]; destruct keep_audio; cbn [negb andb].
    - exists f2, (Ok tt), (World f2 (w_calls w1)).
      split_and!; [by left | done | done | done].
    - destruct (fs_exists f2 audio_file) eqn:Ee.
      + destruct (os_unlink audio_file (World f2 (w_calls w1))) as [r3 w3] eqn:Hu.
        exists f2, r3, w3. split_and!; [by left | by rewrite Ee | done | done].
      + exists f2, (Ok tt), (World f2 (w_calls w1)).
        split_and!; [by left | by rewrite Ee | done | done].
    - exists (w_fs w1), (Ok tt), w1.
      split_and!; [right; eauto | done | done | done].
    - destruct (fs_exists (w_fs w1) audio_file) eqn:Ee.
      + destruct (os_unlink audio_file w1) as [r3 w3] eqn:Hu.
        exists (w_fs w1), r3, w3.
        split_and!; [right; eauto | rewrite Ee; by destruct w1 | done | done].
      + exists (w_fs w1), (Ok tt), w1.
        split_and!; [right; eauto | rewrite Ee; by destruct w1 | done | done]. }
  split.
  - intros Hd1 Hd2. destruct Hw as [Hw | (-> & e & Hw)].
    + assert (node_at f2 md_file = Some (File (markdown_size text))) as Hnode.
      { unfold fs_write in Hw. repeat case_match; simplify_eq/=.
        all: unfold node_at; rewrite Hanchor; by rewrite lookup_insert_eq. }
      destruct keep_audio.
      * by rewrite Hkeep.
      * by rewrite (unlink_if_exists_other audio_file md_file (World f2 (w_calls w1))
                     r3 w3 (Hrm eq_refl) Hne).
    + exfalso. unfold fs_write, fs_is_dir, md_file in *.
      rewrite removelast_snoc in Hw. fold md_file in Hw, Hd2.
      destruct (node_at (w_fs w1) output_path) as [[|]|]; try done.
      destruct (node_at (w_fs w1) md_file) as [[|]|]; done.
  - intros Hk. exact (unlink_if_exists audio_file (World f2 (w_calls w1)) r3 w3 (Hrm Hk)).
Qed.

End SoundExtFacts.

(** Claim C3, as the code has it.  In [audio2text.py] a recognised text
    that is empty or shorter than five characters after stripping ends the
    round: nothing is written and the file is not counted.  In [soundext.py]
    only the empty text does; every non-empty text is saved. *)
Theorem short_text_handling ffmpeg recognize moviepy whisper speech_recognition :
  (∀ output_dir audio_dir model_type keep_audio mp4 processed w r1 w1,
     let audio_file := audio_dir ++ [stem mp4 ++ py ".mp3"] in
     let md_file := output_dir ++ [stem mp4 ++ py ".md"] in
     fs_exists (w_fs w) md_file = false →
     Audio2Text.extract_audio ffmpeg mp4 audio_file w = (r1, w1) →
     recognize (w_fs w1) audio_file = []
     ∨ (length (strip (recognize (w_fs w1) audio_file)) < 5)%nat →
     Audio2Text.process_file ffmpeg recognize output_dir audio_dir model_type keep_audio
       mp4 processed w = (Ok processed, w1))
  ∧ (∀ output_path audio_dir (keep_audio use_whisper : bool) mp4 w w1,
       let audio_file := audio_dir ++ [stem mp4 ++ py ".mp3"] in
       let md_file := output_path ++ [stem mp4 ++ py ".md"] in
       let text := if use_whisper then whisper (w_fs w1) audio_file
                   else speech_recognition (w_fs w1) audio_file in
       let w' := (SoundExt.process_file ffmpeg moviepy whisper speech_recognition
                    output_path audio_dir keep_audio use_whisper mp4 tt w).2 in
       fs_exists (w_fs w) md_file = false →
       SoundExt.extract_audio_from_mp4 ffmpeg moviepy mp4 audio_file w = (Ok true, w1) →
       text ≠ [] →
       fs_is_dir (w_fs w1) output_path = true → fs_is_dir (w_fs w1) md_file = false →
       node_at (w_fs w') md_file = Some (File (SoundExt.markdown_size text))).
Proof.
  split.
  - intros. by eapply short_text_not_saved.
  - intros output_path audio_dir keep_audio use_whisper mp4 w w1 audio_file md_file text w'
      Hmd Hex Htext Hd1 Hd2.
    by apply (nonempty_text_saved ffmpeg moviepy whisper speech_recognition output_path
                audio_dir keep_audio use_whisper mp4 w w1 Hmd Hex Htext).
Qed.

(** Claim C3, as stated, fails in [soundext.py]: a recognised text of three
    characters is written to the markdown file. *)
Lemma soundext_saves_short_text :
  let run := SoundExt.process_mp4_files writing_tool None (λ _ _, py "abc") (λ _ _, [])
               [py "in"] (Some [py "out"]) false true (World one_video []) in
  (length (strip (py "abc")) < 5)%nat
  ∧ fs_exists one_video [py "out"; py "talk.md"] = false
  ∧ node_at (w_fs run.2) [py "out"; py "talk.md"] = Some (File 42).
Proof. vm_compute. repeat split; lia. Qed.

(** Claim C4, as the code has it.  The intermediate Opus file of
    [two_stage_compress] is gone on every way out.  The transcription
    scripts, run without [keep_audio], remove the temporary audio file once
    the text has been accepted and the save step has run. *)
Theorem staging_file_cleanup ffmpeg mkstemp recognize moviepy whisper speech_recognition :
  (∀ input_path output_path ob mb w p r w',
     fs_exists (w_fs w) input_path = true →
     mkstemp (w_fs w) = Ok p →
     AudioCompresser.two_stage_compress ffmpeg mkstemp input_path output_path ob mb w
     = (r, w') →
     fs_is_file (w_fs w') p = false)
  ∧ (∀ output_dir audio_dir model_type mp4 processed w w',
       Audio2Text.process_file ffmpeg recognize output_dir audio_dir model_type false
         mp4 processed w = (Ok (S processed), w') →
       fs_is_file (w_fs w') (audio_dir ++ [stem mp4 ++ py ".mp3"]) = false)
  ∧ (∀ output_path audio_dir (use_whisper : bool) mp4 w w1,
       let audio_file := audio_dir ++ [stem mp4 ++ py ".mp3"] in
       let md_file := output_path ++ [stem mp4 ++ py ".md"] in
       let text := if use_whisper then whisper (w_fs w1) audio_file
                   else speech_recognition (w_fs w1) audio_file in
       let w' := (SoundExt.process_file ffmpeg moviepy whisper speech_recognition
                    output_path audio_dir false use_whisper mp4 tt w).2 in
       fs_exists (w_fs w) md_file = false →
       SoundExt.extract_audio_from_mp4 ffmpeg moviepy mp4 audio_file w = (Ok true, w1) →
       text ≠ [] →
       fs_is_file (w_fs w') audio_file = false).
Proof.
  split_and!.
  - intros. by eapply two_stage_cleans_up.
  - intros. by eapply processed_audio_removed.
  - intros output_path audio_dir use_whisper mp4 w w1 audio_file md_file text w'
      Hmd Hex Htext.
    by apply (nonempty_text_saved ffmpeg moviepy whisper speech_recognition output_path
                audio_dir false use_whisper mp4 w w1 Hmd Hex Htext).
Qed.

(** Claim C4, as stated, fails in [audio2text.py]: with [--keep-audio] the
    temporary audio file stays after a successful round, by request; and
    without it the file also stays when the recognised text is rejected. *)
Lemma audio_file_left_behind :
  let audio_file := [py "out"; py "temp_audio"; py "talk.mp3"] in
  let kept := Audio2Text.main writing_tool true (λ _ _, py "hello world")
                [py "in"] (Some [py "out"]) (py "whisper") true (World one_video []) in
  let rejected := Audio2Text.main writing_tool true (λ _ _, py "abc")
                    [py "in"] (Some [py "out"]) (py "whisper") false (World one_video []) in
  (kept.1 = Ok (Audio2Text.Processed 1 1) ∧ fs_is_file (w_fs kept.2) audio_file = true)
  ∧ (rejected.1 = Ok (Audio2Text.Processed 0 1)
     ∧ fs_is_file (w_fs rejected.2) audio_file = true).
Proof. vm_compute. repeat split. Qed.

(** ** The file enumerators *)

Lemma elem_of_flat_map {A B} (g : A → list B) (l : list A) (y : B) :
  y ∈ flat_map g l ↔ ∃ x, x ∈ l ∧ y ∈ g x.
Proof.
  rewrite list_elem_of_In, in_flat_map. split; intros (x & Hx & Hy); exists x.
  - by rewrite !list_elem_of_In.
  - by rewrite <- !list_elem_of_In.
Qed.

(** Without recursion, [batch_convert] selects exactly the regular files of
    the input directory whose lower-cased suffix is a video format. *)
Lemma find_videos_flat f input_path p :
  p ∈ Video2Audio.find_videos f input_path false
  ↔ p ∈ fs_iterdir f input_path ∧ fs_is_file f p = true
    ∧ lower (suffix p) ∈ Video2Audio.SUPPORTED_VIDEO_FORMATS.
Proof.
  unfold Video2Audio.find_videos, Video2Audio.is_video. rewrite elem_of_flat_map. split.
  - intros (x & Hx & Hp). destruct (fs_is_file f x) eqn:Hf; simpl in Hp;
      [|by apply elem_of_nil in Hp].
    case_bool_decide as Hs; [|by apply elem_of_nil in Hp].
    apply list_elem_of_singleton in Hp as ->. done.
  - intros (Hin & Hf & Hs). exists p. split; [done|]. rewrite Hf. simpl.
    rewrite bool_decide_eq_true_2 by done. by apply list_elem_of_singleton.
Qed.

(** With recursion, it selects exactly the files that [os.walk] lists whose
    lower-cased suffix is a video format. *)
Lemma find_videos_recursive f input_path p :
  p ∈ Video2Audio.find_videos f input_path true
  ↔ ∃ root dirs files file,
      (root, dirs, files) ∈ os_walk f input_path ∧ file ∈ files
      ∧ p = root ++ [file]
      ∧ lower (suffix p) ∈ Video2Audio.SUPPORTED_VIDEO_FORMATS.
Proof.
  unfold Video2Audio.find_videos, Video2Audio.is_video. rewrite elem_of_flat_map. split.
  - intros ([[root dirs] files] & Hw & Hp). apply elem_of_flat_map in Hp as (file & Hf & Hp).
    case_bool_decide as Hs; [|by apply elem_of_nil in Hp].
    apply list_elem_of_singleton in Hp as ->. by exists root, dirs, files, file.
  - intros (root & dirs & files & file & Hw & Hf & -> & Hs).
    exists (root, dirs, files). split; [done|]. apply elem_of_flat_map. exists file.
    split; [done|]. rewrite bool_decide_eq_true_2 by done. by apply list_elem_of_singleton.
Qed.

(** [compress_with_opus_then_mp3] passes over a name whose lower-cased
    extension is not an audio extension. *)
Lemma compress_one_other_extension ffmpeg mkstemp input_folder output_folder ob mb
    filename s w :
  lower (splitext filename).2 ∉ AudioCompresser.audio_extensions →
  AudioCompresser.compress_one ffmpeg mkstemp input_folder output_folder ob mb filename s w
  = (Ok s, w).
Proof.
  intros H. unfold AudioCompresser.compress_one. by rewrite bool_decide_eq_false_2.
Qed.

(** [compress_mp4_files] selects a regular file only under one of three
    spellings of the extension. *)
Lemma selected_iff f input_folder file :
  VidCompresser.selected f input_folder file = true
  ↔ fs_is_file f (input_folder ++ [file]) = true
    ∧ ((splitext file).2 = py ".mp4" ∨ (splitext file).2 = py ".MP4"
       ∨ (splitext file).2 = py ".Mp4").
Proof.
  unfold VidCompresser.selected, VidCompresser.video_extensions.
  rewrite andb_true_iff, bool_decide_eq_true. simpl.
  rewrite !elem_of_cons, elem_of_nil. tauto.
Qed.

(** Claim C7, at an input where [vid_compresser.py] departs from it.  The
    regular file [clip.mP4] has, compared without case, the extension
    [.mp4]; [compress_mp4_files] does not select it and starts nothing, where
    the enumerator of [video2audio.py] selects it. *)
Theorem mixed_case_extension_not_selected :
  let run := VidCompresser.compress_mp4_files writing_tool [py "in"] None 28%Z
               (py "fast") (py "48k") (World mixed_case []) in
  lower (splitext (py "clip.mP4")).2 = py ".mp4"
  ∧ py ".mp4" ∈ VidCompresser.video_extensions
  ∧ fs_is_file mixed_case [py "in"; py "clip.mP4"] = true
  ∧ VidCompresser.selected mixed_case [py "in"] (py "clip.mP4") = false
  ∧ run.1 = Ok tt ∧ w_calls run.2 = []
  ∧ Video2Audio.find_videos mixed_case [py "in"] false = [[py "in"; py "clip.mP4"]].
Proof.
  split_and!; try (vm_compute; reflexivity). apply list_elem_of_here.
Qed.

(** ** The theorems at concrete inputs *)

(** The computed check implies well-formedness. *)
Lemma fs_wfb_sound f : fs_wfb f = true → fs_wf f.
Proof.
  unfold fs_wfb, fs_wf. rewrite forallb_forall. intros H p nd k Hp Hk.
  apply elem_of_map_to_list, list_elem_of_In in Hp. specialize (H _ Hp). simpl in H.
  rewrite forallb_forall in H. specialize (H k).
  unfold fs_is_dir in H. destruct (node_at f (take k p)) as [[|]|].
  - discriminate H. apply in_seq. lia.
  - done.
  - discriminate H. apply in_seq. lia.
Defined.

(** A pool whose jobs complete in the order of submission. *)
Lemma id_completes (ts : list Video2Audio.task) : Permutation (id ts) ts.
Proof. reflexivity. Defined.

(** A second run over [all_done], where both destinations are there:
    nothing is started and both files are skipped. *)
Lemma skip_existing_destinations_witness :
  let w := World all_done [] in
  let run := Video2Audio.batch_convert writing_tool (py "ffmpeg") id [py "in"]
               (Some [py "out"]) (py "mp3") None None None None false false false 2%Z w in
  fs_wf all_done
  ∧ fs_is_dir all_done [py "in"] = true
  ∧ fs_is_dir all_done [py "out"] = true
  ∧ run.2 = w
  ∧ ∃ st, (run.1 = Ok (Video2Audio.Finished st) ∨ run.1 = Ok (Video2Audio.NoVideoFiles st))
          ∧ Video2Audio.total st = 2%nat
          ∧ Video2Audio.skipped st = Video2Audio.total st
          ∧ Video2Audio.success st = 0%nat ∧ Video2Audio.failed st = 0%nat.
Proof.
  intros w run.
  assert (fs_wf all_done) as Hwf by (apply fs_wfb_sound; vm_compute; reflexivity).
  assert (fs_is_dir all_done [py "in"] = true) as Hin by (vm_compute; reflexivity).
  assert (fs_is_dir all_done [py "out"] = true) as Hout by (vm_compute; reflexivity).
  assert (∀ v, v ∈ Video2Audio.find_videos all_done [py "in"] false →
               ∃ d, Video2Audio.audio_file_for [py "in"] [py "out"] (py "mp3") false v = Ok d
                    ∧ fs_exists all_done d = true) as Hall.
  { assert (Video2Audio.find_videos all_done [py "in"] false
            = [[py "in"; py "b.mp4"]; [py "in"; py "a.mp4"]]) as ->
      by (vm_compute; reflexivity).
    intros v Hv. apply elem_of_cons in Hv as [-> | Hv];
      [exists [py "out"; py "b.mp3"]
      |apply list_elem_of_singleton in Hv as ->; exists [py "out"; py "a.mp3"]];
      split; vm_compute; reflexivity. }
  pose proof (proj2 (skip_existing_destinations writing_tool (py "ffmpeg") id id_completes
                       [py "in"] (Some [py "out"]) (py "mp3") None None None None false
                       false 2%Z w run.1 run.2 (surjective_pairing run))
                    Hwf Hin Hout Hall) as (Hw & st & Hr & Ht & Hs & Hsu & Hf).
  split; [exact Hwf|]. split; [exact Hin|]. split; [exact Hout|]. split; [exact Hw|].
  exists st. split; [exact Hr|]. split; [|split; [exact Hs|]; split; [exact Hsu | exact Hf]].
  rewrite Ht. vm_compute. reflexivity.
Defined.

(** The two runs with the pool that completes in the order of submission. *)
Lemma sequential_and_pooled_differ_witness :
  let run := λ n, Video2Audio.batch_convert writing_tool (py "ffmpeg") id [py "in"]
                    (Some []) (py "mp3") None None None None false false true n
                    (World two_videos []) in
  (run 1%Z).1 = Raise FileNotFoundError
  ∧ (run 2%Z).1 = Ok (Video2Audio.Finished (Video2Audio.Stats 2 0 2 0 0)).
Proof.
  exact (sequential_and_pooled_differ writing_tool (py "ffmpeg") id id_completes).
Defined.

(** Scenario 3 of the specification: the encoder exceeds the time limit on
    [c.avi]; the run reports one failure and two successes, and [a.mp3] and
    [b.mp3] are there. *)
Lemma batch_convert_statistics_add_up_witness :
  let run := Video2Audio.batch_convert timeout_on_avi (py "ffmpeg") id [py "in"]
               (Some [py "out"]) (py "mp3") None None None None false false true 1%Z
               (World three_videos []) in
  run.1 = Ok (Video2Audio.Finished (Video2Audio.Stats 3 2 1 0 0))
  ∧ fs_is_file (w_fs run.2) [py "out"; py "a.mp3"] = true
  ∧ fs_is_file (w_fs run.2) [py "out"; py "b.mp3"] = true
  ∧ (2 + 1 + 0 = 3)%nat ∧ 0%nat = 0%nat ∧ (0 < 3)%nat.
Proof.
  intros run.
  assert (run = (Ok (Video2Audio.Finished (Video2Audio.Stats 3 2 1 0 0)), run.2)) as Hrun
    by (vm_compute; reflexivity).
  split; [by rewrite Hrun|].
  split; [vm_compute; reflexivity|]. split; [vm_compute; reflexivity|].
  exact (batch_convert_statistics_add_up timeout_on_avi (py "ffmpeg") id id_completes
           [py "in"] (Some [py "out"]) (py "mp3") None None None None false false true 1%Z
           (World three_videos []) (Video2Audio.Stats 3 2 1 0 0) run.2 Hrun).
Defined.

(** Two runs over different directory contents and with different overwrite
    flags give the videos they share the same destinations. *)
Lemma destination_is_deterministic_witness :
  let build := λ ow f,
    Video2Audio.build_tasks [py "in"] [py "out"] (py "mp3") None None None None false ow
      (Video2Audio.find_videos f [py "in"] false) (World f []) in
  let ts1 := match (build true two_videos).1 with Ok s => s.2 | Raise _ => [] end in
  let ts2 := match (build false three_videos).1 with Ok s => s.2 | Raise _ => [] end in
  length ts1 = 2%nat ∧ length ts2 = 3%nat
  ∧ ∀ t1 t2, t1 ∈ ts1 → t2 ∈ ts2 →
      Video2Audio.video_path t1 = Video2Audio.video_path t2 →
      Video2Audio.audio_path t1 = Video2Audio.audio_path t2.
Proof.
  intros build ts1 ts2.
  split; [vm_compute; reflexivity|]. split; [vm_compute; reflexivity|].
  subst ts1 ts2.
  remember (build true two_videos) as b1 eqn:E1.
  remember (build false three_videos) as b2 eqn:E2.
  symmetry in E1, E2.
  destruct b1 as [[[st1 l1]|e1] w1'];
    [|intros ? ? Ht; apply elem_of_nil in Ht; destruct Ht].
  destruct b2 as [[[st2 l2]|e2] w2'];
    [|intros ? ? _ Ht; apply elem_of_nil in Ht; destruct Ht].
  exact (proj2 (destination_is_deterministic [py "in"] [py "out"] (py "mp3") false
                  None None None None true _ _ st1 l1 w1'
                  None None None None false _ _ st2 l2 w2' E1 E2)).
Defined.

(** The two tasks built for [same_stem], which share stem and destination. *)
Lemma destinations_coincide_iff_witness :
  let ta := Video2Audio.Task [py "in"; py "a.mp4"] [py "out"; py "a.mp3"] (py "mp3")
              None None None None true in
  let tb := Video2Audio.Task [py "in"; py "a.avi"] [py "out"; py "a.mp3"] (py "mp3")
              None None None None true in
  (Video2Audio.build_tasks [py "in"] [py "out"] (py "mp3") None None None None false true
     [[py "in"; py "a.mp4"]; [py "in"; py "a.avi"]] (World same_stem [])).1
  = Ok (Video2Audio.Stats 2 0 0 0 0, [ta; tb])
  ∧ (Video2Audio.audio_path ta = Video2Audio.audio_path tb
     ↔ stem (Video2Audio.video_path ta) = stem (Video2Audio.video_path tb)).
Proof.
  intros ta tb.
  assert (Video2Audio.build_tasks [py "in"] [py "out"] (py "mp3") None None None None
            false true [[py "in"; py "a.mp4"]; [py "in"; py "a.avi"]] (World same_stem [])
          = (Ok (Video2Audio.Stats 2 0 0 0 0, [ta; tb]), World same_stem [])) as Hb
    by (vm_compute; reflexivity).
  split; [by rewrite Hb|].
  refine (proj1 (destinations_coincide_iff [py "in"] [py "out"] (py "mp3") false
                   None None None None true _ _ _ _ _ ta tb Hb _ _) eq_refl).
  - apply list_elem_of_here.
  - apply list_elem_of_further, list_elem_of_here.
Defined.

(** A time-out on the first of three conversions, and on the only
    compression of a folder: the other conversions succeed, the compression
    is listed as failed. *)
Lemma timeout_fails_the_job_only_witness :
  let task_of := λ v a, Video2Audio.Task [py "in"; py v] [py "out"; py a] (py "mp3")
                          None None None None true in
  let ta := task_of "a.mp4"%string "a.mp3"%string in
  let tb := task_of "b.mp4"%string "b.mp3"%string in
  let tc := task_of "c.avi"%string "c.mp3"%string in
  let body := Video2Audio.run_task timeout_on_avi (py "ffmpeg") in
  let compress := AudioCompresser.compress_one (timeout_on (py ".wav")) (λ _, Ok temp_opus)
                    [py "in"] [py "out"] (py "6k") (py "16k") in
  (for_each [tc; ta; tb] body (Video2Audio.Stats 3 0 0 0 0) (World three_videos [])).1
  = Ok (Video2Audio.Stats 3 2 1 0 0)
  ∧ (for_each [py "a.wav"] compress (0%nat, []) (World one_audio [])).1
    = Ok (0%nat, [(py "a.wav", AudioCompresser.Timeout)]).
Proof.
  intros task_of ta tb tc body compress.
  pose (cfg := Video2Audio.FormatConfig (py ".mp3") (py "libmp3lame") [py "-q:a"; py "2"]
                 (Some (py "192k"))).
  pose (st0 := Video2Audio.Stats 3 0 0 0 0).
  pose (w0 := World three_videos []).
  pose (w2 := World three_videos ([] ++ [Video2Audio.build_cmd (py "ffmpeg") cfg tc])).
  assert (conversion_times_out timeout_on_avi (py "ffmpeg") tc w0 w2) as Hto.
  { exists cfg, three_videos, three_videos.
    split; [reflexivity|]. split; [reflexivity|]. split; [reflexivity|].
    split; [reflexivity|]. split; reflexivity. }
  pose proof (proj1 (timeout_fails_the_job_only timeout_on_avi (py "ffmpeg")
                       (λ _, Ok temp_opus))
                body [] tc [ta; tb] st0 w0 st0 w0 w2 (or_introl eq_refl) eq_refl Hto)
    as [_ Hloop].
  pose (wa := World one_audio []).
  pose (c1 := AudioCompresser.opus_cmd [py "in"; py "a.wav"] temp_opus (py "6k")).
  pose (ft := <[temp_opus := File 0]> one_audio).
  pose (wt := World ft ([] ++ [c1])).
  assert (compression_times_out (timeout_on (py ".wav")) [py "in"; py "a.wav"]
            [py "out"; py "a.mp3"] temp_opus (py "6k") (py "16k") (World ft []) wt) as Hca.
  { left. exists ft. split; reflexivity. }
  assert (lower (splitext (py "a.wav")).2 ∈ AudioCompresser.audio_extensions) as Hext.
  { vm_compute. apply list_elem_of_further, list_elem_of_here. }
  assert (fs_is_file one_audio [py "in"; py "a.wav"] = true) as Hfile
    by (vm_compute; reflexivity).
  assert (fs_is_dir (w_fs wt) temp_opus = false) as Hdir by reflexivity.
  destruct (proj2 (timeout_fails_the_job_only (timeout_on (py ".wav")) (py "ffmpeg")
                     (λ _, Ok temp_opus))
              [py "in"] [py "out"] (py "6k") (py "16k") [] (py "a.wav") []
              (0%nat, []) wa (0%nat, []) wa temp_opus wt
              eq_refl Hext Hfile eq_refl Hca Hdir) as (wb & _ & Hloop2).
  split.
  - transitivity ((for_each [ta; tb] body (Video2Audio.add_failed st0) w2).1).
    + exact (f_equal fst Hloop).
    + vm_compute. reflexivity.
  - exact (f_equal fst Hloop2).
Defined.

(** A text of three characters: [audio2text.py] writes nothing and counts
    nothing, [soundext.py] writes the markdown file. *)
Lemma short_text_handling_witness :
  let w := World one_video [] in
  (length (strip (py " abc ")) < 5)%nat
  ∧ (Audio2Text.process_file writing_tool (λ _ _, py " abc ") [py "out"]
       [py "out"; py "temp_audio"] (py "whisper") false [py "in"; py "talk.mp4"] 0%nat w).1
    = Ok 0%nat
  ∧ node_at
      (w_fs (SoundExt.process_file writing_tool None (λ _ _, py " abc ") (λ _ _, [])
               [py "out"] [py "out"; py "temp_audio"] false true
               [py "in"; py "talk.mp4"] tt w).2)
      [py "out"; py "talk.md"]
    = Some (File (SoundExt.markdown_size (py " abc "))).
Proof.
  intros w.
  pose (mp4 := [py "in"; py "talk.mp4"]).
  pose (audio_dir := [py "out"; py "temp_audio"]).
  pose (audio_file := audio_dir ++ [stem mp4 ++ py ".mp3"]).
  pose (md_file := [py "out"] ++ [stem mp4 ++ py ".md"]).
  assert (fs_exists (w_fs w) md_file = false) as Hmd by (vm_compute; reflexivity).
  pose (ex1 := Audio2Text.extract_audio writing_tool mp4 audio_file w).
  assert ((λ _ _, py " abc ") (w_fs ex1.2) audio_file = []
          ∨ (length (strip ((λ (_ : fsmap) (_ : path), py " abc ") (w_fs ex1.2) audio_file))
             < 5)%nat) as Hshort.
  { right. cbv beta. vm_compute. lia. }
  pose (ex2 := SoundExt.extract_audio_from_mp4 writing_tool None mp4 audio_file w).
  assert (ex2 = (Ok true, ex2.2)) as Hex2 by reflexivity.
  assert (fs_is_dir (w_fs ex2.2) [py "out"] = true) as Hd1 by (vm_compute; reflexivity).
  assert (fs_is_dir (w_fs ex2.2) md_file = false) as Hd2 by (vm_compute; reflexivity).
  assert (py " abc " ≠ []) as Hne by discriminate.
  destruct (short_text_handling writing_tool (λ _ _, py " abc ") None
              (λ _ _, py " abc ") (λ _ _, [])) as [Ha Hs].
  split; [vm_compute; lia|]. split.
  - exact (f_equal fst (Ha [py "out"] audio_dir (py "whisper") false mp4 0%nat w
                          ex1.1 ex1.2 Hmd (surjective_pairing ex1) Hshort)).
  - exact (Hs [py "out"] audio_dir false true mp4 w ex2.2 Hmd Hex2 Hne Hd1 Hd2).
Defined.

(** One compression and one round of each transcription script, after which
    the temporary files are gone. *)
Lemma staging_file_cleanup_witness :
  let w := World one_video [] in
  let audio_file := [py "out"; py "temp_audio"] ++ [stem [py "in"; py "talk.mp4"] ++ py ".mp3"] in
  fs_is_file
    (w_fs (AudioCompresser.two_stage_compress (timeout_on (py ".wav")) (λ _, Ok temp_opus)
             [py "in"; py "a.wav"] [py "out"; py "a.mp3"] (py "6k") (py "16k")
             (World one_audio [])).2) temp_opus = false
  ∧ fs_is_file
      (w_fs (Audio2Text.process_file writing_tool (λ _ _, py "hello world") [py "out"]
               [py "out"; py "temp_audio"] (py "whisper") false
               [py "in"; py "talk.mp4"] 0%nat w).2) audio_file = false
  ∧ fs_is_file
      (w_fs (SoundExt.process_file writing_tool None (λ _ _, py "abc") (λ _ _, [])
               [py "out"] [py "out"; py "temp_audio"] false true
               [py "in"; py "talk.mp4"] tt w).2) audio_file = false.
Proof.
  intros w audio_file.
  pose (mp4 := [py "in"; py "talk.mp4"]).
  pose (audio_dir := [py "out"; py "temp_audio"]).
  pose (md_file := [py "out"] ++ [stem mp4 ++ py ".md"]).
  pose (wa := World one_audio []).
  pose (run1 := AudioCompresser.two_stage_compress (timeout_on (py ".wav"))
                  (λ _, Ok temp_opus) [py "in"; py "a.wav"] [py "out"; py "a.mp3"]
                  (py "6k") (py "16k") wa).
  assert (fs_exists (w_fs wa) [py "in"; py "a.wav"] = true) as Hin
    by (vm_compute; reflexivity).
  pose (run2 := Audio2Text.process_file writing_tool (λ _ _, py "hello world") [py "out"]
                  audio_dir (py "whisper") false mp4 0%nat w).
  assert (run2 = (Ok 1%nat, run2.2)) as Hrun2 by reflexivity.
  assert (fs_exists (w_fs w) md_file = false) as Hmd by (vm_compute; reflexivity).
  pose (ex2 := SoundExt.extract_audio_from_mp4 writing_tool None mp4 audio_file w).
  assert (ex2 = (Ok true, ex2.2)) as Hex2 by reflexivity.
  assert (py "abc" ≠ []) as Hne by discriminate.
  destruct (staging_file_cleanup (timeout_on (py ".wav")) (λ _, Ok temp_opus)
              (λ _ _, py "hello world") None (λ _ _, py "abc") (λ _ _, []))
    as (Hopus & _ & _).
  destruct (staging_file_cleanup writing_tool (λ _, Ok temp_opus)
              (λ _ _, py "hello world") None (λ _ _, py "abc") (λ _ _, []))
    as (_ & Ha & Hs).
  split; [|split].
  - exact (Hopus [py "in"; py "a.wav"] [py "out"; py "a.mp3"] (py "6k") (py "16k") wa
             temp_opus run1.1 run1.2 Hin eq_refl (surjective_pairing run1)).
  - exact (Ha [py "out"] audio_dir (py "whisper") mp4 0%nat w run2.2 Hrun2).
  - exact (Hs [py "out"] audio_dir true mp4 w ex2.2 Hmd Hex2 Hne).
Defined.
(** * Further properties of the scripts *)

(** ** [video2audio.py]: one conversion *)

Lemma mkdir_from_is_dir f walked rest f' :
  node_at f walked = Some Dir →
  mkdir_from f walked rest = Ok f' → node_at f' (walked ++ rest) = Some Dir.
Proof.
  revert f walked. induction rest as [|c r IH]; intros f walked Hw H; simpl in H.
  - injection H as <-. by rewrite app_nil_r.
  - rewrite (app_assoc walked [c] r : walked ++ c :: r = (walked ++ [c]) ++ r).
    destruct (node_at f (walked ++ [c])) as [[n|]|] eqn:E; [done| |].
    + by apply IH in H.
    + apply IH in H; [done|]. unfold node_at. case_match; [done|].
      by rewrite lookup_insert_eq.
Qed.

Lemma fs_mkdir_p_is_dir f p f' : fs_mkdir_p f p = Ok f' → fs_is_dir f' p = true.
Proof.
  unfold fs_mkdir_p, fs_is_dir. intros H.
  apply mkdir_from_is_dir in H; [|done]. simpl in H. by rewrite H.
Qed.

Section ConversionOutcomes.

Import Video2Audio.

Variable ffmpeg : tool.
Variable ffmpeg_path : pystr.

(** Property X1.  [convert_video_to_audio] reports success only after it
    has started the encoder once, with the command line of the task, the
    run has returned 0, and the output is there with a size above zero;
    the message is then the one of a finished conversion. *)
Theorem conversion_success_is_sound t w m w' :
  convert_video_to_audio ffmpeg ffmpeg_path t w = (Ok (true, m), w') →
  m = Converted
  ∧ fs_exists (w_fs w') (audio_path t) = true
  ∧ (∃ n, fs_getsize (w_fs w') (audio_path t) = Ok n ∧ 0 < n)
  ∧ ∃ cfg f1 err,
      dict_get AUDIO_FORMATS (audio_format t) = Some cfg
      ∧ fs_makedirs (w_fs w) (dirname (audio_path t)) = Ok f1
      ∧ w_calls w' = w_calls w ++ [build_cmd ffmpeg_path cfg t]
      ∧ ffmpeg (w_calls w) (build_cmd ffmpeg_path cfg t) f1 = (Ok (0%Z, err), w_fs w').
Proof.
  unfold convert_video_to_audio, output_ok. unfold_monad. intros H.
  destruct (fs_exists (w_fs w) (video_path t)); simpl in H; [|done].
  destruct (fs_makedirs (w_fs w) (dirname (audio_path t))) as [f1|] eqn:Hmk; [|done].
  simpl in H.
  destruct (negb (overwrite t) && fs_exists f1 (audio_path t)); [done|].
  destruct (dict_get AUDIO_FORMATS (audio_format t)) as [cfg|] eqn:Hcfg; [|done].
  simpl in H.
  destruct (ffmpeg (w_calls w) (build_cmd ffmpeg_path cfg t) f1) as [[[rc err]|e] f2] eqn:Hrun;
    simpl in H; [|by destruct e].
  destruct (rc =? 0)%Z eqn:Hrc; simpl in H; [|done].
  apply Z.eqb_eq in Hrc as ->.
  destruct (fs_exists f2 (audio_path t)) eqn:He; simpl in H; [|done].
  destruct (fs_getsize f2 (audio_path t)) as [n|e] eqn:Hn; simpl in H; [|by destruct e].
  destruct (0 <? n) eqn:Hpos; simpl in H; [|done].
  injection H as <- <-. simpl. split_and!; [done | done | | ].
  - exists n. split; [done|]. by apply N.ltb_lt.
  - by exists cfg, f1, err.
Qed.

(** Property X2.  [convert_video_to_audio] starts the encoder at most once,
    and only after its checks have passed: the video is there, the output
    directory could be made, the output is not there or may be overwritten,
    and the format is in the table.  A missing video leaves the world as it
    was; the two other refusals come after the output directory has been
    made. *)
Theorem encoder_started_only_after_checks t w :
  (∀ r w', convert_video_to_audio ffmpeg ffmpeg_path t w = (r, w') →
     w_calls w' = w_calls w
     ∨ ∃ cfg f1 b m,
         fs_exists (w_fs w) (video_path t) = true
         ∧ fs_makedirs (w_fs w) (dirname (audio_path t)) = Ok f1
         ∧ (overwrite t = true ∨ fs_exists f1 (audio_path t) = false)
         ∧ dict_get AUDIO_FORMATS (audio_format t) = Some cfg
         ∧ w_calls w' = w_calls w ++ [build_cmd ffmpeg_path cfg t]
         ∧ r = Ok (b, m))
  ∧ (fs_exists (w_fs w) (video_path t) = false →
     convert_video_to_audio ffmpeg ffmpeg_path t w
     = (Ok (false, VideoMissing (video_path t)), w))
  ∧ (∀ f1,
       fs_exists (w_fs w) (video_path t) = true →
       fs_makedirs (w_fs w) (dirname (audio_path t)) = Ok f1 →
       (overwrite t = false → fs_exists f1 (audio_path t) = true →
        convert_video_to_audio ffmpeg ffmpeg_path t w
        = (Ok (false, OutputExists (audio_path t)), World f1 (w_calls w)))
       ∧ (negb (overwrite t) && fs_exists f1 (audio_path t) = false →
          dict_get AUDIO_FORMATS (audio_format t) = None →
          convert_video_to_audio ffmpeg ffmpeg_path t w
          = (Ok (false, UnsupportedFormat (audio_format t)), World f1 (w_calls w)))).
Proof.
  unfold convert_video_to_audio, output_ok. unfold_monad. split_and!.
  - intros r w' H.
    destruct (fs_exists (w_fs w) (video_path t)) eqn:Hv; simpl in H;
      [|injection H as <- <-; by left].
    destruct (fs_makedirs (w_fs w) (dirname (audio_path t))) as [f1|] eqn:Hmk;
      simpl in H; [|injection H as <- <-; by left].
    destruct (negb (overwrite t) && fs_exists f1 (audio_path t)) eqn:Hex;
      [injection H as <- <-; by left|].
    destruct (dict_get AUDIO_FORMATS (audio_format t)) as [cfg|] eqn:Hcfg;
      simpl in H; [|injection H as <- <-; by left].
    right. exists cfg, f1.
    assert (overwrite t = true ∨ fs_exists f1 (audio_path t) = false) as Hmay.
    { destruct (overwrite t); [by left|]. simpl in Hex. by right. }
    destruct (ffmpeg (w_calls w) (build_cmd ffmpeg_path cfg t) f1) as [[[rc err]|e] f2];
      simpl in H.
    + destruct (rc =? 0)%Z; simpl in H.
      * destruct (fs_exists f2 (audio_path t)); simpl in H.
        -- destruct (fs_getsize f2 (audio_path t)) as [n|e]; simpl in H.
           ++ destruct (0 <? n); injection H as <- <-; eexists _, _; by split_and!.
           ++ destruct e; injection H as <- <-; eexists _, _; by split_and!.
        -- injection H as <- <-. eexists _, _. by split_and!.
      * injection H as <- <-. eexists _, _. by split_and!.
    + destruct e; injection H as <- <-; eexists _, _; by split_and!.
  - intros ->. by destruct w.
  - intros f1 -> Hmk. simpl. rewrite Hmk. simpl. split.
    + by intros -> ->.
    + by intros -> ->.
Qed.

(** Property X3.  No exception of the encoder leaves
    [convert_video_to_audio]: the time limit gives the time-out message,
    every other exception the message that carries it, and both are
    failures of this one job.  An exception that does leave the function is
    the one [os.makedirs] raised for the output directory, before anything
    was started. *)
Theorem conversion_exceptions t w :
  (∀ e w', convert_video_to_audio ffmpeg ffmpeg_path t w = (Raise e, w') →
           w' = w
           ∧ fs_exists (w_fs w) (video_path t) = true
           ∧ fs_makedirs (w_fs w) (dirname (audio_path t)) = Raise e)
  ∧ (∀ cfg f1 e f2,
       fs_exists (w_fs w) (video_path t) = true →
       fs_makedirs (w_fs w) (dirname (audio_path t)) = Ok f1 →
       negb (overwrite t) && fs_exists f1 (audio_path t) = false →
       dict_get AUDIO_FORMATS (audio_format t) = Some cfg →
       ffmpeg (w_calls w) (build_cmd ffmpeg_path cfg t) f1 = (Raise e, f2) →
       convert_video_to_audio ffmpeg ffmpeg_path t w
       = (Ok (false, if bool_decide (e = TimeoutExpired) then Timeout else Exception e),
          World f2 (w_calls w ++ [build_cmd ffmpeg_path cfg t]))).
Proof.
  split.
  - intros e w' H. by apply convert_raise in H.
  - intros cfg f1 e f2 Hv Hmk Hex Hcfg Hrun.
    unfold convert_video_to_audio. unfold_monad.
    rewrite Hv. simpl. rewrite Hmk. simpl. rewrite Hex, Hcfg. simpl. rewrite Hrun.
    by destruct e.
Qed.

End ConversionOutcomes.

(** ** [video2audio.py]: the batch *)

Lemma fs_is_dir_exists f p : fs_is_dir f p = true → fs_exists f p = true.
Proof.
  unfold fs_is_dir, fs_exists. destruct (node_at f p) as [nd|]; [|done].
  intros _. apply bool_decide_eq_true_2. by exists nd.
Qed.

Section TaskOrder.

Import Video2Audio.

Variables (input_path output_path : path) (fmt : pystr).
Variables (q : option Z) (br : option pystr) (sr ch : option Z).
Variables (keep_structure ow : bool).

(** The tasks are built in the order of the enumeration, one for every
    video that is not skipped; with overwriting on there is one for every
    video. *)
Lemma build_tasks_order videos w st ts w' :
  build_tasks input_path output_path fmt q br sr ch keep_structure ow videos w
  = (Ok (st, ts), w') →
  sublist (video_path <$> ts) videos
  ∧ (ow = true → video_path <$> ts = videos ∧ skipped st = 0%nat).
Proof.
  unfold build_tasks. intros H.
  pose (I := λ (rest : list path) (s : stats * list task) (_ : world),
          ∃ seen, videos = seen ++ rest
                  ∧ sublist (video_path <$> s.2) seen
                  ∧ (ow = true → video_path <$> s.2 = seen ∧ skipped s.1 = 0%nat)).
  assert (I [] (st, ts) w') as (seen & Hv & Hsub & How).
  { eapply (for_each_inv I); [|..|exact H].
    - intros x rest [st0 ts0] w0 [st1 ts1] w1 (seen & Hv & Hsub & How) Hb.
      apply build_task_spec in Hb as (_ & _ & _ & d & _ & Hd).
      exists (seen ++ [x]). split; [by rewrite <- app_assoc|]. simpl in *.
      destruct Hd as [(Hf & _ & -> & ->) | (_ & -> & ->)].
      + split; [by apply sublist_inserts_r|]. intros Ht. congruence.
      + rewrite fmap_app. simpl. split; [by apply sublist_app|].
        intros Ht. destruct (How Ht) as [-> ->]. done.
    - exists []. simpl. split_and!; [done | done | done]. }
  rewrite app_nil_r in Hv. subst seen. done.
Qed.

End TaskOrder.

Section BatchOutcomes.

Import Video2Audio.

Variable ffmpeg : tool.
Variable ffmpeg_path : pystr.
Variable as_completed : list task → list task.

Hypothesis as_completed_perm : ∀ ts, Permutation (as_completed ts) ts.

(** Property X4.  [batch_convert] gives up early in two cases.  When the
    input path is not a directory it returns the error dict and has touched
    nothing.  When the directory holds no video it returns the dict with all
    counters zero, and by then the output directory has been made.  Neither
    starts the encoder. *)
Theorem batch_convert_early_exits input_dir output_dir fmt q br sr ch recursive keep ow
    max_workers w :
  (fs_is_dir (w_fs w) input_dir = false →
   batch_convert ffmpeg ffmpeg_path as_completed
     input_dir output_dir fmt q br sr ch recursive keep ow max_workers w
   = (Ok InputDirMissing, w))
  ∧ (∀ f1,
       fs_is_dir (w_fs w) input_dir = true →
       fs_mkdir_p (w_fs w) (output_root input_dir output_dir) = Ok f1 →
       find_videos f1 input_dir recursive = [] →
       batch_convert ffmpeg ffmpeg_path as_completed
         input_dir output_dir fmt q br sr ch recursive keep ow max_workers w
       = (Ok (NoVideoFiles (Stats 0 0 0 0 0)), World f1 (w_calls w))
       ∧ fs_is_dir f1 (output_root input_dir output_dir) = true).
Proof.
  split.
  - intros Hd. rewrite batch_convert_eq, Hd, andb_false_r. done.
  - intros f1 Hd Hmk Hno. rewrite batch_convert_eq, Hd, (fs_is_dir_exists _ _ Hd).
    simpl. rewrite Hmk, Hno. split; [done|]. by eapply fs_mkdir_p_is_dir.
Qed.

(** Property X5.  The tasks of a run follow the enumeration: their videos
    are a subsequence of the videos found, in the same order.  With
    overwriting on, every video found gets a task, nothing is skipped, and
    a run that finishes has counted every video as a success or a
    failure. *)
Theorem overwrite_converts_every_video input_dir output_dir fmt q br sr ch recursive keep
    max_workers :
  (∀ ow videos w st ts w',
     build_tasks input_dir (output_root input_dir output_dir) fmt q br sr ch keep ow
       videos w = (Ok (st, ts), w') →
     sublist (video_path <$> ts) videos
     ∧ (ow = true → video_path <$> ts = videos))
  ∧ (∀ w st w',
       batch_convert ffmpeg ffmpeg_path as_completed
         input_dir output_dir fmt q br sr ch recursive keep true max_workers w
       = (Ok (Finished st), w') →
       skipped st = 0%nat ∧ (success st + failed st = total st)%nat).
Proof.
  split.
  - intros ow videos w st ts w' H. apply build_tasks_order in H as [Hs Ho].
    split; [done|]. intros Ht. by destruct (Ho Ht).
  - intros w st w' Hb. rewrite batch_convert_eq in Hb.
    destruct (negb _); [done|]. simpl in Hb.
    destruct (fs_mkdir_p _ _) as [f1|]; [|done].
    case_bool_decide; [done|].
    destruct (build_tasks _ _ _ _ _ _ _ _ _ _ _) as [[[st0 ts]|] w1] eqn:Hbuild; [|done].
    pose proof (build_tasks_order _ _ _ _ _ _ _ _ _ _ _ _ _ _ Hbuild) as [_ Ho].
    destruct (Ho eq_refl) as [_ Hsk].
    apply build_tasks_spec in Hbuild as (_ & _ & _ & Ht & Hs & Hf & _ & Hlen & _).
    simpl in Hb.
    destruct ((1 <? max_workers)%Z && (1 <? length ts)%nat).
    + destruct (for_each _ _ _ _) as [[st1|] w2] eqn:Hloop; [|done].
      injection Hb as -> ->.
      eapply run_loop_spec in Hloop as (_ & Hloop); [|apply run_pooled_task_counts_one].
      destruct (Hloop _ eq_refl) as (Ht' & Hsk' & _ & Hsum).
      rewrite (Permutation_length (as_completed_perm _)) in Hsum. lia.
    + destruct (for_each _ _ _ _) as [[st1|] w2] eqn:Hloop; [|done].
      injection Hb as -> ->.
      eapply run_loop_spec in Hloop as (_ & Hloop); [|apply run_task_counts_one].
      destruct (Hloop _ eq_refl) as (Ht' & Hsk' & _ & Hsum). lia.
Qed.

Lemma body_success_starts body t st w st' w' :
  body = run_task ffmpeg ffmpeg_path ∨ body = run_pooled_task ffmpeg ffmpeg_path →
  body t st w = (Ok st', w') →
  (∃ c, w_calls w' = w_calls w ++ [c] ∧ (success st' ≤ S (success st))%nat)
  ∨ (w_calls w' = w_calls w ∧ success st' = success st).
Proof.
  intros Hbody H.
  assert (∃ r w1, convert_video_to_audio ffmpeg ffmpeg_path t w = (r, w1)
                  ∧ match r with
                    | Ok (true, _) => st' = add_success st ∧ w' = w1
                    | Ok (false, _) => st' = add_failed st ∧ w' = w1
                    | Raise _ => st' = add_failed st ∧ w' = w1
                    end) as (r & w1 & Hc & Hr).
  { destruct (convert_video_to_audio ffmpeg ffmpeg_path t w) as [r w1] eqn:Hc.
    exists r, w1. split; [done|].
    destruct Hbody as [-> | ->].
    - unfold run_task, bind, ret in H. rewrite Hc in H.
      destruct r as [[[] m]|e]; simplify_eq/=; done.
    - unfold run_pooled_task, try_except, bind, ret in H. rewrite Hc in H.
      destruct r as [[[] m]|e]; simplify_eq/=; done. }
  destruct r as [[[] m]|e]; destruct Hr as [-> ->].
  - apply convert_success_sound in Hc as (_ & _ & _ & cfg & f1 & err & _ & Hcalls & _).
    left. eexists. split; [exact Hcalls|]. simpl. lia.
  - apply convert_calls in Hc as [Hc | (cfg & _ & Hc)].
    + right. done.
    + left. eexists. split; [exact Hc|]. simpl. lia.
  - apply convert_raise in Hc as (-> & _). right. done.
Qed.

Lemma loop_success_starts body ts st w st' w' :
  body = run_task ffmpeg ffmpeg_path ∨ body = run_pooled_task ffmpeg ffmpeg_path →
  for_each ts body st w = (Ok st', w') →
  ∃ l, w_calls w' = w_calls w ++ l
       ∧ (success st' ≤ success st + length l)%nat ∧ (length l ≤ length ts)%nat.
Proof.
  intros Hbody H.
  pose (I := λ (rest : list task) (s : stats) (w1 : world),
          ∃ l, w_calls w1 = w_calls w ++ l
               ∧ (success s ≤ success st + length l)%nat
               ∧ (length l + length rest ≤ length ts)%nat).
  assert (I [] st' w') as (l & Hl & Hs & Hn).
  { eapply (for_each_inv I); [|..|exact H].
    - intros t rest s0 w0 s1 w1 (l & Hl & Hs & Hn) Hb. simpl in Hn.
      apply (body_success_starts _ _ _ _ _ _ Hbody) in Hb as [(c & Hc & Hle) | [Hc Heq]].
      + exists (l ++ [c]). rewrite Hc, Hl, length_app, <- app_assoc. simpl.
        split; [done|]. lia.
      + exists l. rewrite Hc, Heq. split; [done|]. lia.
    - exists []. rewrite app_nil_r. simpl. split; [done|]. lia. }
  exists l. simpl in Hn. split; [done|]. lia.
Qed.

(** Property X6.  In a run of [batch_convert] that finishes, every success
    was preceded by a start of the encoder, and no job starts it more than
    once: the number of starts lies between [success] and
    [success + failed]. *)
Theorem success_needs_a_start input_dir output_dir fmt q br sr ch recursive keep ow
    max_workers w st w' :
  batch_convert ffmpeg ffmpeg_path as_completed
    input_dir output_dir fmt q br sr ch recursive keep ow max_workers w
  = (Ok (Finished st), w') →
  ∃ l, w_calls w' = w_calls w ++ l
       ∧ (success st ≤ length l)%nat ∧ (length l ≤ success st + failed st)%nat.
Proof.
  intros Hb. rewrite batch_convert_eq in Hb.
  destruct (negb _); [done|]. simpl in Hb.
  destruct (fs_mkdir_p _ _) as [f1|]; [|done].
  case_bool_decide; [done|].
  destruct (build_tasks _ _ _ _ _ _ _ _ _ _ _) as [[[st0 ts]|] w1] eqn:Hbuild; [|done].
  apply build_tasks_spec in Hbuild as (Hcalls & _ & _ & _ & Hs & Hf & _ & _ & _).
  simpl in Hb, Hcalls.
  destruct ((1 <? max_workers)%Z && (1 <? length ts)%nat).
  - destruct (for_each _ _ _ _) as [[st1|] w2] eqn:Hloop; [|done].
    injection Hb as -> ->.
    pose proof (loop_success_starts _ _ _ _ _ _ (or_intror eq_refl) Hloop)
      as (l & Hl & Hle & Hn).
    eapply run_loop_spec in Hloop as (_ & Hloop); [|apply run_pooled_task_counts_one].
    destruct (Hloop _ eq_refl) as (_ & _ & _ & Hsum).
    rewrite (Permutation_length (as_completed_perm _)) in Hsum, Hn.
    exists l. rewrite Hl, Hcalls. split; [done|]. lia.
  - destruct (for_each _ _ _ _) as [[st1|] w2] eqn:Hloop; [|done].
    injection Hb as -> ->.
    pose proof (loop_success_starts _ _ _ _ _ _ (or_introl eq_refl) Hloop)
      as (l & Hl & Hle & Hn).
    eapply run_loop_spec in Hloop as (_ & Hloop); [|apply run_task_counts_one].
    destruct (Hloop _ eq_refl) as (_ & _ & _ & Hsum).
    exists l. rewrite Hl, Hcalls. split; [done|]. lia.
Qed.

End BatchOutcomes.

(** ** [video2audio.py]: the command line *)

Section CliFacts.

Import Video2Audio.

Variable ffmpeg : tool.
Variable as_completed : list task → list task.

(** The path of the encoder that [main] uses. *)
Local Abbreviation path_of args :=
  (if truthy_str (args_ffmpeg_path args) then default [] (args_ffmpeg_path args)
   else py "ffmpeg").

(** The world in which [main] calls [batch_convert], after the two version
    checks. *)
Local Abbreviation checked args w :=
  (World (w_fs w) ((w_calls w ++ [version_cmd (path_of args)])
                   ++ [version_cmd (path_of args)])).

Local Abbreviation batch args :=
  (batch_convert ffmpeg (path_of args) as_completed (args_input_dir args)
     (args_output args) (args_format args) (args_quality args) (args_bitrate args)
     (args_sample_rate args) (args_channels args) (args_recursive args)
     (args_keep_structure args) (negb (args_no_overwrite args)) (args_threads args)).

Lemma main_eq args w :
  (∀ h f, ∃ out, ffmpeg h (version_cmd (path_of args)) f = (Ok (0%Z, out), f)) →
  args_list_formats args = false → args_audio_info args = false →
  fs_exists (w_fs w) (args_input_dir args) = true →
  main ffmpeg as_completed args w
  = match batch args (checked args w) with
    | (Ok (NoVideoFiles _), w') => (Ok (SysExit 1), w')
    | (Ok stats, w') => (Ok (Returned stats), w')
    | (Raise _, w') => (Ok (SysExit 1), w')
    end.
Proof.
  intros Hver Hl Ha He. unfold main, __init__, _check_ffmpeg. unfold_monad.
  destruct (Hver (w_calls w) (w_fs w)) as [out1 H1]. rewrite H1. simpl.
  rewrite Hl, Ha. simpl. rewrite He. simpl.
  destruct (Hver (w_calls w ++ [version_cmd (path_of args)]) (w_fs w)) as [out2 H2].
  rewrite H2. simpl.
  destruct (batch args _) as [[[]|] w']; done.
Qed.

(** Property X7.  The exit status of [video2audio.py], with an encoder
    that answers the version check.  The two listing options end with
    status 0 before the input directory is looked at.  A missing input
    directory ends with status 1 and nothing made.  A directory without
    videos also ends with status 1: the dict that [batch_convert] returns
    then has no key [output_dir], and printing it raises inside the [try].
    A run that finishes returns normally, whatever the number of failed
    conversions. *)
Theorem exit_status_of_main args w :
  (∀ h f, ∃ out, ffmpeg h (version_cmd (path_of args)) f = (Ok (0%Z, out), f)) →
  (args_list_formats args = true ∨ args_audio_info args = true →
   main ffmpeg as_completed args w
   = (Ok (SysExit 0), World (w_fs w) (w_calls w ++ [version_cmd (path_of args)])))
  ∧ (args_list_formats args = false → args_audio_info args = false →
     (fs_exists (w_fs w) (args_input_dir args) = false →
      main ffmpeg as_completed args w
      = (Ok (SysExit 1), World (w_fs w) (w_calls w ++ [version_cmd (path_of args)])))
     ∧ (∀ f1,
          fs_is_dir (w_fs w) (args_input_dir args) = true →
          fs_mkdir_p (w_fs w) (output_root (args_input_dir args) (args_output args))
          = Ok f1 →
          find_videos f1 (args_input_dir args) (args_recursive args) = [] →
          main ffmpeg as_completed args w
          = (Ok (SysExit 1), World f1 (w_calls (checked args w))))
     ∧ (∀ st w',
          fs_exists (w_fs w) (args_input_dir args) = true →
          batch args (checked args w) = (Ok (Finished st), w') →
          main ffmpeg as_completed args w = (Ok (Returned (Finished st)), w'))).
Proof.
  intros Hver. split.
  - intros Hflag. unfold main, __init__, _check_ffmpeg. unfold_monad.
    destruct (Hver (w_calls w) (w_fs w)) as [out1 H1]. rewrite H1. simpl.
    destruct Hflag as [-> | ->]; [done|]. by destruct (args_list_formats args).
  - intros Hl Ha. split_and!.
    + intros He. unfold main, __init__, _check_ffmpeg. unfold_monad.
      destruct (Hver (w_calls w) (w_fs w)) as [out1 H1]. rewrite H1. simpl.
      rewrite Hl, Ha. simpl. by rewrite He.
    + intros f1 Hd Hmk Hno.
      rewrite main_eq by (done || by apply fs_is_dir_exists).
      rewrite batch_convert_eq. cbn [w_fs w_calls].
      rewrite Hd, (fs_is_dir_exists _ _ Hd). simpl. by rewrite Hmk, Hno.
    + intros st w' He Hb. rewrite main_eq by done. by rewrite Hb.
Qed.

(** Property X8.  A missing encoder.  When the executable cannot be
    found, [main] still answers the two listing options with status 0;
    otherwise it ends with status 1 after the second version check (after
    the first one when the input directory is missing as well), and
    [batch_convert] is never reached: nothing is made and nothing else is
    started.  Any other exception of the version check leaves the
    constructor, and [main] with it. *)
Theorem missing_encoder_exits_1 args w :
  let vc := version_cmd (path_of args) in
  ((∀ h f, ffmpeg h vc f = (Raise FileNotFoundError, f)) →
   main ffmpeg as_completed args w
   = if args_list_formats args || args_audio_info args
     then (Ok (SysExit 0), World (w_fs w) (w_calls w ++ [vc]))
     else if fs_exists (w_fs w) (args_input_dir args)
     then (Ok (SysExit 1), World (w_fs w) ((w_calls w ++ [vc]) ++ [vc]))
     else (Ok (SysExit 1), World (w_fs w) (w_calls w ++ [vc])))
  ∧ (∀ e f1, ffmpeg (w_calls w) vc (w_fs w) = (Raise e, f1) → e ≠ FileNotFoundError →
       main ffmpeg as_completed args w = (Raise e, World f1 (w_calls w ++ [vc]))).
Proof.
  intros vc. split.
  - intros Hmiss. unfold main, __init__, _check_ffmpeg. unfold_monad. fold vc.
    rewrite (Hmiss (w_calls w) (w_fs w)). cbn [w_fs w_calls].
    destruct (args_list_formats args); [done|].
    destruct (args_audio_info args); [done|]. cbn [orb w_fs w_calls].
    destruct (fs_exists (w_fs w) (args_input_dir args)); [|done]. cbn [negb w_fs w_calls].
    fold vc. by rewrite (Hmiss (w_calls w ++ [vc]) (w_fs w)).
  - intros e f1 Hrun He. unfold main, __init__, _check_ffmpeg. unfold_monad. fold vc.
    rewrite Hrun. simpl. by destruct e.
Qed.

End CliFacts.

(** ** [video2audio.py]: the information about a video *)

Section VideoInfoFacts.

Import Video2Audio.

Variable ffmpeg : tool.
Variable ffmpeg_path : pystr.

(** A line that announces an audio stream. *)
Local Abbreviation audio_line line :=
  (contains (py "Duration:") line = false
   ∧ contains (py "Stream") line = true ∧ contains (py "Audio:") line = true).

Lemma parse_lines_has_audio lines duration has_audio sample_rate d' h' sr' :
  parse_lines lines duration has_audio sample_rate = Some (d', h', sr') →
  h' = true ↔ has_audio = true ∨ ∃ line, line ∈ lines ∧ audio_line line.
Proof.
  revert duration has_audio sample_rate.
  induction lines as [|line rest IH]; intros duration has_audio sample_rate H; simpl in H.
  - injection H as <- <- <-. split; [by left|]. intros [?|(line & Hin & _)]; [done|].
    by apply elem_of_nil in Hin.
  - destruct (contains (py "Duration:") line) eqn:Hd.
    + destruct (parse_duration _ _) as [duration'|]; [|done].
      rewrite (IH _ _ _ H). split; intros [?|(l & Hin & Hl)]; try by left.
      * right. exists l. split; [by right | done].
      * apply elem_of_cons in Hin as [-> | Hin]; [destruct Hl; congruence|].
        right. by exists l.
    + destruct (contains (py "Stream") line && contains (py "Audio:") line) eqn:Ha.
      * rewrite (IH _ _ _ H). apply andb_true_iff in Ha as [Hs Ha]. split; intros _.
        -- right. exists line. split; [by left | done].
        -- by left.
      * rewrite (IH _ _ _ H). split; intros [?|(l & Hin & Hl)]; try by left.
        -- right. exists l. split; [by right | done].
        -- apply elem_of_cons in Hin as [-> | Hin].
           ++ destruct Hl as (_ & Hs & Ha'). rewrite Hs, Ha' in Ha. done.
           ++ right. by exists l.
Qed.


End VideoInfoFacts.

(** ** [audio_compresser.py] *)

Section CompressOutcomes.

Import AudioCompresser.

Variable ffmpeg : tool.
Variable mkstemp : fsmap → result path.

Lemma two_stages_calls input_path output_path p ob mb n w r w' :
  two_stages ffmpeg input_path output_path p ob mb n w = (r, w') →
  let c1 := opus_cmd input_path p ob in
  let c2 := mp3_cmd p output_path mb in
  (w_calls w' = w_calls w ++ [c1] ∧ ∀ m, r ≠ Ok (true, m))
  ∨ (w_calls w' = w_calls w ++ [c1; c2]
     ∧ ∃ err f1 sz, ffmpeg (w_calls w) c1 (w_fs w) = (Ok (0%Z, err), f1)
                    ∧ fs_getsize f1 p = Ok sz ∧ sz ≠ 0
                    ∧ ∀ m, r = Ok (true, m) →
                           n ≠ 0
                           ∧ ∃ err2 final,
                               ffmpeg (w_calls w ++ [c1]) c2 f1 = (Ok (0%Z, err2), w_fs w')
                               ∧ fs_getsize (w_fs w') output_path = Ok final
                               ∧ m = Succeeded final n).
Proof.
  intros H c1 c2. unfold two_stages, check_divisor in H. unfold_monad.
  fold c1 c2 in H.
  destruct (ffmpeg (w_calls w) c1 (w_fs w)) as [[[rc1 err1]|e1] f1] eqn:H1; simpl in H;
    [|injection H as <- <-; by left].
  destruct (rc1 =? 0)%Z eqn:Hrc1; simpl in H; [|injection H as <- <-; by left].
  apply Z.eqb_eq in Hrc1 as ->.
  destruct (fs_exists f1 p) eqn:He1; simpl in H; [|injection H as <- <-; by left].
  destruct (fs_getsize f1 p) as [sz|e] eqn:Hsz; simpl in H; [|injection H as <- <-; by left].
  destruct (sz =? 0) eqn:Hz; simpl in H; [injection H as <- <-; by left|].
  apply N.eqb_neq in Hz. rewrite Hsz in H. simpl in H.
  right.
  destruct (ffmpeg (w_calls w ++ [c1]) c2 f1) as [[[rc2 err2]|e2] f2] eqn:H2; simpl in H.
  - rewrite <- app_assoc in H. simpl in H.
    destruct (rc2 =? 0)%Z eqn:Hrc2; simpl in H.
    + apply Z.eqb_eq in Hrc2 as ->.
      destruct (fs_exists f2 output_path) eqn:He2; simpl in H.
      * destruct (fs_getsize f2 output_path) as [final|e] eqn:Hfin; simpl in H.
        -- destruct (n =? 0) eqn:Hn; simpl in H.
           ++ injection H as <- <-. split; [done|]. by exists err1, f1, sz.
           ++ apply N.eqb_neq in Hn.
              destruct (sz =? 0) eqn:Hz2; [by apply N.eqb_eq in Hz2|]. simpl in H.
              injection H as <- <-. split; [done|]. exists err1, f1, sz.
              split; [done|]. split; [done|]. split; [done|].
              intros m [= <-]. split; [done|]. by exists err2, final.
        -- injection H as <- <-. split; [done|]. by exists err1, f1, sz.
      * injection H as <- <-. split; [done|]. by exists err1, f1, sz.
    + injection H as <- <-. split; [done|]. by exists err1, f1, sz.
  - rewrite <- app_assoc in H. simpl in H.
    injection H as <- <-. split; [done|]. by exists err1, f1, sz.
Qed.

Lemma cleanup_calls p w r w' : cleanup p w = (r, w') → w_calls w' = w_calls w.
Proof.
  unfold cleanup, fs_unlink. unfold_monad. intros H. step_all; done.
Qed.

(** Property X10.  [two_stage_compress] always returns a pair, whatever the
    encoder and the file system do.  With a missing input it returns the
    message of the missing file and touches nothing.  Otherwise it starts
    the Opus stage once and the MP3 stage at most once after it, on the
    temporary file; and it reports success only when both stages ran and
    returned 0 and the input was not empty. *)
Theorem two_stage_compress_outcomes input_path output_path ob mb w :
  ∃ b m w',
    two_stage_compress ffmpeg mkstemp input_path output_path ob mb w = (Ok (b, m), w')
    ∧ (fs_exists (w_fs w) input_path = false → b = false ∧ m = InputMissing ∧ w' = w)
    ∧ (∀ p, fs_exists (w_fs w) input_path = true → mkstemp (w_fs w) = Ok p →
         let c1 := opus_cmd input_path p ob in
         let c2 := mp3_cmd p output_path mb in
         (w_calls w' = w_calls w ++ [c1] ∧ b = false)
         ∨ w_calls w' = w_calls w ++ [c1; c2])
    ∧ (b = true →
       ∃ p original final,
         mkstemp (w_fs w) = Ok p
         ∧ fs_getsize (w_fs w) input_path = Ok original ∧ original ≠ 0
         ∧ m = Succeeded final original
         ∧ w_calls w' = w_calls w ++ [opus_cmd input_path p ob; mp3_cmd p output_path mb]).
Proof.
  unfold two_stage_compress, NamedTemporaryFile. unfold_monad.
  destruct (fs_exists (w_fs w) input_path) eqn:He; simpl.
  2: { exists false, InputMissing, w. by split_and!. }
  destruct (fs_getsize (w_fs w) input_path) as [original|e] eqn:Hsize; simpl.
  2: { apply fs_getsize_exists in He as [n Hn]. congruence. }
  destruct (mkstemp (w_fs w)) as [p|e] eqn:Hp; simpl.
  2: { destruct e; eexists false, _, w; split_and!; done. }
  set (w0 := World (<[p := File 0]> (w_fs w)) (w_calls w)).
  destruct (two_stages ffmpeg input_path output_path p ob mb original w0)
    as [r1 w1] eqn:Hst.
  pose proof (two_stages_calls _ _ _ _ _ _ _ _ _ Hst) as Hcalls. simpl in Hcalls.
  destruct (cleanup p w1) as [r2 w2] eqn:Hcl.
  apply cleanup_calls in Hcl.
  assert (∀ b, (b = true → ∃ m, r1 = Ok (true, m)) →
            (w_calls w2 = w_calls w ++ [opus_cmd input_path p ob] ∧ b = false)
            ∨ w_calls w2 = w_calls w ++ [opus_cmd input_path p ob;
                                          mp3_cmd p output_path mb]) as Hshape.
  { intros b Hb. rewrite Hcl. destruct Hcalls as [[Hc Hno] | [Hc _]]; [|by right].
    left. split; [done|]. destruct b; [|done]. destruct (Hb eq_refl) as [m ->].
    by destruct (Hno m). }
  assert (∀ m, r1 = Ok (true, m) →
            ∃ final, original ≠ 0 ∧ m = Succeeded final original
                     ∧ w_calls w2 = w_calls w ++ [opus_cmd input_path p ob;
                                                   mp3_cmd p output_path mb]) as Hok.
  { intros m ->. rewrite Hcl.
    destruct Hcalls as [[_ Hno] | [Hc (err & f1 & sz & _ & _ & _ & Hm)]];
      [by destruct (Hno m)|].
    destruct (Hm m eq_refl) as (Hn & err2 & final & _ & _ & ->). by exists final. }
  assert (∀ b m, (b = true → r1 = Ok (true, m)) →
            (true = false → b = false ∧ m = InputMissing ∧ w2 = w)
            ∧ (∀ p0, true = true → Ok p = Ok p0 →
                 (w_calls w2 = w_calls w ++ [opus_cmd input_path p0 ob] ∧ b = false)
                 ∨ w_calls w2 = w_calls w ++ [opus_cmd input_path p0 ob;
                                               mp3_cmd p0 output_path mb])
            ∧ (b = true →
               ∃ p0 original0 final,
                 Ok p = Ok p0
                 ∧ Ok original = Ok original0 ∧ original0 ≠ 0
                 ∧ m = Succeeded final original0
                 ∧ w_calls w2 = w_calls w ++ [opus_cmd input_path p0 ob;
                                               mp3_cmd p0 output_path mb])) as Hall.
  { intros b m Hb. split; [done|]. split.
    - intros p0 _ [= <-]. apply Hshape. intros Ht. exists m. by apply Hb.
    - intros Ht. destruct (Hok m (Hb Ht)) as (final & Hn & -> & Hc).
      by exists p, original, final. }
  destruct r1 as [[b m]|e1]; destruct r2 as [[]|e2]; simpl.
  - exists b, m, w2. split; [done|]. apply Hall. by intros ->.
  - destruct e2; eexists false, _, w2; (split; [done|]); by apply Hall.
  - destruct e1; eexists false, _, w2; (split; [done|]); by apply Hall.
  - destruct e2; eexists false, _, w2; (split; [done|]); by apply Hall.
Qed.

Lemma compress_one_accounts input_folder output_folder ob mb filename s w :
  ∃ s' w',
    compress_one ffmpeg mkstemp input_folder output_folder ob mb filename s w = (Ok s', w')
    ∧ (s' = s
       ∨ (lower (splitext filename).2 ∈ audio_extensions
          ∧ (s' = (S s.1, s.2) ∨ ∃ m, s' = (s.1, s.2 ++ [(filename, m)])))).
Proof.
  unfold compress_one. case_bool_decide as Hext; [|exists s, w; split; [done | by left]].
  unfold_monad. destruct (fs_is_file (w_fs w) (input_folder ++ [filename])); simpl;
    [|exists s, w; split; [done | by left]].
  destruct (two_stage_returns ffmpeg mkstemp (input_folder ++ [filename])
              (output_folder ++ [(splitext filename).1 ++ py ".mp3"]) ob mb w)
    as (b & m & w1 & ->).
  simpl. destruct b; eexists _, w1; (split; [done|]); right; (split; [done|]);
    [by left | right; by exists m].
Qed.

Lemma compress_loop_accounts input_folder output_folder ob mb names s w :
  ∃ s' w' failed,
    for_each names (compress_one ffmpeg mkstemp input_folder output_folder ob mb) s w
    = (Ok s', w')
    ∧ s'.2 = s.2 ++ failed
    ∧ sublist failed.*1 names
    ∧ (s.1 ≤ s'.1)%nat
    ∧ (s'.1 - s.1 + length failed
       ≤ length (filter (λ n, lower (splitext n).2 ∈ audio_extensions) names))%nat.
Proof.
  revert s w. induction names as [|x names IH]; intros s w; simpl.
  - exists s, w, []. rewrite app_nil_r. unfold ret. split_and!; try done. simpl. lia.
  - unfold bind.
    destruct (compress_one_accounts input_folder output_folder ob mb x s w)
      as (s1 & w1 & -> & Hs1).
    destruct (IH s1 w1) as (s' & w' & failed & -> & Hf & Hsub & Hle & Hn).
    destruct Hs1 as [-> | [Hext [-> | [m ->]]]].
    + exists s', w', failed. split_and!; try done.
      * by apply sublist_cons.
      * rewrite filter_cons. case_decide; simpl; lia.
    + exists s', w', failed. simpl in *. split_and!; try done.
      * by apply sublist_cons.
      * lia.
      * rewrite filter_cons_True by done. simpl. lia.
    + exists s', w', ((x, m) :: failed). simpl in *. split_and!; try done.
      * by rewrite Hf, <- app_assoc.
      * by apply sublist_skip.
      * rewrite filter_cons_True by done. simpl. lia.
Qed.

Lemma insert_sorted_perm x l : Permutation (insert_sorted x l) (x :: l).
Proof.
  induction l as [|y l IH]; simpl; [done|].
  destruct (str_leb x y); [done|]. rewrite IH. apply perm_swap.
Qed.

Lemma sorted_perm l : Permutation (sorted l) l.
Proof.
  induction l as [|x l IH]; simpl; [done|]. by rewrite insert_sorted_perm, IH.
Qed.


Lemma fs_getsize_missing f p : fs_exists f p = false → fs_getsize f p = Raise FileNotFoundError.
Proof.
  unfold fs_exists, fs_getsize. destruct (node_at f p) as [nd|]; [|done].
  intros H. apply bool_decide_eq_false_1 in H. by destruct H; exists nd.
Qed.

(** Property X12.  One round of [smart_dual_output] that returns.  A name
    without one of the five extensions, or one that is not a regular file,
    is passed over.  Otherwise the encoder is started exactly twice, and
    neither return code is looked at: first for the Opus file, then for the
    MP3 file, which is made from the Opus file when that file is there and
    has less than half the size of the original, and from the original
    otherwise. *)
Theorem dual_output_round input_folder opus_folder mp3_folder filename w w' :
  let input_path := input_folder ++ [filename] in
  let opus_path := opus_folder ++ [(splitext filename).1 ++ py ".opus"] in
  let mp3_path := mp3_folder ++ [(splitext filename).1 ++ py ".mp3"] in
  dual_one ffmpeg input_folder opus_folder mp3_folder filename tt w = (Ok tt, w') →
  (w' = w
   ∧ (lower (splitext filename).2 ∉ dual_extensions
      ∨ fs_is_file (w_fs w) input_path = false))
  ∨ ∃ original r1 f1,
      lower (splitext filename).2 ∈ dual_extensions
      ∧ fs_is_file (w_fs w) input_path = true
      ∧ fs_getsize (w_fs w) input_path = Ok original
      ∧ ffmpeg (w_calls w) (dual_opus_cmd input_path opus_path) (w_fs w) = (Ok r1, f1)
      ∧ let source := match fs_getsize f1 opus_path with
                      | Ok opus_size =>
                          if 2 * opus_size <? original then opus_path else input_path
                      | Raise _ => input_path
                      end in
        w_calls w' = w_calls w ++ [dual_opus_cmd input_path opus_path;
                                   dual_mp3_cmd source mp3_path].
Proof.
  intros input_path opus_path mp3_path. unfold dual_one.
  fold input_path opus_path mp3_path.
  case_bool_decide as Hext; [|intros [= <-]; left; split; [done | by left]].
  unfold check_divisor. unfold_monad.
  destruct (fs_is_file (w_fs w) input_path) eqn:Hfile; simpl;
    [|intros [= <-]; left; split; [done | by right]].
  destruct (fs_getsize (w_fs w) input_path) as [original|e] eqn:Hsize; simpl; [|done].
  destruct (ffmpeg (w_calls w) (dual_opus_cmd input_path opus_path) (w_fs w))
    as [[r1|e] f1] eqn:Hrun1; simpl; [|done].
  intros H. right. exists original, r1, f1. split_and!; try done.
  destruct (fs_exists f1 opus_path) eqn:He; simpl in H.
  - destruct (fs_getsize f1 opus_path) as [opus_size|e] eqn:Hos; simpl in H; [|done].
    destruct (original =? 0); simpl in H; [done|].
    rewrite He in H. simpl in H. rewrite Hos in H. simpl in H.
    destruct (ffmpeg _ _ f1) as [[r2|e] f2]; simpl in H; [|done].
    rewrite <- app_assoc in H. simpl in H. step_all; done.
  - rewrite (fs_getsize_missing _ _ He). rewrite He in H. simpl in H.
    destruct (ffmpeg _ _ f1) as [[r2|e] f2]; simpl in H; [|done].
    rewrite <- app_assoc in H. simpl in H. step_all; done.
Qed.

(** Property X13.  An empty audio file stops [smart_dual_output].  When
    the file has 0 bytes and the first run of the encoder leaves an Opus
    file for it, the ratio of the sizes divides by zero; nothing catches
    the exception, so the loop ends there, the MP3 file of this name is not
    made, and the names after it are never looked at. *)
Theorem empty_file_stops_dual_output input_folder opus_folder mp3_folder
    names1 filename names2 w w1 r1 f1 :
  let body := dual_one ffmpeg input_folder opus_folder mp3_folder in
  let input_path := input_folder ++ [filename] in
  let opus_path := opus_folder ++ [(splitext filename).1 ++ py ".opus"] in
  for_each names1 body tt w = (Ok tt, w1) →
  lower (splitext filename).2 ∈ dual_extensions →
  fs_is_file (w_fs w1) input_path = true →
  fs_getsize (w_fs w1) input_path = Ok 0 →
  ffmpeg (w_calls w1) (dual_opus_cmd input_path opus_path) (w_fs w1) = (Ok r1, f1) →
  fs_exists f1 opus_path = true →
  for_each (names1 ++ filename :: names2) body tt w
  = (Raise ZeroDivisionError,
     World f1 (w_calls w1 ++ [dual_opus_cmd input_path opus_path])).
Proof.
  intros body input_path opus_path Hpre Hext Hfile Hsize Hrun He.
  rewrite for_each_app. unfold bind at 1. rewrite Hpre. simpl. unfold bind at 1.
  assert (body filename tt w1
          = (Raise ZeroDivisionError,
             World f1 (w_calls w1 ++ [dual_opus_cmd input_path opus_path]))) as ->; [|done].
  unfold body, dual_one. fold input_path opus_path.
  rewrite bool_decide_eq_true_2 by done. unfold check_divisor. unfold_monad.
  rewrite Hfile. simpl. rewrite Hsize. simpl. rewrite Hrun. simpl. rewrite He. simpl.
  apply fs_getsize_exists in He as [n Hn]. by rewrite Hn.
Qed.

End CompressOutcomes.

(** ** The transcription scripts *)

Lemma fs_mkdir_is_dir f p f' : fs_mkdir f p = Ok f' → fs_is_dir f' p = true.
Proof.
  unfold fs_mkdir, fs_is_dir. intros H.
  destruct (node_at f p) as [[|]|] eqn:E; simplify_eq/=.
  - by rewrite E.
  - destruct (node_at f (removelast p)) as [[|]|]; simplify_eq/=.
    unfold node_at in *. destruct (is_anchor p); [done|]. by rewrite lookup_insert_eq.
Qed.

Lemma fs_mkdir_mono f p f' q :
  fs_mkdir f p = Ok f' → fs_is_dir f q = true → fs_is_dir f' q = true.
Proof.
  unfold fs_mkdir, fs_is_dir. intros H Hq.
  destruct (node_at f p) as [[|]|] eqn:E; simplify_eq/=; [done|].
  destruct (node_at f (removelast p)) as [[|]|]; simplify_eq/=.
  unfold node_at in *. destruct (is_anchor q); [done|]. destruct (is_anchor p); [done|].
  destruct (decide (p = q)) as [->|Hne]; [by rewrite lookup_insert_eq|].
  by rewrite lookup_insert_ne.
Qed.

Section Audio2TextOutcomes.

Import Audio2Text.

Variable ffmpeg : tool.
Variable model_loaded : bool.
Variable recognize : fsmap → path → pystr.

(** Property X14.  [extract_audio] never raises and starts the encoder once
    or twice: the second command line is tried only after the first run
    returned a code other than 0, and the answer is [True] exactly when the
    last run returned 0.  An exception of a run gives [False] at once. *)
Theorem extract_audio_attempts mp4_path audio_path w :
  let c1 := extract_cmd1 mp4_path audio_path in
  let c2 := extract_cmd2 mp4_path audio_path in
  ∃ b w',
    extract_audio ffmpeg mp4_path audio_path w = (Ok b, w')
    ∧ ((w_calls w' = w_calls w ++ [c1]
        ∧ ∃ r1, ffmpeg (w_calls w) c1 (w_fs w) = (r1, w_fs w')
                ∧ match r1 with
                  | Ok (rc, _) => rc = 0%Z ∧ b = true
                  | Raise _ => b = false
                  end)
       ∨ (w_calls w' = w_calls w ++ [c1; c2]
          ∧ ∃ rc1 err1 f1 r2,
              ffmpeg (w_calls w) c1 (w_fs w) = (Ok (rc1, err1), f1) ∧ rc1 ≠ 0%Z
              ∧ ffmpeg (w_calls w ++ [c1]) c2 f1 = (r2, w_fs w')
              ∧ match r2 with
                | Ok (rc, _) => b = (rc =? 0)%Z
                | Raise _ => b = false
                end)).
Proof.
  intros c1 c2. unfold extract_audio. fold c1 c2. unfold_monad.
  destruct (ffmpeg (w_calls w) c1 (w_fs w)) as [[[rc1 err1]|e1] f1] eqn:H1; simpl.
  - destruct (rc1 =? 0)%Z eqn:Hrc; simpl.
    + apply Z.eqb_eq in Hrc as ->. eexists _, _. split; [done|]. left. simpl.
      split; [done|]. by eexists (Ok (_, _)).
    + apply Z.eqb_neq in Hrc.
      destruct (ffmpeg (w_calls w ++ [c1]) c2 f1) as [[[rc2 err2]|e2] f2] eqn:H2; simpl.
      * eexists _, _. split; [done|]. right. simpl. rewrite <- app_assoc.
        split; [done|]. by eexists rc1, err1, f1, (Ok (_, _)).
      * eexists _, _. split; [done|]. right. simpl. rewrite <- app_assoc.
        split; [done|]. by eexists rc1, err1, f1, (Raise _).
  - eexists _, _. split; [done|]. left. simpl. split; [done|]. by eexists (Raise _).
Qed.

Lemma extract_audio_calls mp4_path audio_path w r w' :
  extract_audio ffmpeg mp4_path audio_path w = (r, w') →
  ∃ l, w_calls w' = w_calls w ++ l ∧ (length l ≤ 2)%nat.
Proof.
  unfold extract_audio. unfold_monad. intros H. step_all.
  all: try (eexists [_]; split; [done | simpl; lia]).
  all: try (eexists [_; _]; split; [by rewrite <- app_assoc | simpl; lia]).
Qed.

Lemma process_file_counts output_dir audio_dir model_type keep_audio mp4_file processed
    w p' w' :
  process_file ffmpeg recognize output_dir audio_dir model_type keep_audio
    mp4_file processed w = (Ok p', w') →
  (processed ≤ p' ≤ S processed)%nat
  ∧ ∃ l, w_calls w' = w_calls w ++ l ∧ (length l ≤ 2)%nat
         ∧ (fs_exists (w_fs w) (output_dir ++ [stem mp4_file ++ py ".md"]) = true → l = []).
Proof.
  unfold process_file. unfold bind at 1. unfold os_path_exists at 1, read_fs.
  destruct (fs_exists (w_fs w) (output_dir ++ [stem mp4_file ++ py ".md"])) eqn:Hmd.
  { unfold ret. intros [= <- <-]. split; [lia|]. exists []. rewrite app_nil_r.
    split_and!; [done | simpl; lia | done]. }
  unfold bind at 1.
  destruct (extract_audio ffmpeg mp4_file _ w) as [[b|e] w1] eqn:Hex; [|done].
  apply extract_audio_calls in Hex as (l & Hl & Hn).
  intros H.
  assert (w_calls w' = w_calls w1 ∧ (processed ≤ p' ≤ S processed)%nat) as [Hc Hp].
  { destruct b; simpl in H; [|unfold ret in H; simplify_eq/=; split; [done | lia]].
    unfold transcribe, save_as_markdown in H. unfold_monad. clear Hl Hn Hmd.
    step_all; (split; [done | lia]). }
  split; [done|]. exists l. rewrite Hc, Hl. split_and!; done.
Qed.

(** [main] step by step, up to the loop. *)
Lemma audio2text_main_eq input_dir output model_type keep_audio w :
  let output_dir := match output with
                    | Some o => o
                    | None => input_dir ++ [py "transcriptions"]
                    end in
  let audio_dir := output_dir ++ [py "temp_audio"] in
  main ffmpeg model_loaded recognize input_dir output model_type keep_audio w
  = if negb (fs_exists (w_fs w) input_dir) then (Ok Exit1, w)
    else
      match fs_mkdir (w_fs w) output_dir with
      | Raise e => (Raise e, w)
      | Ok f1 =>
          match fs_mkdir f1 audio_dir with
          | Raise e => (Raise e, World f1 (w_calls w))
          | Ok f2 =>
              let mp4_files := glob_mp4 f2 input_dir in
              if bool_decide (mp4_files = []) then (Ok NoFiles, World f2 (w_calls w))
              else if negb (transcriber_present model_loaded model_type)
                      && negb (bool_decide (model_type = py "api"))
              then (Ok Exit1, World f2 (w_calls w))
              else
                match for_each mp4_files
                        (process_file ffmpeg recognize output_dir audio_dir model_type
                           keep_audio) 0%nat (World f2 (w_calls w)) with
                | (Raise e, w1) => (Raise e, w1)
                | (Ok processed, w1) =>
                    (let* e := os_path_exists audio_dir in
                     let* names := (if e then os_listdir audio_dir else ret []) in
                     do* (if e && bool_decide (names = []) then os_rmdir audio_dir
                          else ret tt) in
                     ret (Processed processed (length mp4_files))) w1
                end
          end
      end.
Proof.
  intros output_dir audio_dir. unfold main. fold output_dir. fold audio_dir.
  unfold bind, os_path_exists, Path_mkdir_exist_ok, read_fs, update_fs, ret.
  destruct (fs_exists (w_fs w) input_dir); simpl; [|done].
  destruct (fs_mkdir (w_fs w) output_dir) as [f1|e]; simpl; [|done].
  destruct (fs_mkdir f1 audio_dir) as [f2|e]; simpl; [|done].
  case_bool_decide; [done|].
  destruct (negb _ && negb _); [done|].
  by destruct (for_each _ _ _ _) as [[|] ?].
Qed.

Lemma audio2text_cleanup_calls audio_dir (processed files : nat) w r w' :
  (let* e := os_path_exists audio_dir in
   let* names := (if e then os_listdir audio_dir else ret []) in
   do* (if e && bool_decide (names = []) then os_rmdir audio_dir else ret tt) in
   ret (Processed processed files)) w = (r, w') →
  w_calls w' = w_calls w ∧ ∀ o, r = Ok o → o = Processed processed files.
Proof.
  unfold_monad. intros H. step_all; (split; [done|]); intros o; try done.
  all: by intros [= ->].
Qed.

(** Property X15.  When [main] of [audio2text.py] ends with its count, the
    number of processed files is at most the number of MP4 files found,
    which is not zero, and the number of starts of the encoder is at most
    twice the number of MP4 files. *)
Theorem processed_count_is_bounded input_dir output model_type keep_audio w n m w' :
  main ffmpeg model_loaded recognize input_dir output model_type keep_audio w
  = (Ok (Processed n m), w') →
  (n ≤ m)%nat ∧ (0 < m)%nat
  ∧ ∃ l, w_calls w' = w_calls w ++ l ∧ (length l ≤ 2 * m)%nat.
Proof.
  rewrite audio2text_main_eq. cbv zeta.
  set (output_dir := match output with Some o => o | None => _ end).
  destruct (negb _); [done|].
  destruct (fs_mkdir (w_fs w) output_dir) as [f1|]; [|done].
  destruct (fs_mkdir f1 _) as [f2|]; [|done].
  case_bool_decide as Hne; [done|].
  destruct (negb _ && negb _); [done|].
  set (mp4_files := glob_mp4 f2 input_dir) in *.
  destruct (for_each _ _ _ _) as [[processed|] w1] eqn:Hloop; [|done].
  intros H. apply audio2text_cleanup_calls in H as [Hc Hr].
  injection (Hr _ eq_refl) as -> ->.
  pose (I := λ (rest : list path) (p : nat) (w2 : world),
          ∃ l, w_calls w2 = w_calls w ++ l
               ∧ (length l + 2 * length rest ≤ 2 * length mp4_files)%nat
               ∧ (p + length rest ≤ length mp4_files)%nat).
  assert (I [] processed w1) as (l & Hl & Hn & Hp).
  { eapply (for_each_inv I); [|..|exact Hloop].
    - intros x rest p0 w0 p1 w2 (l & Hl & Hn & Hp) Hb. simpl in Hn, Hp.
      apply process_file_counts in Hb as (Hle & l1 & Hl1 & Hn1 & _).
      exists (l ++ l1). rewrite Hl1, Hl, length_app, <- app_assoc.
      split; [done|]. lia.
    - exists []. rewrite app_nil_r. simpl. split; [done|]. lia. }
  simpl in Hn, Hp. split; [lia|]. split.
  - destruct mp4_files; [done | simpl; lia].
  - exists l. rewrite Hc, Hl. split; [done|]. lia.
Qed.

(** Property X16.  A run of [audio2text.py] over a directory in which every
    MP4 file found already has its markdown file starts no encoder and
    counts nothing. *)
Theorem audio2text_rerun_starts_nothing input_dir output model_type keep_audio w f1 f2
    r w' :
  let output_dir := match output with
                    | Some o => o
                    | None => input_dir ++ [py "transcriptions"]
                    end in
  fs_mkdir (w_fs w) output_dir = Ok f1 →
  fs_mkdir f1 (output_dir ++ [py "temp_audio"]) = Ok f2 →
  (∀ p, p ∈ glob_mp4 f2 input_dir →
        fs_exists f2 (output_dir ++ [stem p ++ py ".md"]) = true) →
  main ffmpeg model_loaded recognize input_dir output model_type keep_audio w = (r, w') →
  w_calls w' = w_calls w ∧ ∀ n m, r = Ok (Processed n m) → n = 0%nat.
Proof.
  intros output_dir Hmk1 Hmk2 Hall. rewrite audio2text_main_eq. cbv zeta.
  fold output_dir. rewrite Hmk1, Hmk2.
  destruct (negb _); [by intros [= <- <-]|].
  case_bool_decide as Hne; [by intros [= <- <-]|].
  destruct (negb _ && negb _); [by intros [= <- <-]|].
  assert (∀ files p, (∀ x, x ∈ files → x ∈ glob_mp4 f2 input_dir) →
            for_each files
              (process_file ffmpeg recognize output_dir (output_dir ++ [py "temp_audio"])
                 model_type keep_audio) p (World f2 (w_calls w))
            = (Ok p, World f2 (w_calls w))) as Hloop.
  { induction files as [|x files IH]; intros p Hsub; simpl; [done|].
    unfold bind at 1.
    assert (process_file ffmpeg recognize output_dir (output_dir ++ [py "temp_audio"])
              model_type keep_audio x p (World f2 (w_calls w))
            = (Ok p, World f2 (w_calls w))) as ->.
    { unfold process_file. unfold_monad. simpl.
      rewrite Hall by (apply Hsub; left). done. }
    apply IH. intros y Hy. apply Hsub. by right. }
  rewrite Hloop by done. intros H. apply audio2text_cleanup_calls in H as [Hc Hr].
  split; [done|]. intros n m Hnm. by injection (Hr _ Hnm) as ->.
Qed.

(** Property X17.  With the model type [local_gguf] nothing is ever
    transcribed: [AudioTranscriber] keeps no model for it, so [main] leaves
    with [sys.exit(1)] as soon as an MP4 file is found.  A run ends with
    [sys.exit(1)], with an exception of making the two directories, or
    with no MP4 file found; no encoder is started and nothing is counted. *)
Theorem local_gguf_never_transcribes input_dir output keep_audio w r w' :
  main ffmpeg model_loaded recognize input_dir output (py "local_gguf") keep_audio w
  = (r, w') →
  w_calls w' = w_calls w
  ∧ ((∃ e, r = Raise e)
     ∨ r = Ok Exit1
     ∨ (r = Ok NoFiles ∧ glob_mp4 (w_fs w') input_dir = [])).
Proof.
  rewrite audio2text_main_eq. cbv zeta.
  assert (negb (transcriber_present model_loaded (py "local_gguf"))
          && negb (bool_decide (py "local_gguf" = py "api")) = true) as -> by reflexivity.
  destruct (negb _); [intros [= <- <-]; split; [done|]; right; by left|].
  destruct (fs_mkdir (w_fs w) _) as [f1|e1];
    [|intros [= <- <-]; split; [done|]; left; by exists e1].
  destruct (fs_mkdir f1 _) as [f2|e2];
    [|intros [= <- <-]; split; [done|]; left; by exists e2].
  case_bool_decide as Hne; intros [= <- <-]; (split; [done|]); right; [by right | by left].
Qed.

(** Property X18.  When [main] of [audio2text.py] finds no MP4 file it
    returns at once: the output directory and the directory for the
    temporary audio files, which it has made by then, both stay, and no
    encoder was started. *)
Theorem no_mp4_leaves_temp_directory input_dir output model_type keep_audio w w' :
  let output_dir := match output with
                    | Some o => o
                    | None => input_dir ++ [py "transcriptions"]
                    end in
  main ffmpeg model_loaded recognize input_dir output model_type keep_audio w
  = (Ok NoFiles, w') →
  fs_is_dir (w_fs w') output_dir = true
  ∧ fs_is_dir (w_fs w') (output_dir ++ [py "temp_audio"]) = true
  ∧ glob_mp4 (w_fs w') input_dir = []
  ∧ w_calls w' = w_calls w.
Proof.
  intros output_dir. rewrite audio2text_main_eq. cbv zeta. fold output_dir.
  destruct (negb _); [done|].
  destruct (fs_mkdir (w_fs w) output_dir) as [f1|] eqn:Hmk1; [|done].
  destruct (fs_mkdir f1 _) as [f2|] eqn:Hmk2; [|done].
  case_bool_decide as Hne.
  - intros [= <-]. simpl. split_and!; try done.
    + eapply fs_mkdir_mono; [done|]. by eapply fs_mkdir_is_dir.
    + by eapply fs_mkdir_is_dir.
  - destruct (negb _ && negb _); [done|].
    destruct (for_each _ _ _ _) as [[processed|] w1]; [|done].
    intros H. apply audio2text_cleanup_calls in H as [_ Hr]. by specialize (Hr _ eq_refl).
Qed.

End Audio2TextOutcomes.

Section SoundExtOutcomes.

Import SoundExt.

Variable ffmpeg : tool.
Variable moviepy : option (path → path → fsmap → result unit * fsmap).
Variable whisper : fsmap → path → pystr.
Variable speech_recognition : fsmap → path → pystr.

(** Property X19.  [extract_audio_from_mp4] never raises, and it falls back
    on the encoder only when [moviepy] cannot be imported: with [moviepy]
    the encoder is never started, also not after [moviepy] has failed, and
    the answer says whether [moviepy] went through; without it the encoder
    is started once and the answer says whether it returned 0. *)
Theorem moviepy_excludes_ffmpeg mp4_path audio_path w :
  ∃ b w',
    extract_audio_from_mp4 ffmpeg moviepy mp4_path audio_path w = (Ok b, w')
    ∧ match moviepy with
      | Some write_audiofile =>
          w_calls w' = w_calls w
          ∧ ∃ r, write_audiofile mp4_path audio_path (w_fs w) = (r, w_fs w')
                 ∧ (b = true ↔ ∃ u, r = Ok u)
      | None =>
          w_calls w' = w_calls w ++ [extract_cmd mp4_path audio_path]
          ∧ ∃ r, ffmpeg (w_calls w) (extract_cmd mp4_path audio_path) (w_fs w)
                 = (r, w_fs w')
                 ∧ (b = true ↔ ∃ err, r = Ok (0%Z, err))
      end.
Proof.
  unfold extract_audio_from_mp4. unfold_monad. destruct moviepy as [write_audiofile|].
  - destruct (write_audiofile mp4_path audio_path (w_fs w)) as [[u|e] f'] eqn:Hw; simpl.
    + eexists _, _. split; [done|]. simpl. split; [done|]. eexists. split; [done|].
      split; [by exists u | done].
    + eexists _, _. split; [done|]. simpl. split; [done|]. eexists. split; [done|].
      split; [done | by intros [u Hu]].
  - destruct (ffmpeg (w_calls w) (extract_cmd mp4_path audio_path) (w_fs w))
      as [[[rc err]|e] f'] eqn:Hrun; simpl.
    + eexists _, _. split; [done|]. simpl. split; [done|]. eexists. split; [done|].
      split.
      * intros Hrc. apply Z.eqb_eq in Hrc as ->. by exists err.
      * intros [err' [= -> ->]]. done.
    + eexists _, _. split; [done|]. simpl. split; [done|]. eexists. split; [done|].
      split; [done | by intros [u Hu]].
Qed.

(** Property X20.  A run of [process_mp4_files] over a directory in which
    every MP4 file found already has its markdown file extracts nothing:
    neither the encoder nor [moviepy] is used, and the run returns. *)
Theorem soundext_rerun_extracts_nothing input_dir output_dir keep_audio use_whisper
    w f1 f2 :
  let output_path := match output_dir with
                     | Some o => o
                     | None => input_dir ++ [py "transcriptions"]
                     end in
  let audio_dir := output_path ++ [py "temp_audio"] in
  fs_mkdir_p (w_fs w) output_path = Ok f1 →
  fs_mkdir f1 audio_dir = Ok f2 →
  (∀ p, p ∈ glob_mp4 f2 input_dir →
        fs_exists f2 (output_path ++ [stem p ++ py ".md"]) = true) →
  ∃ w', process_mp4_files ffmpeg moviepy whisper speech_recognition
          input_dir output_dir keep_audio use_whisper w = (Ok tt, w')
        ∧ w_calls w' = w_calls w
        ∧ (w_fs w' = f2
           ∨ (keep_audio = false ∧ fs_rmdir f2 audio_dir = Ok (w_fs w'))).
Proof.
  intros output_path audio_dir Hmk1 Hmk2 Hall.
  unfold process_mp4_files. fold output_path. fold audio_dir.
  unfold bind at 1. unfold Path_mkdir, update_fs. rewrite Hmk1.
  unfold bind at 1. unfold Path_mkdir_exist_ok, update_fs. simpl. rewrite Hmk2.
  unfold bind at 1. unfold read_fs at 1. simpl.
  case_bool_decide as Hne; [eexists; split; [done|]; split; [done | by left]|].
  assert (∀ files, (∀ x, x ∈ files → x ∈ glob_mp4 f2 input_dir) →
            for_each files
              (process_file ffmpeg moviepy whisper speech_recognition output_path
                 audio_dir keep_audio use_whisper) tt (World f2 (w_calls w))
            = (Ok tt, World f2 (w_calls w))) as Hloop.
  { induction files as [|x files IH]; intros Hsub; simpl; [done|].
    unfold bind at 1.
    assert (process_file ffmpeg moviepy whisper speech_recognition output_path
              audio_dir keep_audio use_whisper x tt (World f2 (w_calls w))
            = (Ok tt, World f2 (w_calls w))) as ->.
    { unfold process_file. unfold_monad. simpl.
      rewrite Hall by (apply Hsub; left). done. }
    apply IH. intros y Hy. apply Hsub. by right. }
  unfold bind at 1. rewrite Hloop by done.
  unfold_monad. simpl.
  destruct (negb keep_audio && fs_exists f2 audio_dir) eqn:Hk; simpl.
  - destruct (fs_rmdir f2 audio_dir) as [f3|e] eqn:Hrm; simpl.
    + eexists. split; [done|]. split; [done|]. right. simpl.
      split; [|done]. by destruct keep_audio.
    + eexists. split; [done|]. split; [done|]. by left.
  - eexists. split; [done|]. split; [done|]. by left.
Qed.

End SoundExtOutcomes.

(** ** [vid_compresser.py] *)

Section VidCompressOutcomes.

Import VidCompresser.

Variable ffmpeg : tool.

Lemma vid_compress_one_returns input_folder output_folder crf preset audio_bitrate file w :
  ∃ w', compress_one ffmpeg input_folder output_folder crf preset audio_bitrate file tt w
        = (Ok tt, w')
        ∧ ((w' = w ∧ selected (w_fs w) input_folder file = false)
           ∨ (selected (w_fs w) input_folder file = true
              ∧ w_calls w' = w_calls w
                             ++ [compress_cmd (input_folder ++ [file])
                                   (output_folder ++ [file]) crf preset audio_bitrate])).
Proof.
  unfold compress_one. unfold_monad.
  destruct (selected (w_fs w) input_folder file) eqn:Hsel; simpl;
    [|exists w; split; [done | by left]].
  destruct (ffmpeg _ _ _) as [[[rc err]|e] f1]; simpl.
  - destruct (rc =? 0)%Z; simpl.
    + destruct (fs_getsize f1 (input_folder ++ [file])) as [n|]; simpl.
      * destruct (fs_getsize f1 (output_folder ++ [file])) as [n'|]; simpl.
        -- destruct (n =? 0); eexists; (split; [done|]); by right.
        -- eexists; (split; [done|]); by right.
      * eexists; (split; [done|]); by right.
    + eexists; (split; [done|]); by right.
  - eexists; (split; [done|]); by right.
Qed.


End VidCompressOutcomes.

(** ** The file enumerators *)

Lemma steps_below_spec d r q :
  q ∈ steps_below d r ↔ ∃ k, (0 < k ≤ length r)%nat ∧ q = d ++ take k r.
Proof.
  revert d. induction r as [|c r IH]; intros d; simpl.
  - split; [by intros H%elem_of_nil | intros (k & Hk & _); lia].
  - rewrite elem_of_cons, IH. split.
    + intros [-> | (k & Hk & ->)].
      * exists 1%nat. split; [lia|]. done.
      * exists (S k). split; [lia|]. by rewrite <- app_assoc.
    + intros (k & Hk & ->). destruct k as [|k]; [lia|]. simpl.
      destruct k as [|k]; [by left|].
      right. exists (S k). split; [lia|]. by rewrite <- app_assoc.
Qed.

Lemma fs_children_spec f d c nd : (c, nd) ∈ fs_children f d ↔ f !! (d ++ [c]) = Some nd.
Proof.
  unfold fs_children. rewrite list_elem_of_omap. split.
  - intros ([k n] & Hin & Hg). apply elem_of_map_to_list in Hin. simpl in Hg.
    destruct (relative_to k d) as [[|c' [|]]|] eqn:Hrel; simplify_eq/=.
    apply relative_to_Ok in Hrel as ->. done.
  - intros H. exists (d ++ [c], nd). split; [by apply elem_of_map_to_list|].
    simpl. by rewrite relative_to_app.
Qed.

Lemma walk_roots_spec f top root :
  root ∈ walk_roots f top
  ↔ fs_is_dir f top = true
    ∧ (root = top
       ∨ ∃ r, r ≠ [] ∧ root = top ++ r ∧ is_Some (f !! root)
              ∧ ∀ k, (0 < k ≤ length r)%nat → fs_is_dir f (top ++ take k r) = true).
Proof.
  unfold walk_roots. destruct (fs_is_dir f top) eqn:Hd.
  2: { split; [by intros H%elem_of_nil | by intros [? _]]. }
  rewrite elem_of_cons, list_elem_of_omap. split.
  - intros [-> | ([k n] & Hin & Hg)]; [split; [done | by left]|].
    apply elem_of_map_to_list in Hin. cbn [fst] in Hg. split; [done|]. right.
    destruct (relative_to k top) as [[|c r]|] eqn:Hrel; [done| |done].
    apply relative_to_Ok in Hrel as ->.
    destruct (forallb (fs_is_dir f) (steps_below top (c :: r))) eqn:Hall; [|done].
    injection Hg as <-.
    exists (c :: r). split_and!; [done | done | by exists n |].
    intros j Hj. rewrite forallb_forall in Hall. apply Hall.
    apply list_elem_of_In, steps_below_spec. by exists j.
  - intros [_ [-> | (r & Hne & -> & [n Hn] & Hall)]]; [by left|]. right.
    exists (top ++ r, n). split; [by apply elem_of_map_to_list|]. cbn [fst].
    rewrite relative_to_app. destruct r as [|c r]; [done|].
    rewrite (proj2 (forallb_forall (fs_is_dir f) (steps_below top (c :: r)))); [done|].
    intros q Hq. apply list_elem_of_In, steps_below_spec in Hq as (j & Hj & ->).
    by apply Hall.
Qed.

(** The files that [os.walk] lists below [top]. *)
Lemma os_walk_files f top p :
  (∃ root dirs files file,
     (root, dirs, files) ∈ os_walk f top ∧ file ∈ files ∧ p = root ++ [file])
  ↔ fs_is_dir f top = true
    ∧ ∃ r file n,
        p = top ++ r ++ [file]
        ∧ f !! p = Some (File n)
        ∧ (r ≠ [] → is_Some (f !! (top ++ r)))
        ∧ ∀ k, (0 < k ≤ length r)%nat → fs_is_dir f (top ++ take k r) = true.
Proof.
  unfold os_walk. split.
  - intros (root & dirs & files & file & Hw & Hfile & ->).
    apply list_elem_of_fmap in Hw as (root' & [= -> -> ->] & Hroot).
    apply walk_roots_spec in Hroot as [Hd Hroot]. split; [done|].
    apply list_elem_of_fmap in Hfile as ([c nd] & -> & Hc). simpl.
    apply list_elem_of_filter in Hc as [Hnd Hc]. apply fs_children_spec in Hc.
    destruct nd as [n|]; [|done].
    destruct Hroot as [-> | (r & Hne & -> & Hsome & Hall)].
    + exists [], c, n. simpl. split_and!; [done | done | done |]. intros k Hk. simpl in Hk. lia.
    + exists r, c, n. rewrite <- app_assoc in Hc. rewrite <- app_assoc. by split_and!.
  - intros (Hd & r & file & n & -> & Hp & Hsome & Hall).
    exists (top ++ r), ((filter (λ cn, is_dir_node cn.2 = true) (fs_children f (top ++ r))).*1),
      ((filter (λ cn, is_dir_node cn.2 = false) (fs_children f (top ++ r))).*1), file.
    split_and!.
    + apply list_elem_of_fmap. exists (top ++ r). split; [done|].
      apply walk_roots_spec. split; [done|].
      destruct r as [|c r]; [left; by rewrite app_nil_r|].
      right. exists (c :: r). split_and!; [done | done | by apply Hsome | done].
    + apply list_elem_of_fmap. exists (file, File n). split; [done|].
      apply list_elem_of_filter. split; [done|]. apply fs_children_spec.
      by rewrite <- app_assoc.
    + by rewrite <- app_assoc.
Qed.


(** Property X23.  [find_gguf_models] returns the files at any depth below
    the models directory whose name ends with [.gguf], in exactly this
    spelling, reached through directories only; it returns nothing when the
    path is missing or is not a directory. *)
Theorem gguf_models_found f models_dir p :
  (p ∈ Audio2Text.find_gguf_models f models_dir
   ↔ fs_is_dir f models_dir = true
     ∧ ∃ r file n,
         p = models_dir ++ r ++ [file]
         ∧ endswith file (py ".gguf") = true
         ∧ f !! p = Some (File n)
         ∧ (r ≠ [] → is_Some (f !! (models_dir ++ r)))
         ∧ ∀ k, (0 < k ≤ length r)%nat → fs_is_dir f (models_dir ++ take k r) = true)
  ∧ (fs_is_dir f models_dir = false → Audio2Text.find_gguf_models f models_dir = []).
Proof.
  assert (∀ q, q ∈ flat_map (λ rdf : path * list pystr * list pystr,
                   let '(root, _, files) := rdf in
                   flat_map (λ file, if endswith file (py ".gguf") then [root ++ [file]]
                                     else []) files) (os_walk f models_dir)
            ↔ ∃ root dirs files file,
                (root, dirs, files) ∈ os_walk f models_dir ∧ file ∈ files
                ∧ q = root ++ [file] ∧ endswith file (py ".gguf") = true) as Hflat.
  { intros q. rewrite elem_of_flat_map. split.
    - intros ([[root dirs] files] & Hw & Hq). apply elem_of_flat_map in Hq as (file & Hf & Hq).
      destruct (endswith file (py ".gguf")) eqn:He; [|by apply elem_of_nil in Hq].
      apply list_elem_of_singleton in Hq as ->. by exists root, dirs, files, file.
    - intros (root & dirs & files & file & Hw & Hf & -> & He).
      exists (root, dirs, files). split; [done|]. apply elem_of_flat_map. exists file.
      split; [done|]. rewrite He. by apply list_elem_of_singleton. }
  unfold Audio2Text.find_gguf_models. split.
  - destruct (fs_exists f models_dir) eqn:Hex.
    + rewrite Hflat. split.
      * intros (root & dirs & files & file & Hw & Hf & -> & He).
        assert (∃ root' dirs' files' file',
                  (root', dirs', files') ∈ os_walk f models_dir ∧ file' ∈ files'
                  ∧ root ++ [file] = root' ++ [file']) as Hq
          by (by exists root, dirs, files, file).
        apply os_walk_files in Hq as (Hd & r & file' & n & Hp & Hn & Hsome & Hall).
        split; [done|]. exists r, file', n. split_and!; try done.
        rewrite app_assoc in Hp. apply app_inj_tail in Hp as [_ <-]. done.
      * intros (Hd & r & file & n & -> & He & Hn & Hsome & Hall).
        destruct (proj2 (os_walk_files f models_dir (models_dir ++ r ++ [file])))
          as (root & dirs & files & file' & Hw & Hf & Hp).
        { split; [done|]. by exists r, file, n. }
        exists root, dirs, files, file'. split_and!; try done.
        rewrite app_assoc in Hp. apply app_inj_tail in Hp as [_ <-]. done.
    + split; [by intros H%elem_of_nil|]. intros [Hd _].
      apply fs_is_dir_exists in Hd. congruence.
  - intros Hd. destruct (fs_exists f models_dir); [|done].
    unfold os_walk, walk_roots. by rewrite Hd.
Qed.

(** ** [audio2text.py]: what a counted file leaves behind *)

Section Audio2TextMarkdown.

Import Audio2Text.

Variable ffmpeg : tool.
Variable recognize : fsmap → path → pystr.

Lemma markdown_is_not_audio (output_dir audio_dir : path) (s : pystr) :
  audio_dir ++ [s ++ py ".mp3"] ≠ output_dir ++ [s ++ py ".md"].
Proof.
  intros H. apply app_inj_tail in H as [_ H]. apply app_inv_head in H. discriminate H.
Qed.

Lemma save_as_markdown_written text p source_file model w w' :
  save_as_markdown text p source_file model w = (Ok true, w') →
  node_at (w_fs w') p = Some (File (markdown_size text source_file model)).
Proof.
  unfold save_as_markdown, write_file, update_fs, try_except, bind, ret, fs_write.
  unfold node_at at 1.
  destruct (is_anchor p) eqn:Ha; [done|].
  destruct (w_fs w !! p) as [[]|]; [| done |].
  all: destruct (node_at (w_fs w) (removelast p)) as [[]|]; try done.
  all: intros [= <-]; unfold node_at; rewrite Ha; simpl; by rewrite lookup_insert_eq.
Qed.

(** Property X24.  [audio2text.py] counts a file as processed only when its
    markdown file has been written in this round: the file was not there
    before, the recognised text has at least five characters after
    stripping, and afterwards the markdown file is there with the size of
    the two headings, the three metadata lines and the text. *)
Theorem counted_file_has_markdown output_dir audio_dir model_type keep_audio mp4_file
    processed w w' :
  let md_file := output_dir ++ [stem mp4_file ++ py ".md"] in
  process_file ffmpeg recognize output_dir audio_dir model_type keep_audio
    mp4_file processed w = (Ok (S processed), w') →
  fs_exists (w_fs w) md_file = false
  ∧ ∃ text,
      (5 ≤ length (strip text))%nat
      ∧ node_at (w_fs w') md_file
        = Some (File (markdown_size text (name mp4_file) model_type)).
Proof.
  intros md_file. unfold process_file. fold md_file.
  set (audio_file := audio_dir ++ [stem mp4_file ++ py ".mp3"]).
  assert (∀ w0, (Ok processed, w0) = (Ok (S processed), w') → False) as Hno
    by (intros w0 [= Hp _]; lia).
  unfold bind at 1. unfold os_path_exists at 1, read_fs.
  destruct (fs_exists (w_fs w) md_file) eqn:Hmd; [unfold ret; intros H; by apply Hno in H|].
  unfold bind at 1.
  destruct (extract_audio_returns ffmpeg mp4_file audio_file w) as (b & w1 & ->).
  destruct b; simpl; [|unfold ret; intros H; by apply Hno in H].
  unfold bind at 1. unfold os_path_exists at 1, read_fs.
  unfold bind at 1.
  match goal with |- context [(if ?c then ?a else ?b) w1] =>
    destruct ((if c then a else b) w1) as [[inv|e] w2] eqn:Hinv end; [|done].
  assert (w2 = w1) as ->.
  { revert Hinv. unfold_monad. repeat case_match; intros; simplify_eq/=; done. }
  destruct inv; [unfold ret; intros H; by apply Hno in H|].
  unfold bind at 1. unfold transcribe. unfold bind at 1.
  unfold os_path_exists at 1, read_fs.
  match goal with |- context [(if ?c then ?a else ?b) w1] =>
    destruct ((if c then a else b) w1) as [[text|e] w2] eqn:Htext end.
  2: { revert Htext. unfold_monad. repeat case_match; intros; simplify_eq/=. }
  assert (w2 = w1) as ->.
  { revert Htext. unfold_monad. repeat case_match; intros; simplify_eq/=; done. }
  destruct (bool_decide (text = []) || (length (strip text) <? 5)%nat) eqn:Hshort;
    [unfold ret; intros H; by apply Hno in H|].
  apply orb_false_iff in Hshort as [_ Hlen]. apply Nat.ltb_ge in Hlen.
  unfold bind at 1.
  destruct (save_as_markdown text md_file (name mp4_file) model_type w1)
    as [[saved|e] w3] eqn:Hsave; [|done].
  unfold bind at 1. unfold os_path_exists at 1, read_fs. unfold bind at 1. simpl.
  match goal with |- context [(if ?c then ?a else ?b) w3] =>
    destruct ((if c then a else b) w3) as [[[]|e] w4] eqn:Hrm end; [|done].
  unfold ret. intros [= Hcount <-]. split; [done|]. exists text. split; [done|].
  assert (saved = true) as -> by (destruct saved; [done | lia]).
  assert (node_at (w_fs w3) md_file
          = Some (File (markdown_size text (name mp4_file) model_type))) as Hwritten.
  { by apply save_as_markdown_written in Hsave. }
  rewrite <- Hwritten.
  destruct (negb keep_audio && fs_exists (w_fs w3) audio_file) eqn:Hk.
  - assert ((if fs_exists (w_fs w3) audio_file then os_unlink audio_file else ret tt) w3
            = (Ok tt, w4)) as Hrm'.
    { apply andb_true_iff in Hk as [_ ->]. done. }
    by apply (unlink_if_exists_other _ md_file) in Hrm';
      [|apply markdown_is_not_audio].
  - unfold ret in Hrm. by injection Hrm as <-.
Qed.

End Audio2TextMarkdown.

(** ** [video2audio.py]: exceptions of a pooled run *)

Section BatchExceptions.

Import Video2Audio.

Variable ffmpeg : tool.
Variable ffmpeg_path : pystr.
Variable as_completed : list task → list task.

(** Property X25.  With more than one worker an exception leaves
    [batch_convert] only before the encoder has been started: the loop over
    the futures catches whatever a job raises, and with a single task, which
    is run without the pool, the only exception of the job is the one of
    [os.makedirs], raised before its start. *)
Theorem pool_raises_before_any_start input_dir output_dir fmt q br sr ch recursive keep ow
    max_workers w e w' :
  (1 < max_workers)%Z →
  batch_convert ffmpeg ffmpeg_path as_completed
    input_dir output_dir fmt q br sr ch recursive keep ow max_workers w
  = (Raise e, w') →
  w_calls w' = w_calls w.
Proof.
  intros Hmw Hb. rewrite batch_convert_eq in Hb.
  destruct (negb _); [done|]. simpl in Hb.
  destruct (fs_mkdir_p _ _) as [f1|]; [|by injection Hb as _ <-].
  case_bool_decide; [done|].
  destruct (build_tasks _ _ _ _ _ _ _ _ _ _ _) as [[[st0 ts]|] w1] eqn:Hbuild.
  2: { apply build_tasks_spec in Hbuild as (Hcalls & _). by injection Hb as _ <-. }
  apply build_tasks_spec in Hbuild as (Hcalls & _). simpl in Hb, Hcalls.
  apply Z.ltb_lt in Hmw. rewrite Hmw in Hb. simpl in Hb.
  destruct (1 <? length ts)%nat eqn:Hlen.
  - destruct (for_each_pooled_returns ffmpeg ffmpeg_path (as_completed ts) st0 w1)
      as (st1 & w2 & Hloop).
    rewrite Hloop in Hb. done.
  - apply Nat.ltb_ge in Hlen.
    destruct ts as [|t [|t2 ts]]; simpl in Hlen; [done | | lia].
    simpl in Hb. unfold run_task in Hb. unfold bind at 1 2 in Hb.
    destruct (convert_video_to_audio ffmpeg ffmpeg_path t w1) as [[[b m]|e1] w2] eqn:Hc.
    + by destruct b.
    + apply convert_raise in Hc as (-> & _). by injection Hb as _ <-.
Qed.

End BatchExceptions.

(** ** The further properties at concrete inputs *)

(** The conversion of [in/a.mp4] with an encoder that writes its output. *)
Lemma conversion_success_is_sound_witness :
  let t := Video2Audio.Task [py "in"; py "a.mp4"] [py "out"; py "a.mp3"] (py "mp3")
             None None None None true in
  let run := Video2Audio.convert_video_to_audio writing_tool (py "ffmpeg") t
               (World two_videos []) in
  run.1 = Ok (true, Video2Audio.Converted)
  ∧ fs_exists (w_fs run.2) [py "out"; py "a.mp3"] = true
  ∧ length (w_calls run.2) = 1%nat.
Proof.
  intros t run.
  assert (run = (Ok (true, Video2Audio.Converted), run.2)) as Hrun by reflexivity.
  destruct (conversion_success_is_sound writing_tool (py "ffmpeg") t (World two_videos [])
              Video2Audio.Converted run.2 Hrun)
    as (_ & He & _ & cfg & f1 & err & _ & _ & Hc & _).
  split; [exact (f_equal fst Hrun)|]. split; [exact He|].
  rewrite Hc. reflexivity.
Defined.

(** A task whose output is there, with overwriting off: nothing is
    started. *)
Lemma encoder_started_only_after_checks_witness :
  let t := Video2Audio.Task [py "in"; py "a.mp4"] [py "out"; py "a.mp3"] (py "mp3")
             None None None None false in
  Video2Audio.convert_video_to_audio writing_tool (py "ffmpeg") t (World all_done [])
  = (Ok (false, Video2Audio.OutputExists [py "out"; py "a.mp3"]), World all_done []).
Proof.
  intros t.
  exact (proj1 (proj2 (proj2 (encoder_started_only_after_checks writing_tool (py "ffmpeg") t
                                (World all_done [])))
                  all_done eq_refl eq_refl) eq_refl eq_refl).
Defined.

(** A conversion on which the encoder exceeds the time limit. *)
Lemma conversion_exceptions_witness :
  let t := Video2Audio.Task [py "in"; py "c.avi"] [py "out"; py "c.mp3"] (py "mp3")
             None None None None true in
  (Video2Audio.convert_video_to_audio timeout_on_avi (py "ffmpeg") t
     (World three_videos [])).1
  = Ok (false, Video2Audio.Timeout).
Proof.
  intros t.
  pose (cfg := Video2Audio.FormatConfig (py ".mp3") (py "libmp3lame") [py "-q:a"; py "2"]
                 (Some (py "192k"))).
  exact (f_equal fst
           (proj2 (conversion_exceptions timeout_on_avi (py "ffmpeg") t
                     (World three_videos []))
                  cfg three_videos TimeoutExpired three_videos
                  eq_refl eq_refl eq_refl eq_refl eq_refl)).
Defined.

(** A directory without videos, and an input path that is a file. *)
Lemma batch_convert_early_exits_witness :
  (Video2Audio.batch_convert writing_tool (py "ffmpeg") id [py "in"] (Some [py "out"])
     (py "mp3") None None None None false false true 2%Z (World one_audio [])).1
  = Ok (Video2Audio.NoVideoFiles (Video2Audio.Stats 0 0 0 0 0))
  ∧ Video2Audio.batch_convert writing_tool (py "ffmpeg") id [py "in"; py "a.wav"]
      (Some [py "out"]) (py "mp3") None None None None false false true 2%Z
      (World one_audio [])
    = (Ok Video2Audio.InputDirMissing, World one_audio []).
Proof.
  split.
  - exact (f_equal fst
             (proj1 (proj2 (batch_convert_early_exits writing_tool (py "ffmpeg") id
                              [py "in"] (Some [py "out"]) (py "mp3") None None None None
                              false false true 2%Z (World one_audio []))
                           one_audio eq_refl eq_refl eq_refl))).
  - exact (proj1 (batch_convert_early_exits writing_tool (py "ffmpeg") id
                    [py "in"; py "a.wav"] (Some [py "out"]) (py "mp3") None None None None
                    false false true 2%Z (World one_audio []))
                 eq_refl).
Defined.

(** A run over [two_videos] with overwriting on: both videos are
    converted. *)
Lemma overwrite_converts_every_video_witness :
  let st := Video2Audio.Stats 2 2 0 0 0 in
  let run := Video2Audio.batch_convert writing_tool (py "ffmpeg") id [py "in"]
               (Some [py "out"]) (py "mp3") None None None None false false true 1%Z
               (World two_videos []) in
  run.1 = Ok (Video2Audio.Finished st)
  ∧ Video2Audio.skipped st = 0%nat
  ∧ (Video2Audio.success st + Video2Audio.failed st = Video2Audio.total st)%nat.
Proof.
  intros st run.
  assert (run = (Ok (Video2Audio.Finished st), run.2)) as Hrun by reflexivity.
  split; [exact (f_equal fst Hrun)|].
  exact (proj2 (overwrite_converts_every_video writing_tool (py "ffmpeg") id id_completes
                  [py "in"] (Some [py "out"]) (py "mp3") None None None None false false 1%Z)
               (World two_videos []) st run.2 Hrun).
Defined.

(** The run over [three_videos] in which one conversion times out: three
    starts, two successes. *)
Lemma success_needs_a_start_witness :
  let st := Video2Audio.Stats 3 2 1 0 0 in
  let run := Video2Audio.batch_convert timeout_on_avi (py "ffmpeg") id [py "in"]
               (Some [py "out"]) (py "mp3") None None None None false false true 2%Z
               (World three_videos []) in
  run.1 = Ok (Video2Audio.Finished st)
  ∧ ∃ l, w_calls run.2 = [] ++ l
         ∧ (Video2Audio.success st ≤ length l)%nat
         ∧ (length l ≤ Video2Audio.success st + Video2Audio.failed st)%nat.
Proof.
  intros st run.
  assert (run = (Ok (Video2Audio.Finished st), run.2)) as Hrun by reflexivity.
  split; [exact (f_equal fst Hrun)|].
  exact (success_needs_a_start timeout_on_avi (py "ffmpeg") id id_completes
           [py "in"] (Some [py "out"]) (py "mp3") None None None None false false true 2%Z
           (World three_videos []) st run.2 Hrun).
Defined.

(** [video2audio.py in -o out] on a directory without videos, and on two
    videos that both run into the time limit. *)
Lemma exit_status_of_main_witness :
  let args := Video2Audio.Args [py "in"] (Some [py "out"]) (py "mp3") None None None None
                false false false 2%Z None false false in
  (Video2Audio.main (installed writing_tool) id args (World one_audio [])).1
  = Ok (Video2Audio.SysExit 1)
  ∧ (Video2Audio.main (installed (timeout_on (py ".mp4"))) id args (World two_videos [])).1
    = Ok (Video2Audio.Returned (Video2Audio.Finished (Video2Audio.Stats 2 0 2 0 0))).
Proof.
  intros args. split.
  - exact (f_equal fst
             (proj1 (proj2 (proj2 (exit_status_of_main (installed writing_tool) id args
                                     (World one_audio [])
                                     (λ h f, ex_intro _ (py "ffmpeg version 6.0") eq_refl))
                                  eq_refl eq_refl))
                    one_audio eq_refl eq_refl eq_refl)).
  - pose (w2 := World two_videos [Video2Audio.version_cmd (py "ffmpeg");
                                  Video2Audio.version_cmd (py "ffmpeg")]).
    pose (run := Video2Audio.batch_convert (installed (timeout_on (py ".mp4"))) (py "ffmpeg")
                   id [py "in"] (Some [py "out"]) (py "mp3") None None None None
                   false false true 2%Z w2).
    assert (run = (Ok (Video2Audio.Finished (Video2Audio.Stats 2 0 2 0 0)), run.2))
      as Hrun by reflexivity.
    exact (f_equal fst
             (proj2 (proj2 (proj2 (exit_status_of_main (installed (timeout_on (py ".mp4")))
                                     id args (World two_videos [])
                                     (λ h f, ex_intro _ (py "ffmpeg version 6.0") eq_refl))
                                  eq_refl eq_refl))
                    (Video2Audio.Stats 2 0 2 0 0) run.2 eq_refl Hrun)).
Defined.

(** [video2audio.py in -o out] without an encoder. *)
Lemma missing_encoder_exits_1_witness :
  let args := Video2Audio.Args [py "in"] (Some [py "out"]) (py "mp3") None None None None
                false false false 2%Z None false false in
  let vc := Video2Audio.version_cmd (py "ffmpeg") in
  Video2Audio.main not_installed id args (World two_videos [])
  = (Ok (Video2Audio.SysExit 1), World two_videos [vc; vc]).
Proof.
  intros args vc.
  exact (proj1 (missing_encoder_exits_1 not_installed id args (World two_videos []))
               (λ h f, eq_refl)).
Defined.


(** One compression in which both stages go through. *)
Lemma two_stage_compress_outcomes_witness :
  let run := AudioCompresser.two_stage_compress writing_tool (λ _, Ok temp_opus)
               [py "in"; py "a.wav"] [py "out"; py "a.mp3"] (py "6k") (py "16k")
               (World one_audio []) in
  run.1 = Ok (true, AudioCompresser.Succeeded 7 1024)
  ∧ w_calls run.2
    = [] ++ [AudioCompresser.opus_cmd [py "in"; py "a.wav"] temp_opus (py "6k");
             AudioCompresser.mp3_cmd temp_opus [py "out"; py "a.mp3"] (py "16k")].
Proof.
  intros run.
  assert (run = (Ok (true, AudioCompresser.Succeeded 7 1024), run.2)) as Hrun by reflexivity.
  split; [exact (f_equal fst Hrun)|].
  destruct (two_stage_compress_outcomes writing_tool (λ _, Ok temp_opus)
              [py "in"; py "a.wav"] [py "out"; py "a.mp3"] (py "6k") (py "16k")
              (World one_audio [])) as (b & m & w' & Hrun' & _ & Hcalls & _).
  fold run in Hrun'.
  assert (w' = run.2) as Hw by (rewrite Hrun'; reflexivity).
  assert (b = true) as Hb
    by exact (f_equal (λ x : result (bool * AudioCompresser.message) * world,
                         match x.1 with Ok (b', _) => b' | Raise _ => true end)
                (eq_trans (eq_sym Hrun') Hrun)).
  rewrite <- Hw.
  destruct (Hcalls temp_opus eq_refl eq_refl) as [[_ Hf] | Hc]; [|exact Hc].
  rewrite Hb in Hf. discriminate Hf.
Defined.


(** One round for [a.wav]: the Opus file has 7 bytes, the original 1024, so
    the MP3 file is made from the Opus file. *)
Lemma dual_output_round_witness :
  let opus_path := [py "in"; py "opus_mini"; py "a.opus"] in
  let run := AudioCompresser.dual_one writing_tool [py "in"] [py "in"; py "opus_mini"]
               [py "in"; py "mp3_wechat"] (py "a.wav") tt (World one_audio []) in
  run.1 = Ok tt
  ∧ w_calls run.2
    = [AudioCompresser.dual_opus_cmd [py "in"; py "a.wav"] opus_path;
       AudioCompresser.dual_mp3_cmd opus_path [py "in"; py "mp3_wechat"; py "a.mp3"]].
Proof.
  intros opus_path run.
  assert (run = (Ok tt, run.2)) as Hrun by reflexivity.
  split; [exact (f_equal fst Hrun)|].
  destruct (dual_output_round writing_tool [py "in"] [py "in"; py "opus_mini"]
              [py "in"; py "mp3_wechat"] (py "a.wav") (World one_audio []) run.2 Hrun)
    as [[_ [Hno | Hno]] | (original & r1 & f1 & _ & _ & Hsz & Hr1 & Hc)].
  - exfalso. apply Hno. exact (bool_decide_eq_true_1
             (lower (splitext (py "a.wav")).2 ∈ AudioCompresser.dual_extensions) eq_refl).
  - discriminate Hno.
  - reflexivity.
Defined.

(** The folder of [empty_audio]: the empty [a.wav] ends the loop, [b.wav]
    is never looked at. *)
Lemma empty_file_stops_dual_output_witness :
  let opus_path := [py "in"; py "opus_mini"; py "a.opus"] in
  (for_each [py "a.wav"; py "b.wav"]
     (AudioCompresser.dual_one writing_tool [py "in"] [py "in"; py "opus_mini"]
        [py "in"; py "mp3_wechat"]) tt (World empty_audio [])).1
  = Raise ZeroDivisionError.
Proof.
  intros opus_path.
  refine (f_equal fst
            (empty_file_stops_dual_output writing_tool [py "in"] [py "in"; py "opus_mini"]
               [py "in"; py "mp3_wechat"] [] (py "a.wav") [py "b.wav"]
               (World empty_audio []) (World empty_audio []) (0%Z, [])
               (<[opus_path := File 7]> empty_audio) eq_refl _ eq_refl eq_refl eq_refl
               eq_refl)).
  exact (bool_decide_eq_true_1
             (lower (splitext (py "a.wav")).2 ∈ AudioCompresser.dual_extensions) eq_refl).
Defined.

(** [audio2text.py in -o out] on one video whose text is accepted. *)
Lemma processed_count_is_bounded_witness :
  let run := Audio2Text.main writing_tool true (λ _ _, py "hello world") [py "in"]
               (Some [py "out"]) (py "whisper") false (World one_video []) in
  run.1 = Ok (Audio2Text.Processed 1 1)
  ∧ (1 ≤ 1)%nat ∧ (0 < 1)%nat
  ∧ ∃ l, w_calls run.2 = [] ++ l ∧ (length l ≤ 2 * 1)%nat.
Proof.
  intros run.
  assert (run = (Ok (Audio2Text.Processed 1 1), run.2)) as Hrun by reflexivity.
  split; [exact (f_equal fst Hrun)|].
  exact (processed_count_is_bounded writing_tool true (λ _ _, py "hello world") [py "in"]
           (Some [py "out"]) (py "whisper") false (World one_video []) 1%nat 1%nat run.2
           Hrun).
Defined.

(** A second run, with [out/talk.md] in place. *)
Lemma audio2text_rerun_starts_nothing_witness :
  let transcribed := <[ [py "out"; py "talk.md"] := File 90 ]> one_video in
  let run := Audio2Text.main writing_tool true (λ _ _, py "hello world") [py "in"]
               (Some [py "out"]) (py "whisper") false (World transcribed []) in
  w_calls run.2 = [] ∧ ∀ n m, run.1 = Ok (Audio2Text.Processed n m) → n = 0%nat.
Proof.
  intros transcribed run.
  refine (audio2text_rerun_starts_nothing writing_tool true (λ _ _, py "hello world")
            [py "in"] (Some [py "out"]) (py "whisper") false (World transcribed [])
            transcribed transcribed run.1 run.2 eq_refl eq_refl _ (surjective_pairing run)).
  intros p Hp.
  assert (glob_mp4 transcribed [py "in"] = [[py "in"; py "talk.mp4"]]) as Hglob
    by reflexivity.
  rewrite Hglob in Hp. apply list_elem_of_singleton in Hp. rewrite Hp. reflexivity.
Defined.

(** The model type [local_gguf] on a directory with one video. *)
Lemma local_gguf_never_transcribes_witness :
  let run := Audio2Text.main writing_tool true (λ _ _, py "hello world") [py "in"]
               (Some [py "out"]) (py "local_gguf") false (World one_video []) in
  run.1 = Ok Audio2Text.Exit1 ∧ w_calls run.2 = [].
Proof.
  intros run.
  split; [reflexivity|].
  exact (proj1 (local_gguf_never_transcribes writing_tool true (λ _ _, py "hello world")
                  [py "in"] (Some [py "out"]) false (World one_video []) run.1 run.2
                  (surjective_pairing run))).
Defined.

(** A directory without MP4 files. *)
Lemma no_mp4_leaves_temp_directory_witness :
  let run := Audio2Text.main writing_tool true (λ _ _, py "hello world") [py "in"]
               (Some [py "out"]) (py "whisper") false (World one_audio []) in
  fs_exists one_audio [py "out"; py "temp_audio"] = false
  ∧ run.1 = Ok Audio2Text.NoFiles
  ∧ fs_is_dir (w_fs run.2) [py "out"; py "temp_audio"] = true.
Proof.
  intros run.
  assert (run = (Ok Audio2Text.NoFiles, run.2)) as Hrun by reflexivity.
  split; [reflexivity|]. split; [exact (f_equal fst Hrun)|].
  exact (proj1 (proj2 (no_mp4_leaves_temp_directory writing_tool true
                         (λ _ _, py "hello world") [py "in"] (Some [py "out"])
                         (py "whisper") false (World one_audio []) run.2 Hrun))).
Defined.

(** A second run of [soundext.py], with [out/talk.md] in place. *)
Lemma soundext_rerun_extracts_nothing_witness :
  let transcribed := <[ [py "out"; py "talk.md"] := File 42 ]> one_video in
  ∃ w', SoundExt.process_mp4_files writing_tool None (λ _ _, py "abc") (λ _ _, [])
          [py "in"] (Some [py "out"]) false true (World transcribed []) = (Ok tt, w')
        ∧ w_calls w' = [].
Proof.
  intros transcribed.
  destruct (soundext_rerun_extracts_nothing writing_tool None (λ _ _, py "abc") (λ _ _, [])
              [py "in"] (Some [py "out"]) false true (World transcribed [])
              transcribed transcribed eq_refl eq_refl) as (w' & Hrun & Hc & _).
  - intros p Hp.
    assert (glob_mp4 transcribed [py "in"] = [[py "in"; py "talk.mp4"]]) as Hglob
      by reflexivity.
    rewrite Hglob in Hp. apply list_elem_of_singleton in Hp. rewrite Hp. reflexivity.
  - exists w'. split; [exact Hrun | exact Hc].
Defined.



(** [models/sub/b.gguf] is found in [models]. *)
Lemma gguf_models_found_witness :
  [py "models"; py "sub"; py "b.gguf"] ∈ Audio2Text.find_gguf_models models [py "models"].
Proof.
  apply (proj2 (proj1 (gguf_models_found models [py "models"]
                         [py "models"; py "sub"; py "b.gguf"]))).
  split; [reflexivity|].
  exists [py "sub"], (py "b.gguf"), 6.
  split; [reflexivity|]. split; [reflexivity|]. split; [reflexivity|].
  split; [intros _; exact (ex_intro _ Dir eq_refl)|].
  intros k Hk. destruct k as [|[|k]]; [lia | reflexivity | simpl in Hk; lia].
Defined.

(** Two workers and one video whose audio file would go to the current
    directory: [os.makedirs] raises and nothing has been started. *)
Lemma pool_raises_before_any_start_witness :
  let run := Video2Audio.batch_convert writing_tool (py "ffmpeg") id [py "in"]
               (Some []) (py "mp3") None None None None false false true 2%Z
               (World one_video []) in
  run.1 = Raise FileNotFoundError ∧ w_calls run.2 = [].
Proof.
  intros run.
  assert (run = (Raise FileNotFoundError, run.2)) as Hrun by reflexivity.
  split; [exact (f_equal fst Hrun)|].
  exact (pool_raises_before_any_start writing_tool (py "ffmpeg") id [py "in"] (Some [])
           (py "mp3") None None None None false false true 2%Z (World one_video [])
           FileNotFoundError run.2 eq_refl Hrun).
Defined.

(** One round of [audio2text.py] that counts its file. *)
Lemma counted_file_has_markdown_witness :
  let mp4 := [py "in"; py "talk.mp4"] in
  let md_file := [py "out"] ++ [stem mp4 ++ py ".md"] in
  let run := Audio2Text.process_file writing_tool (λ _ _, py "hello world") [py "out"]
               [py "out"; py "temp_audio"] (py "whisper") false mp4 0%nat
               (World one_video []) in
  run.1 = Ok 1%nat
  ∧ fs_exists one_video md_file = false
  ∧ ∃ text,
      (5 ≤ length (strip text))%nat
      ∧ node_at (w_fs run.2) md_file
        = Some (File (Audio2Text.markdown_size text (name mp4) (py "whisper"))).
Proof.
  intros mp4 md_file run.
  assert (run = (Ok 1%nat, run.2)) as Hrun by reflexivity.
  split; [exact (f_equal fst Hrun)|].
  exact (counted_file_has_markdown writing_tool (λ _ _, py "hello world") [py "out"]
           [py "out"; py "temp_audio"] (py "whisper") false mp4 0%nat
           (World one_video []) run.2 Hrun).
Defined.
